(** * Team decision simulator: API routes and interview page

    A shallow embedding of the request handlers of the simulator
    (scenario generation, opening prompt, next host prompt, analysis) and
    of the interview page that drives one simulation record, together with
    the properties of the design document that can be settled on them. *)

From Stdlib Require Import ZArith QArith Ascii String List Lia Bool.
From stdpp Require Import base option list gmap strings pretty.

Local Open Scope string_scope.
Local Open Scope list_scope.

(* ===================================================================== *)
(** * JavaScript strings *)
(* ===================================================================== *)

(** A JavaScript string is a sequence of UTF-16 code units.  A character
    of [string] is one code unit, so that positions and lengths are
    JavaScript's; [ascii] holds the code units 0 to 255 (U+0000 to U+00FF),
    and the texts with a code unit above 255 are outside this development.
    The operations of [String.prototype] that the handlers use are written
    over [list ascii] and wrapped. *)

Module Js.

Definition chars (s : string) : list ascii := list_ascii_of_string s.
Definition str (l : list ascii) : string := string_of_list_ascii l.

(** White space removed by [trim]: the code units up to 255 of the
    ECMAScript WhiteSpace and LineTerminator classes, which are TAB, LF, VT,
    FF, CR, SP and the no-break space U+00A0.  The other members of the two
    classes (U+1680, U+2000 to U+200A, U+2028, U+2029, U+202F, U+205F,
    U+3000 and U+FEFF) are code units above 255. *)
Definition is_space (c : ascii) : bool :=
  let n := nat_of_ascii c in
  ((9 <=? n)%nat && (n <=? 13)%nat) || (n =? 32)%nat || (n =? 160)%nat.

Fixpoint trim_start (l : list ascii) : list ascii :=
  match l with
  | c :: r => if is_space c then trim_start r else l
  | [] => []
  end.

Definition trim_end (l : list ascii) : list ascii :=
  rev (trim_start (rev l)).

(** [s.trim()] *)
Definition trim_chars (l : list ascii) : list ascii :=
  trim_end (trim_start l).

Definition trim (s : string) : string := str (trim_chars (chars s)).

(** [s.startsWith(c)] for a one-character pattern. *)
Definition starts_with_char (c : ascii) (l : list ascii) : bool :=
  match l with
  | d :: _ => Ascii.eqb c d
  | [] => false
  end.

(** [s.indexOf(c)]: [None] stands for -1. *)
Fixpoint index_of (c : ascii) (l : list ascii) : option nat :=
  match l with
  | [] => None
  | d :: r => if Ascii.eqb c d then Some 0%nat
              else match index_of c r with
                   | Some i => Some (S i)
                   | None => None
                   end
  end.

(** [s.lastIndexOf(c)]: [None] stands for -1. *)
Fixpoint last_index_of (c : ascii) (l : list ascii) : option nat :=
  match l with
  | [] => None
  | d :: r => match last_index_of c r with
              | Some i => Some (S i)
              | None => if Ascii.eqb c d then Some 0%nat else None
              end
  end.

(** [s.slice(i, j)] for [0 <= i], [0 <= j]. *)
Definition slice (i j : nat) (l : list ascii) : list ascii :=
  take (j - i) (drop i l).

(** Lower-casing of the letters A to Z, used for the [i] flag of a regular
    expression without the [u] flag: no other code unit up to 255 is
    matched by a letter of the pattern below. *)
Definition to_lower (c : ascii) : ascii :=
  let n := nat_of_ascii c in
  if ((65 <=? n)%nat && (n <=? 90)%nat) then ascii_of_nat (n + 32) else c.

(** Replacing the pattern [/^Host:/i] by the empty string: the five
    characters are dropped when the string begins with them, in any letter
    case. *)
Definition strip_host_label (l : list ascii) : list ascii :=
  match l with
  | h :: o :: s :: t :: c :: r =>
      if Ascii.eqb (to_lower h) "h" && Ascii.eqb (to_lower o) "o"
         && Ascii.eqb (to_lower s) "s" && Ascii.eqb (to_lower t) "t"
         && Ascii.eqb c ":"
      then r else l
  | _ => l
  end.

(** The double quote character, code 34. *)
Definition dquote : ascii := ascii_of_nat 34.

(** Replacing every match of the pattern that is a single double quote,
    with the [g] flag, by the empty string. *)
Definition remove_dquotes (l : list ascii) : list ascii :=
  filter (fun c => c <> dquote) l.

End Js.

(* ===================================================================== *)
(** * JSON values *)
(* ===================================================================== *)

(** The values [JSON.parse] produces.  Numbers are kept as exact rationals
    (the rounding of IEEE doubles is not modelled); an object is the list of
    its members in source order. *)
#[warnings="-register-all"]
Inductive json : Type :=
| JNull
| JBool (b : bool)
| JNumber (q : Q)
| JString (s : string)
| JArray (items : list json)
| JObject (members : list (string * json)).

(** ToBoolean on a JSON value: the truthiness tested by [!x] and [if (x)]. *)
Definition truthy (v : json) : bool :=
  match v with
  | JNull => false
  | JBool b => b
  | JNumber q => negb (Qeq_bool q 0)
  | JString s => negb (String.eqb s EmptyString)
  | JArray _ => true
  | JObject _ => true
  end.

(** ToBoolean on a possibly [undefined] value. *)
Definition truthy_opt (v : option json) : bool :=
  match v with
  | Some v => truthy v
  | None => false
  end.

(** Own-property lookup in an object literal: when a key is repeated the
    last member wins, as in [JSON.parse]. *)
Fixpoint member (k : string) (ms : list (string * json)) : option json :=
  match ms with
  | [] => None
  | (k', v) :: r =>
      match member k r with
      | Some w => Some w
      | None => if String.eqb k k' then Some v else None
      end
  end.

(** [v?.k] for a key that is no built-in property: defined only on objects. *)
Definition prop (k : string) (v : json) : option json :=
  match v with
  | JObject ms => member k ms
  | _ => None
  end.

Definition keys (ms : list (string * json)) : list string := map fst ms.

(** A parser is what the handlers know of [JSON.parse]: a partial function
    from text to values ([None] is a thrown [SyntaxError]). *)
Definition Parser : Type := string -> option json.

(** ** A reference parser for the JSON grammar

    Recursive descent over the characters, used for the examples only: the
    theorems take the parser as a parameter.  It agrees with [JSON.parse]
    on the texts of the examples and differs from it elsewhere: it rejects
    the escapes of four hexadecimal digits, keeps all the members of an
    object in which a key is repeated (looked up with the last one
    winning), and keeps numbers as exact rationals. *)
Module Ecma.

Import Js.

Definition is_digit (c : ascii) : bool :=
  let n := nat_of_ascii c in (48 <=? n)%nat && (n <=? 57)%nat.

Definition digit_val (c : ascii) : Z := Z.of_nat (nat_of_ascii c) - 48.

(** JSON white space: SP, TAB, LF, CR. *)
Definition is_ws (c : ascii) : bool :=
  let n := nat_of_ascii c in
  (n =? 32)%nat || (n =? 9)%nat || (n =? 10)%nat || (n =? 13)%nat.

Fixpoint skip_ws (l : list ascii) : list ascii :=
  match l with
  | c :: r => if is_ws c then skip_ws r else l
  | [] => []
  end.

(** Digits read so far as a number, how many were read, and the rest. *)
Fixpoint digits (acc : Z) (cnt : nat) (l : list ascii) : Z * nat * list ascii :=
  match l with
  | c :: r => if is_digit c then digits (10 * acc + digit_val c) (S cnt) r
              else (acc, cnt, l)
  | [] => (acc, cnt, [])
  end.

Definition pow10 (e : Z) : Q :=
  if (0 <=? e)%Z then inject_Z (10 ^ e) else (1 # Z.to_pos (10 ^ (- e))).

(** number = [-] int [frac] [exp] *)
Definition number (l : list ascii) : option (Q * list ascii) :=
  let '(neg, l1) := match l with
                    | "-"%char :: r => (true, r)
                    | _ => (false, l)
                    end in
  let '(ip, n1, l2) := digits 0 0 l1 in
  let leading_zero := match l1 with
                      | "0"%char :: _ => (1 <? n1)%nat
                      | _ => false
                      end in
  if (n1 =? 0)%nat || leading_zero then None else
  let frac := match l2 with
              | "."%char :: r =>
                  let '(fp, n2, l3) := digits 0 0 r in
                  if (n2 =? 0)%nat then None else Some (fp, n2, l3)
              | _ => Some (0%Z, 0%nat, l2)
              end in
  match frac with
  | None => None
  | Some (fp, n2, l3) =>
      let ex := match l3 with
                | c :: r =>
                    if Ascii.eqb c "e" || Ascii.eqb c "E" then
                      let '(eneg, r1) := match r with
                                         | "-"%char :: r' => (true, r')
                                         | "+"%char :: r' => (false, r')
                                         | _ => (false, r)
                                         end in
                      let '(ev, n3, l4) := digits 0 0 r1 in
                      if (n3 =? 0)%nat then None
                      else Some ((if eneg then - ev else ev)%Z, l4)
                    else Some (0%Z, l3)
                | [] => Some (0%Z, l3)
                end in
      match ex with
      | None => None
      | Some (e, l4) =>
          let mant := (ip * 10 ^ Z.of_nat n2 + fp)%Z in
          let q := Qred (inject_Z mant * pow10 (e - Z.of_nat n2)) in
          Some (if neg then Qred (- q) else q, l4)
      end
  end.

Definition backslash : ascii := ascii_of_nat 92.

(** The characters of a string literal after its opening quote. *)
Fixpoint string_body (l : list ascii) : option (list ascii * list ascii) :=
  match l with
  | [] => None
  | c :: r =>
      if Ascii.eqb c dquote then Some ([], r)
      else if Ascii.eqb c backslash then
        match r with
        | e :: r' =>
            let unesc :=
              if Ascii.eqb e dquote then Some dquote
              else if Ascii.eqb e backslash then Some backslash
              else if Ascii.eqb e "/" then Some "/"%char
              else if Ascii.eqb e "n" then Some (ascii_of_nat 10)
              else if Ascii.eqb e "t" then Some (ascii_of_nat 9)
              else if Ascii.eqb e "r" then Some (ascii_of_nat 13)
              else if Ascii.eqb e "b" then Some (ascii_of_nat 8)
              else if Ascii.eqb e "f" then Some (ascii_of_nat 12)
              else None in
            match unesc, string_body r' with
            | Some u, Some (s, rest) => Some (u :: s, rest)
            | _, _ => None
            end
        | [] => None
        end
      else if (nat_of_ascii c <? 32)%nat then None
      else match string_body r with
           | Some (s, rest) => Some (c :: s, rest)
           | None => None
           end
  end.

Fixpoint value (fuel : nat) (l : list ascii) : option (json * list ascii) :=
  match fuel with
  | O => None
  | S fuel =>
      match skip_ws l with
      | "n"%char :: "u"%char :: "l"%char :: "l"%char :: r => Some (JNull, r)
      | "t"%char :: "r"%char :: "u"%char :: "e"%char :: r => Some (JBool true, r)
      | "f"%char :: "a"%char :: "l"%char :: "s"%char :: "e"%char :: r =>
          Some (JBool false, r)
      | "["%char :: r =>
          match skip_ws r with
          | "]"%char :: r' => Some (JArray [], r')
          | _ => match elements fuel r with
                 | Some (vs, r') => Some (JArray vs, r')
                 | None => None
                 end
          end
      | "{"%char :: r =>
          match skip_ws r with
          | "}"%char :: r' => Some (JObject [], r')
          | _ => match members fuel r with
                 | Some (ms, r') => Some (JObject ms, r')
                 | None => None
                 end
          end
      | c :: r =>
          if Ascii.eqb c dquote then
            match string_body r with
            | Some (s, r') => Some (JString (str s), r')
            | None => None
            end
          else match number (c :: r) with
               | Some (q, r') => Some (JNumber q, r')
               | None => None
               end
      | [] => None
      end
  end
with elements (fuel : nat) (l : list ascii) : option (list json * list ascii) :=
  match fuel with
  | O => None
  | S fuel =>
      match value fuel l with
      | Some (v, r) =>
          match skip_ws r with
          | ","%char :: r' =>
              match elements fuel r' with
              | Some (vs, r'') => Some (v :: vs, r'')
              | None => None
              end
          | "]"%char :: r' => Some ([v], r')
          | _ => None
          end
      | None => None
      end
  end
with members (fuel : nat) (l : list ascii)
  : option (list (string * json) * list ascii) :=
  match fuel with
  | O => None
  | S fuel =>
      match skip_ws l with
      | c :: r =>
          if Ascii.eqb c dquote then
            match string_body r with
            | Some (k, r1) =>
                match skip_ws r1 with
                | ":"%char :: r2 =>
                    match value fuel r2 with
                    | Some (v, r3) =>
                        match skip_ws r3 with
                        | ","%char :: r4 =>
                            match members fuel r4 with
                            | Some (ms, r5) => Some ((str k, v) :: ms, r5)
                            | None => None
                            end
                        | "}"%char :: r4 => Some ([(str k, v)], r4)
                        | _ => None
                        end
                    | None => None
                    end
                | _ => None
                end
            | None => None
            end
          else None
      | [] => None
      end
  end.

(** [JSON.parse(text)]: one value, then only white space. *)
Definition parse : Parser := fun text =>
  let l := chars text in
  match value (2 + 2 * length l) l with
  | Some (v, r) => match skip_ws r with
                   | [] => Some v
                   | _ => None
                   end
  | None => None
  end.

End Ecma.

(* ===================================================================== *)
(** * Data model *)
(* ===================================================================== *)

Record Scenario : Type := {
  title : string;
  description : string;
  keyDecision : string
}.

Inductive Role : Type := host | team.

(** An entry of the transcript as the interview page stores it.  The content
    is a JSON value: a team entry holds the typed text, a host entry what the
    route returned. *)
Record TranscriptEntry : Type := {
  role : Role;
  content : json;
  timestamp : N
}.

(** A document of the [simulations] collection.  [teamSize] is the result
    of [parseInt] ([None] is NaN); [analysis] is absent until the analysis
    route writes it. *)
Module Doc.
Record SimDoc : Type := {
  teamSize : option Z;
  domain : string;
  scenario : Scenario;
  status : string;
  createdAt : N;
  transcript : list TranscriptEntry;
  analysis : option json
}.

Definition set_transcript (t : list TranscriptEntry) (d : SimDoc) : SimDoc :=
  {| teamSize := teamSize d; domain := domain d; scenario := scenario d;
     status := status d; createdAt := createdAt d;
     transcript := t; analysis := analysis d |}.

Definition set_status (s : string) (d : SimDoc) : SimDoc :=
  {| teamSize := teamSize d; domain := domain d; scenario := scenario d;
     status := s; createdAt := createdAt d;
     transcript := transcript d; analysis := analysis d |}.

Definition set_analysis (a : json) (s : string) (d : SimDoc) : SimDoc :=
  {| teamSize := teamSize d; domain := domain d; scenario := scenario d;
     status := s; createdAt := createdAt d;
     transcript := transcript d; analysis := Some a |}.
End Doc.

(** ** Response schemas sent to the generative service

    The shape descriptors of the routes, without their [description] texts. *)
#[warnings="-register-all"]
Inductive Schema : Type :=
| SString
| SNumber
| SArray (items : Schema) (minItems maxItems : option nat)
| SObject (properties : list (string * Schema)) (required : list string).

Definition schema_properties (s : Schema) : list (string * Schema) :=
  match s with
  | SObject ps _ => ps
  | _ => []
  end.

Definition schema_required (s : Schema) : list string :=
  match s with
  | SObject _ req => req
  | _ => []
  end.

Fixpoint schema_property (k : string) (ps : list (string * Schema))
  : option Schema :=
  match ps with
  | [] => None
  | (k', s) :: r => if String.eqb k k' then Some s else schema_property k r
  end.

(** ** The generative language service

    A request is recorded by the schema it carries ([None] for free text)
    and its output limit.  A reply is seen through what the handlers read of
    it: either the call throws, or it resolves with an HTTP status, a status
    text, the raw body read on failure, and the text of the first part of
    the first candidate when there is one. *)
Record GeminiRequest : Type := {
  req_schema : option Schema;
  maxOutputTokens : N
}.

Inductive Exn : Type :=
| SyntaxError (message : string)
| Error (message : string).

Definition exn_message (e : Exn) : string :=
  match e with
  | SyntaxError m => m
  | Error m => m
  end.

Definition is_SyntaxError (e : Exn) : bool :=
  match e with
  | SyntaxError _ => true
  | Error _ => false
  end.

Record HttpReply : Type := {
  reply_status : nat;
  reply_statusText : string;
  reply_body : string;
  reply_text : option string
}.

Inductive GeminiReply : Type :=
| Rejected (e : Exn)
| Resolved (r : HttpReply).

(** [response.ok]: the status is in the range 200-299. *)
Definition reply_ok (r : HttpReply) : bool :=
  (200 <=? reply_status r)%nat && (reply_status r <=? 299)%nat.

(** ** The interview page's state (its [useState] and [useRef] cells) *)
Module Page.
Record State : Type := {
  scenario : option Scenario;
  teamSize : option Z;
  domain : string;
  loading : bool;
  error : option string;
  userResponse : string;
  simulationDocId : option string;
  transcript : list TranscriptEntry;
  initHasRun : bool;
  pushed : option string
}.

(** The state of a freshly mounted page. *)
Definition initial : State :=
  {| scenario := None; teamSize := Some 0%Z; domain := EmptyString;
     loading := true; error := None; userResponse := EmptyString;
     simulationDocId := None; transcript := []; initHasRun := false;
     pushed := None |}.
End Page.

(** ** The world a handler runs in *)
Record World : Type := {
  docs : gmap string Doc.SimDoc;      (* the simulations collection *)
  replies : list GeminiReply;         (* answers of the service, in order *)
  calls : list GeminiRequest;         (* requests issued, latest first *)
  clock : N;                          (* source of Timestamp.now() *)
  page : Page.State                   (* the mounted interview page *)
}.

Definition with_docs (f : gmap string Doc.SimDoc -> gmap string Doc.SimDoc)
  (w : World) : World :=
  {| docs := f (docs w); replies := replies w; calls := calls w;
     clock := clock w; page := page w |}.

Definition with_page (f : Page.State -> Page.State) (w : World) : World :=
  {| docs := docs w; replies := replies w; calls := calls w;
     clock := clock w; page := f (page w) |}.

(* ===================================================================== *)
(** * Handlers as state-and-exception computations *)
(* ===================================================================== *)

Inductive Outcome (A : Type) : Type :=
| Returned (a : A)
| Thrown (e : Exn).
Arguments Returned {A} a.
Arguments Thrown {A} e.

(** A computation reads and writes the world and either returns or throws;
    what it wrote before throwing stays written. *)
Definition M (A : Type) : Type := World -> Outcome A * World.

Definition ret {A} (a : A) : M A := fun w => (Returned a, w).

Definition throw {A} (e : Exn) : M A := fun w => (Thrown e, w).

Definition bind {A B} (m : M A) (k : A -> M B) : M B :=
  fun w => match m w with
           | (Returned a, w') => k a w'
           | (Thrown e, w') => (Thrown e, w')
           end.

(** [try { m } catch (e) { h e }] *)
Definition try_catch {A} (m : M A) (h : Exn -> M A) : M A :=
  fun w => match m w with
           | (Returned a, w') => (Returned a, w')
           | (Thrown e, w') => h e w'
           end.

(** [try { m } finally { f }] *)
Definition finally {A} (m : M A) (f : M unit) : M A :=
  fun w => match m w with
           | (r, w') => match f w' with
                        | (Returned _, w'') => (r, w'')
                        | (Thrown e, w'') => (Thrown e, w'')
                        end
           end.

Declare Scope handler_scope.
Delimit Scope handler_scope with handler.
Notation "'let*' x ':=' m 'in' k" := (bind m (fun x => k))
  (at level 10, x name, m at level 100, k at level 200) : handler_scope.
Notation "m ';;' k" := (bind m (fun _ => k))
  (at level 100, k at level 200, right associativity) : handler_scope.
Local Open Scope handler_scope.

Definition get_world : M World := fun w => (Returned w, w).
Definition modify (f : World -> World) : M unit := fun w => (Returned tt, f w).

(** [getDoc(doc(db, "simulations", id))]: the snapshot data, when it exists. *)
Definition getDoc (id : string) : M (option Doc.SimDoc) :=
  fun w => (Returned (docs w !! id), w).

(** [updateDoc(ref, fields)]: merges the fields into an existing document
    and rejects when there is none. *)
Definition updateDoc (id : string) (f : Doc.SimDoc -> Doc.SimDoc) : M unit :=
  fun w => match docs w !! id with
           | Some d => (Returned tt, with_docs (insert id (f d)) w)
           | None => (Thrown (Error "No document to update"), w)
           end.

(** [addDoc(collection(db, "simulations"), data)]: stores the data under an
    identifier not yet in use and returns it. *)
Definition addDoc (d : Doc.SimDoc) : M string :=
  fun w => let id := fresh (dom (docs w)) in
           (Returned id, with_docs (insert id d) w).

(** [Timestamp.now()] *)
Definition Timestamp_now : M N :=
  fun w => (Returned (clock w),
            {| docs := docs w; replies := replies w; calls := calls w;
               clock := N.succ (clock w); page := page w |}).

(** One call to the service: the request is recorded and the next reply
    consumed; with no reply left the call fails. *)
Definition fetch (req : GeminiRequest) : M HttpReply :=
  fun w =>
    let w' rs := {| docs := docs w; replies := rs; calls := req :: calls w;
                    clock := clock w; page := page w |} in
    match replies w with
    | Resolved r :: rs => (Returned r, w' rs)
    | Rejected e :: rs => (Thrown e, w' rs)
    | [] => (Thrown (Error "fetch failed"), w' [])
    end.

(** A response of one of the routes: [NextResponse.json(body, { status })]. *)
Record Response : Type := {
  res_status : nat;
  res_body : json
}.

Definition res_ok (r : Response) : bool :=
  (200 <=? res_status r)%nat && (res_status r <=? 299)%nat.

Definition json_ok (body : json) : Response :=
  {| res_status := 200; res_body := body |}.

Definition json_error (st : nat) (msg : string) : Response :=
  {| res_status := st; res_body := JObject [("error", JString msg)] |}.

Definition json_error_details (st : nat) (msg details : string) : Response :=
  {| res_status := st;
     res_body := JObject [("error", JString msg); ("details", JString details)] |}.

(** [NextResponse.json(body, { status })] with a status that is not a
    constant of the route.  The response is built by the constructor of
    [Response], which throws a RangeError for a status outside 200 to 599
    and a TypeError for a body together with a null-body status (in that
    range 204, 205 and 304).  The constant statuses of the routes, 200, 400,
    404 and 500, are all accepted. *)
Definition null_body_status (st : nat) : bool :=
  (st =? 204)%nat || (st =? 205)%nat || (st =? 304)%nat.

Definition status_accepted (st : nat) : bool :=
  (200 <=? st)%nat && (st <=? 599)%nat && negb (null_body_status st).

Definition NextResponse_json (r : Response) : M Response :=
  if status_accepted (res_status r) then ret r
  else throw (Error "Invalid response status code").

(** [!s] for an optional string. *)
Definition falsy_str (s : option string) : bool :=
  match s with
  | Some s => String.eqb s EmptyString
  | None => true
  end.

(* ===================================================================== *)
(** * Route [/api/analyze-interview] *)
(* ===================================================================== *)

Module AnalyzeInterview.

(** The schema the model is asked to follow. *)
Definition heatmapSchema : Schema :=
  SObject [("Decisiveness", SNumber);
           ("Ethical Focus", SNumber);
           ("Data-Driven", SNumber);
           ("Long-Term Thinking", SNumber);
           ("Bias for Action", SNumber);
           ("Collaboration", SNumber)]
          [].

Definition responseSchema : Schema :=
  SObject [("overallScore", SNumber);
           ("keyStrengths", SArray SString None None);
           ("growthAreas", SArray SString None None);
           ("actionableFeedback", SString);
           ("heatmapData", heatmapSchema)]
          ["overallScore"; "keyStrengths"; "growthAreas";
           "actionableFeedback"; "heatmapData"].

Definition request : GeminiRequest :=
  {| req_schema := Some responseSchema; maxOutputTokens := 8192 |}.

Section Route.
Variable JSON_parse : Parser.

(** Steps 2 to 5 of [POST]: call the service, parse its text, save and
    return the analysis. *)
Definition generate (id : string) : M Response :=
  let* response := fetch request in
  if negb (reply_ok response) then
    throw (Error ("Gemini API error: " ++ reply_statusText response))
  else
    let analysisJson := reply_text response in
    if falsy_str analysisJson then
      throw (Error "Invalid response structure from AI model")
    else
      match JSON_parse (default EmptyString analysisJson) with
      | None => throw (SyntaxError (default EmptyString analysisJson))
      | Some analysis =>
          (* 4. Save the analysis back to Firestore *)
          updateDoc id (Doc.set_analysis analysis "analyzed") ;;
          (* 5. Return the analysis to the frontend *)
          ret (json_ok analysis)
      end.

(** The body of the [try] block of [POST]. *)
Definition POST_try (docId : option string) : M Response :=
  if falsy_str docId then
    ret (json_error 400 "No document ID provided")
  else
    let id := default EmptyString docId in
    (* 1. Get the simulation data from Firestore *)
    let* docSnap := getDoc id in
    match docSnap with
    | None => ret (json_error 404 "Simulation not found")
    | Some simData =>
        if (length (Doc.transcript simData) <? 2)%nat then
          ret (json_error 400 "Transcript is too short to analyze")
        else
          (* If analysis already exists, just return it. *)
          if truthy_opt (Doc.analysis simData) then
            ret (json_ok (default JNull (Doc.analysis simData)))
          else
            generate id
    end.

Definition POST (docId : option string) : M Response :=
  try_catch (POST_try docId)
            (fun error => ret (json_error 500 (exn_message error))).

End Route.
End AnalyzeInterview.

(* ===================================================================== *)
(** * Route [/api/gen]: scenario generation *)
(* ===================================================================== *)

Module Gen.

Definition scenarioSchema : Schema :=
  SObject [("title", SString); ("description", SString);
           ("keyDecision", SString)]
          ["title"; "description"; "keyDecision"].

Definition responseSchema : Schema :=
  SArray scenarioSchema (Some 10%nat) (Some 10%nat).

Definition request : GeminiRequest :=
  {| req_schema := Some responseSchema; maxOutputTokens := 8192 |}.

(** [typeof v !== 'number'] and [typeof v !== 'string'] *)
Definition not_number (v : option json) : bool :=
  match v with
  | Some (JNumber _) => false
  | _ => true
  end.

Definition not_string (v : option json) : bool :=
  match v with
  | Some (JString _) => false
  | _ => true
  end.

(** [v <= 0] on a number. *)
Definition number_le0 (v : option json) : bool :=
  match v with
  | Some (JNumber q) => Qle_bool q 0
  | _ => false
  end.

(** [v.trim() === ''] on a string. *)
Definition blank (v : option json) : bool :=
  match v with
  | Some (JString s) => String.eqb (Js.trim s) EmptyString
  | _ => false
  end.

Section Route.
Variable JSON_parse : Parser.

(** The body of the [try] block of [POST]; the two arguments are the
    members [teamSize] and [domain] of the request body, [None] when the
    member is missing. *)
Definition POST_try (teamSize domain : option json) : M Response :=
  (* 2. Validate the inputs *)
  if negb (truthy_opt teamSize) || not_number teamSize || number_le0 teamSize
  then ret (json_error 400
              "Invalid 'teamSize' provided. Must be a positive number.")
  else if negb (truthy_opt domain) || not_string domain || blank domain
  then ret (json_error 400
              "Invalid 'domain' provided. Must be a non-empty string.")
  else
    (* 3./4. Construct the payload and make the API call *)
    let* response := fetch request in
    if negb (reply_ok response) then
      NextResponse_json
        (json_error_details (reply_status response)
           ("Gemini API error: " ++ reply_statusText response)
           (reply_body response))
    else
      (* 5. Extract the generated text *)
      if falsy_str (reply_text response) then
        ret (json_error 500 "Invalid response structure from AI model")
      else
        (* 6. Parse the JSON string from the AI *)
        let scenariosJson := default EmptyString (reply_text response) in
        match JSON_parse scenariosJson with
        | None => throw (SyntaxError scenariosJson)
        | Some scenarios =>
            (* 7. Send the structured JSON array to the frontend *)
            ret (json_ok scenarios)
        end.

Definition POST (teamSize domain : option json) : M Response :=
  try_catch (POST_try teamSize domain)
    (fun error =>
       if is_SyntaxError error
       then ret (json_error 500 "Failed to parse AI response as JSON.")
       else ret (json_error 500 "Internal server error")).

End Route.
End Gen.

(* ===================================================================== *)
(** * Route [/api/makeinterview]: the opening prompt *)
(* ===================================================================== *)

Module MakeInterview.

Definition responseSchema : Schema :=
  SObject [("openingPrompt", SString)] ["openingPrompt"].

Definition request : GeminiRequest :=
  {| req_schema := Some responseSchema; maxOutputTokens := 2048 |}.

(** The members [teamSize], [domain] and [scenario] of the request body as
    [request.json()] gives them, [None] for a missing member.  The types
    the route declares for them are not checked when it runs. *)
Record Body : Type := {
  teamSize : option json;
  domain : option json;
  scenario : option json
}.

(** [scenario.k], read only when [scenario] is neither null nor
    undefined. *)
Definition field (k : string) (scenario : option json) : option json :=
  match scenario with
  | Some v => prop k v
  | None => None
  end.

Definition empty_str (s : string) : bool := String.eqb s EmptyString.

(** [!teamSize || !domain || !scenario || !scenario.title ||
    !scenario.description || !scenario.keyDecision] *)
Definition invalid (b : Body) : bool :=
  negb (truthy_opt (teamSize b)) || negb (truthy_opt (domain b))
  || negb (truthy_opt (scenario b))
  || negb (truthy_opt (field "title" (scenario b)))
  || negb (truthy_opt (field "description" (scenario b)))
  || negb (truthy_opt (field "keyDecision" (scenario b))).

(** The text handed to [JSON.parse]: the trimmed output, or, when that does
    not start with an opening brace and has a first opening brace before its
    last closing brace, the slice from the one to the other. *)
Definition jsonText (text : string) : string :=
  let trimmed := Js.trim_chars (Js.chars text) in
  if negb (Js.starts_with_char "{" trimmed) then
    match Js.index_of "{" trimmed, Js.last_index_of "}" trimmed with
    | Some firstBrace, Some lastBrace =>
        if (firstBrace <? lastBrace)%nat
        then Js.str (Js.slice firstBrace (lastBrace + 1) trimmed)
        else Js.str trimmed
    | _, _ => Js.str trimmed
    end
  else Js.str trimmed.

Section Route.
Variable JSON_parse : Parser.

(** Step 5 onwards: from the text of the reply to the response. *)
Definition respond (text : string) : Response :=
  match JSON_parse (jsonText text) with
  | None => json_error 500 "Failed to parse AI response as JSON."
  | Some parsed =>
      let openingPrompt := prop "openingPrompt" parsed in
      if negb (truthy_opt openingPrompt) then
        json_error 500 "AI response missing openingPrompt"
      else
        json_ok (JObject [("openingPrompt", default JNull openingPrompt)])
  end.

Definition POST_try (b : Body) : M Response :=
  (* 2. Validate the inputs *)
  if invalid b then
    ret (json_error 400 "Invalid teamSize, domain, or scenario data provided")
  else
    (* 3./4. Construct the payload and make the API call *)
    let* response := fetch request in
    if negb (reply_ok response) then
      NextResponse_json
        (json_error_details (reply_status response)
           ("Gemini API error: " ++ reply_statusText response)
           (reply_body response))
    else
      (* 5. Extract and parse the response *)
      let text := reply_text response in
      if falsy_str text
         || empty_str (Js.trim (default EmptyString text)) then
        ret (json_error 500 "Invalid response structure from AI model")
      else
        ret (respond (default EmptyString text)).

Definition POST (b : Body) : M Response :=
  try_catch (POST_try b)
    (fun error =>
       if is_SyntaxError error
       then ret (json_error 500 "Failed to parse AI response as JSON.")
       else ret (json_error 500 "Internal server error")).

End Route.
End MakeInterview.

(* ===================================================================== *)
(** * Route [/api/next-prompt]: the next host line *)
(* ===================================================================== *)

Module NextPrompt.

Definition request : GeminiRequest :=
  {| req_schema := None; maxOutputTokens := 1024 |}.

(** An entry as the page sends it: the time stamp is stripped. *)
Record Entry : Type := {
  role : Role;
  content : json
}.

Record NextPromptRequest : Type := {
  teamSize : option Z;
  domain : string;
  scenario : option Scenario;
  transcript : option (list Entry)
}.

(** [model.generateContent(payload)] of the client library: the call throws
    when the service cannot be reached or answers with an error status,
    and otherwise gives the text of the first candidate, if any. *)
Definition generateContent (req : GeminiRequest) : M (option string) :=
  let* response := fetch req in
  if negb (reply_ok response) then
    throw (Error ("[GoogleGenerativeAI Error]: " ++ reply_statusText response))
  else ret (reply_text response).

(** Clean the response: drop a leading host label, every quotation mark,
    and the white space at both ends. *)
Definition cleanedPrompt (nextPrompt : string) : string :=
  Js.str (Js.trim_chars
            (Js.remove_dquotes (Js.strip_host_label (Js.chars nextPrompt)))).

Definition POST_try (body : NextPromptRequest) : M Response :=
  (* Input validation *)
  if match transcript body with
     | None => true
     | Some t => (length t =? 0)%nat
     end
  then ret (json_error 400 "Transcript is empty")
  else if negb (bool_decide (is_Some (scenario body)))
  then ret (json_error 400 "No scenario provided")
  else
    (* Call the service *)
    let* nextPrompt := generateContent request in
    if falsy_str nextPrompt then
      throw (Error "AI did not return a valid response.")
    else
      ret (json_ok (JObject
             [("nextPrompt",
               JString (cleanedPrompt (default EmptyString nextPrompt)))])).

Definition POST (body : NextPromptRequest) : M Response :=
  try_catch (POST_try body)
    (fun error =>
       ret (json_error_details 500 "Internal server error"
              (exn_message error))).

End NextPrompt.

(* ===================================================================== *)
(** * The interview page *)
(* ===================================================================== *)

Module InterviewPage.

Import Page.

Definition setScenario (v : option Scenario) : M unit :=
  modify (with_page (fun p =>
    {| scenario := v; teamSize := teamSize p; domain := domain p;
       loading := loading p; error := error p;
       userResponse := userResponse p;
       simulationDocId := simulationDocId p; transcript := transcript p;
       initHasRun := initHasRun p; pushed := pushed p |})).

Definition setTeamSize (v : option Z) : M unit :=
  modify (with_page (fun p =>
    {| scenario := scenario p; teamSize := v; domain := domain p;
       loading := loading p; error := error p;
       userResponse := userResponse p;
       simulationDocId := simulationDocId p; transcript := transcript p;
       initHasRun := initHasRun p; pushed := pushed p |})).

Definition setDomain (v : string) : M unit :=
  modify (with_page (fun p =>
    {| scenario := scenario p; teamSize := teamSize p; domain := v;
       loading := loading p; error := error p;
       userResponse := userResponse p;
       simulationDocId := simulationDocId p; transcript := transcript p;
       initHasRun := initHasRun p; pushed := pushed p |})).

Definition setLoading (v : bool) : M unit :=
  modify (with_page (fun p =>
    {| scenario := scenario p; teamSize := teamSize p; domain := domain p;
       loading := v; error := error p;
       userResponse := userResponse p;
       simulationDocId := simulationDocId p; transcript := transcript p;
       initHasRun := initHasRun p; pushed := pushed p |})).

Definition setError (v : option string) : M unit :=
  modify (with_page (fun p =>
    {| scenario := scenario p; teamSize := teamSize p; domain := domain p;
       loading := loading p; error := v;
       userResponse := userResponse p;
       simulationDocId := simulationDocId p; transcript := transcript p;
       initHasRun := initHasRun p; pushed := pushed p |})).

Definition setUserResponse (v : string) : M unit :=
  modify (with_page (fun p =>
    {| scenario := scenario p; teamSize := teamSize p; domain := domain p;
       loading := loading p; error := error p;
       userResponse := v;
       simulationDocId := simulationDocId p; transcript := transcript p;
       initHasRun := initHasRun p; pushed := pushed p |})).

Definition setSimulationDocId (v : option string) : M unit :=
  modify (with_page (fun p =>
    {| scenario := scenario p; teamSize := teamSize p; domain := domain p;
       loading := loading p; error := error p;
       userResponse := userResponse p;
       simulationDocId := v; transcript := transcript p;
       initHasRun := initHasRun p; pushed := pushed p |})).

Definition setTranscript (v : list TranscriptEntry) : M unit :=
  modify (with_page (fun p =>
    {| scenario := scenario p; teamSize := teamSize p; domain := domain p;
       loading := loading p; error := error p;
       userResponse := userResponse p;
       simulationDocId := simulationDocId p; transcript := v;
       initHasRun := initHasRun p; pushed := pushed p |})).

Definition setInitHasRun (v : bool) : M unit :=
  modify (with_page (fun p =>
    {| scenario := scenario p; teamSize := teamSize p; domain := domain p;
       loading := loading p; error := error p;
       userResponse := userResponse p;
       simulationDocId := simulationDocId p; transcript := transcript p;
       initHasRun := v; pushed := pushed p |})).

(** [router.push(path)] *)
Definition router_push (path : string) : M unit :=
  modify (with_page (fun p =>
    {| scenario := scenario p; teamSize := teamSize p; domain := domain p;
       loading := loading p; error := error p;
       userResponse := userResponse p;
       simulationDocId := simulationDocId p; transcript := transcript p;
       initHasRun := initHasRun p; pushed := Some path |})).

(** The query parameters of the page: [q_domain] is the parameter
    [domain] as [searchParams.get] gives it; [q_scenario] is the parameter
    [scenario] decoded ([atob], [escape], [decodeURIComponent],
    [JSON.parse]) and [q_teamSize] the parameter [teamSize] read by
    [parseInt], [None] for NaN.  The page decodes the two only when they
    are present and not empty. *)
Record Query : Type := {
  q_scenario : Scenario;
  q_teamSize : option Z;
  q_domain : string
}.

(** What [JSON.stringify] writes for the team size (null for NaN) and for
    the scenario in the body of a request. *)
Definition number_json (n : option Z) : json :=
  match n with
  | Some z => JNumber (inject_Z z)
  | None => JNull
  end.

Definition scenario_json (sc : Scenario) : json :=
  JObject [("title", JString (title sc));
           ("description", JString (description sc));
           ("keyDecision", JString (keyDecision sc))].

(** [a || dflt] for a message: the routes put strings under the keys read
    this way. *)
Definition message_or (a : option json) (dflt : string) : string :=
  match a with
  | Some (JString m) => if String.eqb m EmptyString then dflt else m
  | _ => dflt
  end.

Definition strip (e : TranscriptEntry) : NextPrompt.Entry :=
  {| NextPrompt.role := role e; NextPrompt.content := content e |}.

Section Handlers.
Variable JSON_parse : Parser.

(** The effect that runs on page load: create the document and fetch the
    first prompt.  [query] is the outcome of reading the query parameters:
    an exception when the scenario or the team size is missing or empty
    (the error of the check below) or the scenario does not decode. *)
Definition initializeInterview (query : Exn + Query) : M unit :=
  let* w := get_world in
  if initHasRun (page w) then ret tt
  else
    setInitHasRun true ;;
    finally
      (try_catch
         (setLoading true ;;
          setError None ;;
          (* 1. Get data from query parameters *)
          match query with
          | inl e => throw e
          | inr q =>
              if String.eqb (q_domain q) EmptyString then
                throw (Error "Missing simulation data. Please go back.")
              else
              setScenario (Some (q_scenario q)) ;;
              setTeamSize (q_teamSize q) ;;
              setDomain (q_domain q) ;;
              (* 2. Create the new simulation document *)
              let* now := Timestamp_now in
              let docData :=
                {| Doc.teamSize := q_teamSize q; Doc.domain := q_domain q;
                   Doc.scenario := q_scenario q; Doc.status := "pending";
                   Doc.createdAt := now; Doc.transcript := [];
                   Doc.analysis := None |} in
              let* id := addDoc docData in
              setSimulationDocId (Some id) ;;
              (* 3. Call API to get the opening prompt *)
              let* res := MakeInterview.POST JSON_parse
                            {| MakeInterview.teamSize :=
                                 Some (number_json (q_teamSize q));
                               MakeInterview.domain :=
                                 Some (JString (q_domain q));
                               MakeInterview.scenario :=
                                 Some (scenario_json (q_scenario q)) |} in
              let data := res_body res in
              if negb (res_ok res) then
                throw (Error (message_or (prop "error" data)
                                "Failed to start simulation."))
              else
                match prop "openingPrompt" data with
                | None => throw (Error "Unsupported field value: undefined")
                | Some openingPrompt =>
                    (* 4. Save the first prompt to state and Firestore *)
                    let* now := Timestamp_now in
                    let hostEntry :=
                      {| role := host; content := openingPrompt;
                         timestamp := now |} in
                    updateDoc id (Doc.set_transcript [hostEntry]) ;;
                    setTranscript [hostEntry]
                end
          end)
         (fun err => setError (Some (exn_message err))))
      (setLoading false).

(** [onChange] of the text area. *)
Definition onChange (value : string) : M unit := setUserResponse value.

Definition handleSubmitResponse : M unit :=
  let* w := get_world in
  let p := page w in
  if String.eqb (Js.trim (userResponse p)) EmptyString
     || falsy_str (simulationDocId p)
  then ret tt
  else
    let simulationDocId := default EmptyString (simulationDocId p) in
    setLoading true ;;
    setError None ;;
    finally
      (try_catch
         ((* 1. Create the team's entry *)
          let* now := Timestamp_now in
          let teamEntry :=
            {| role := team; content := JString (userResponse p);
               timestamp := now |} in
          (* 2. Update local state and Firestore with the team's turn *)
          let newTranscript := transcript p ++ [teamEntry] in
          setTranscript newTranscript ;;
          updateDoc simulationDocId (Doc.set_transcript newTranscript) ;;
          setUserResponse EmptyString ;;
          (* 3. Call /api/next-prompt with the full transcript *)
          let* res := NextPrompt.POST
                        {| NextPrompt.teamSize := teamSize p;
                           NextPrompt.domain := domain p;
                           NextPrompt.scenario := scenario p;
                           NextPrompt.transcript :=
                             Some (map strip newTranscript) |} in
          let data := res_body res in
          if negb (res_ok res) then
            throw (Error (message_or (prop "error" data)
                            (message_or (prop "details" data)
                               "Failed to get next prompt")))
          else
            match prop "nextPrompt" data with
            | Some (JString nextPrompt) =>
                if String.eqb nextPrompt EmptyString then
                  throw (Error "Invalid response from host API")
                else
                  (* 4. Save host response to Firestore and local state *)
                  let* now := Timestamp_now in
                  let hostEntry :=
                    {| role := host; content := JString nextPrompt;
                       timestamp := now |} in
                  let finalTranscript := newTranscript ++ [hostEntry] in
                  setTranscript finalTranscript ;;
                  updateDoc simulationDocId
                            (Doc.set_transcript finalTranscript)
            | _ => throw (Error "Invalid response from host API")
            end)
         (fun err =>
            (* Leave the user's entry in place so they can retry or
               continue. *)
            setError (Some (exn_message err))))
      (setLoading false).

Definition handleFinishSimulation : M unit :=
  let* w := get_world in
  if falsy_str (simulationDocId (page w)) then ret tt
  else
    let simulationDocId := default EmptyString (simulationDocId (page w)) in
    setLoading true ;;
    setError None ;;
    try_catch
      ((* 1. Mark the simulation as completed *)
       updateDoc simulationDocId (Doc.set_status "completed") ;;
       (* 2. Navigate to the analysis page *)
       router_push ("/analysis/" ++ simulationDocId))
      (fun err =>
         setError (Some (exn_message err)) ;;
         setLoading false).

End Handlers.
End InterviewPage.

(* ===================================================================== *)
(** * Runs of a simulation *)
(* ===================================================================== *)

(** What can happen to the world: the page loads, the team types, submits,
    finishes, and the analysis route is called for some document. *)
Inductive Op : Type :=
| OpStart (query : Exn + InterviewPage.Query)
| OpType (value : string)
| OpSubmit
| OpFinish
| OpAnalyze (docId : option string).

Definition exec {A} (m : M A) (w : World) : World := snd (m w).

Definition run_op (JSON_parse : Parser) (o : Op) (w : World) : World :=
  match o with
  | OpStart q => exec (InterviewPage.initializeInterview JSON_parse q) w
  | OpType v => exec (InterviewPage.onChange v) w
  | OpSubmit => exec InterviewPage.handleSubmitResponse w
  | OpFinish => exec InterviewPage.handleFinishSimulation w
  | OpAnalyze docId => exec (AnalyzeInterview.POST JSON_parse docId) w
  end.

Definition run (JSON_parse : Parser) (ops : list Op) (w : World) : World :=
  fold_left (fun w o => run_op JSON_parse o w) ops w.

(* ===================================================================== *)
(** * The user prompts that carry a transcript *)
(* ===================================================================== *)

Module Template.

Definition nl : string := String (ascii_of_nat 10) EmptyString.

(** [parts.join(sep)] *)
Fixpoint join (sep : string) (parts : list string) : string :=
  match parts with
  | [] => EmptyString
  | [p] => p
  | p :: rest => (p ++ sep ++ join sep rest)%string
  end.

(** [role.toUpperCase()] *)
Definition upper (r : Role) : string :=
  match r with
  | host => "HOST"
  | team => "TEAM"
  end.

End Template.

(** [buildUserPrompt] of the analysis route.  [number_text] is what a
    template literal makes of a number and [other_text] what it makes of a
    content that is not a string. *)
Module AnalyzePrompt.
Import Template.
Section Templates.
Variable number_text : Q -> string.
Variable other_text : json -> string.

Definition content_text (v : json) : string :=
  match v with
  | JString s => s
  | _ => other_text v
  end.

Definition line (entry : TranscriptEntry) : string :=
  (upper (role entry) ++ ": " ++ content_text (content entry))%string.

Definition transcriptText (transcript : list TranscriptEntry) : string :=
  join nl (map line transcript).

(** The team size of a document is an integer or NaN. *)
Definition teamSize_text (teamSize : option Z) : string :=
  match teamSize with
  | Some n => number_text (inject_Z n)
  | None => "NaN"
  end.

Definition buildUserPrompt (teamSize : option Z) (domain : string)
    (transcript : list TranscriptEntry) : string :=
  (nl ++ "    ANALYZE THE FOLLOWING SIMULATION:" ++ nl ++
    nl ++ "    CONTEXT:" ++ nl ++
    "    - Team Size: " ++ teamSize_text teamSize ++ nl ++
    "    - Domain: " ++ domain ++ nl ++
    nl ++ "    TRANSCRIPT:" ++ nl ++
    "    ---" ++ nl ++
    "    " ++ transcriptText transcript ++ nl ++
    "    ---" ++ nl ++
    nl ++ "    Provide your full analysis in the structured JSON format." ++ nl ++
    "  ")%string.

End Templates.
End AnalyzePrompt.

(** [buildUserPrompt] of the next-prompt route. *)
Module NextPromptPrompt.
Import Template.
Section Templates.
Variable number_text : Q -> string.
Variable other_text : json -> string.

Definition content_text (v : json) : string :=
  match v with
  | JString s => s
  | _ => other_text v
  end.

Definition line (entry : NextPrompt.Entry) : string :=
  (upper (NextPrompt.role entry) ++ ": "
   ++ content_text (NextPrompt.content entry))%string.

Definition transcriptText (transcript : list NextPrompt.Entry) : string :=
  join nl (map line transcript).

(** The team size of a request body is an integer, or null for NaN. *)
Definition teamSize_text (teamSize : option Z) : string :=
  match teamSize with
  | Some n => number_text (inject_Z n)
  | None => "null"
  end.

Definition buildUserPrompt (teamSize : option Z) (domain : string)
    (scenario : Scenario) (transcript : list NextPrompt.Entry) : string :=
  (nl ++ "CONTEXT:" ++ nl ++
    "-   **Scenario:** " ++ title scenario ++ " (" ++ keyDecision scenario ++ ")" ++ nl ++
    "-   **Domain:** " ++ domain ++ nl ++
    "-   **Team Size:** " ++ teamSize_text teamSize ++ nl ++
    nl ++ "FULL TRANSCRIPT:" ++ nl ++
    "---" ++ nl ++
    transcriptText transcript ++ nl ++
    "---" ++ nl ++
    nl ++ "Based on the team's *last* response, provide the *next* Host prompt." ++ nl ++
    "Remember the rules: be concise, drive the story, and do NOT break character." ++ nl ++
    "  ")%string.

End Templates.
End NextPromptPrompt.

(* ===================================================================== *)
(** * The scenario selection page *)
(* ===================================================================== *)

Module SelectionPage.

(** The team size is set from the number input by [parseInt(value) || 0],
    so it is always an integer. *)
Record State : Type := {
  teamSize : Z;
  field : string;
  loading : bool;
  error : option string;
  scenarios : option (list json);
  selectedIndex : option nat
}.

Definition initial : State :=
  {| teamSize := 1; field := EmptyString; loading := false; error := None;
     scenarios := None; selectedIndex := None |}.

Definition setError (v : option string) (s : State) : State :=
  {| teamSize := teamSize s; field := field s; loading := loading s;
     error := v; scenarios := scenarios s;
     selectedIndex := selectedIndex s |}.

Definition setLoading (v : bool) (s : State) : State :=
  {| teamSize := teamSize s; field := field s; loading := v;
     error := error s; scenarios := scenarios s;
     selectedIndex := selectedIndex s |}.

Definition setScenarios (v : option (list json)) (s : State) : State :=
  {| teamSize := teamSize s; field := field s; loading := loading s;
     error := error s; scenarios := v;
     selectedIndex := selectedIndex s |}.

Definition setSelectedIndex (v : option nat) (s : State) : State :=
  {| teamSize := teamSize s; field := field s; loading := loading s;
     error := error s; scenarios := scenarios s; selectedIndex := v |}.

Section Handlers.
Variable JSON_parse : Parser.

(** [handleGenerate]: the page's state after the handler, and the world. *)
Definition handleGenerate (s : State) (w : World) : State * World :=
  let s0 := setSelectedIndex None (setScenarios None (setError None s)) in
  if (teamSize s <? 1)%Z then
    (setError (Some "Please enter a valid team size.") s0, w)
  else if String.eqb (Js.trim (field s)) EmptyString then
    (setError (Some "Please specify the field or area.") s0, w)
  else
    let s1 := setLoading true s0 in
    match Gen.POST JSON_parse
            (Some (JNumber (inject_Z (teamSize s))))
            (Some (JString (field s))) w with
    | (Returned res, w') =>
        let data := res_body res in
        if negb (res_ok res) then
          (setLoading false
             (setError
                (Some (InterviewPage.message_or (prop "error" data)
                         "Failed to generate scenarios")) s1), w')
        else
          match data with
          | JArray items =>
              (setLoading false (setScenarios (Some items) s1), w')
          | _ =>
              (setLoading false
                 (setError (Some "Invalid response from server.") s1), w')
          end
    | (Thrown _, w') =>
        (setLoading false
           (setError (Some "Network or server error.") s1), w')
    end.

End Handlers.
End SelectionPage.

(* ===================================================================== *)
(** * The analysis page *)
(* ===================================================================== *)

Module AnalysisPage.

Record State : Type := {
  docId : option string;
  analysis : option json;
  loading : bool;
  error : option string
}.

Section Handlers.
Variable JSON_parse : Parser.

(** [fetchAnalysis], run by the effect once the identifier is known. *)
Definition fetchAnalysis (s : State) (w : World) : State * World :=
  if falsy_str (docId s) then (s, w)
  else
    match AnalyzeInterview.POST JSON_parse (docId s) w with
    | (Returned res, w') =>
        let data := res_body res in
        if negb (res_ok res) then
          ({| docId := docId s; analysis := analysis s; loading := false;
              error := Some (InterviewPage.message_or (prop "error" data)
                               "Failed to fetch analysis") |}, w')
        else
          ({| docId := docId s;
              analysis := match data with
                          | JNull => None
                          | _ => Some data
                          end;
              loading := false; error := None |}, w')
    | (Thrown e, w') =>
        ({| docId := docId s; analysis := analysis s; loading := false;
            error := Some (exn_message e) |}, w')
    end.

End Handlers.
End AnalysisPage.

(* ===================================================================== *)
(** * Route [/api/details]: the view of one simulation *)
(* ===================================================================== *)

Module Details.

Section Route.
(** [timestamp.toDate().toISOString()] *)
Variable toISOString : N -> string.

(** An entry as the dashboard expects it: [team] reads [user], and the
    time stamp is left out. *)
Definition frontendEntry (entry : TranscriptEntry) : json :=
  JObject [("role", JString match role entry with
                            | team => "user"
                            | host => "host"
                            end);
           ("content", content entry)].

Definition frontendTranscript (t : list TranscriptEntry) : list json :=
  map frontendEntry t.

Definition simulationResponse (id : string) (data : Doc.SimDoc) : json :=
  JObject
    ([("id", JString id);
      ("teamSize", match Doc.teamSize data with
                   | Some n => JNumber (inject_Z n)
                   | None => JNull
                   end);
      ("domain", JString (Doc.domain data));
      ("status", JString (Doc.status data))]
     ++ match Doc.analysis data with
        | Some a => [("analysis", a)]
        | None => []
        end
     ++ [("transcript", JArray (frontendTranscript (Doc.transcript data)));
         ("createdAt", JString (toISOString (Doc.createdAt data)))]).

(** [GET], from the [id] of the query string. *)
Definition GET (id : option string) (w : World) : Response :=
  if falsy_str id then json_error 400 "Missing simulation ID"
  else
    match docs w !! default EmptyString id with
    | None => json_error 404 "Simulation not found"
    | Some data => json_ok (simulationResponse (default EmptyString id) data)
    end.

End Route.
End Details.

(* ===================================================================== *)
(** * Notions used in the statements *)
(* ===================================================================== *)

(** A text with double quotes, written with apostrophes in their place. *)
Definition dq (s : string) : string :=
  Js.str (map (fun c => if Ascii.eqb c "'" then Js.dquote else c) (Js.chars s)).

(** ** Analyses *)

(** The six metric names of the heat map. *)
Definition heatmap_metrics : list string :=
  ["Decisiveness"; "Ethical Focus"; "Data-Driven"; "Long-Term Thinking";
   "Bias for Action"; "Collaboration"].

Definition mem_string (k : string) (l : list string) : bool :=
  existsb (String.eqb k) l.

(** The two lists name the same set of keys. *)
Definition same_keys (l1 l2 : list string) : bool :=
  forallb (fun k => mem_string k l2) l1 && forallb (fun k => mem_string k l1) l2.

Definition has_member (k : string) (v : json) : bool :=
  match prop k v with
  | Some _ => true
  | None => false
  end.

(** An analysis with the five fields, whose heat map has exactly the six
    metrics as keys. *)
Definition complete_analysis (a : json) : bool :=
  has_member "overallScore" a && has_member "keyStrengths" a
  && has_member "growthAreas" a && has_member "actionableFeedback" a
  && match prop "heatmapData" a with
     | Some (JObject ms) => same_keys (keys ms) heatmap_metrics
     | _ => false
     end.

(** ** Examples of worlds *)

Definition example_scenario : Scenario :=
  {| title := "The Data Breach Dilemma";
     description := "Customer records leaked overnight.";
     keyDecision := "Go public now, or wait?" |}.

Definition example_transcript : list TranscriptEntry :=
  [ {| role := host; content := JString "Your team has an hour. What now?";
       timestamp := 1 |};
    {| role := team;
       content := JString "We will notify regulators immediately.";
       timestamp := 2 |} ].

Definition short_transcript : list TranscriptEntry :=
  [ {| role := host; content := JString "Your team has an hour. What now?";
       timestamp := 1 |} ].

Definition example_doc (t : list TranscriptEntry) (a : option json)
  : Doc.SimDoc :=
  {| Doc.teamSize := Some 4%Z; Doc.domain := "Healthcare";
     Doc.scenario := example_scenario; Doc.status := "completed";
     Doc.createdAt := 0; Doc.transcript := t; Doc.analysis := a |}.

(** The service answers 200 with the given text. *)
Definition answers (text : string) : GeminiReply :=
  Resolved {| reply_status := 200; reply_statusText := "OK";
              reply_body := EmptyString; reply_text := Some text |}.

(** The service answers 503. *)
Definition unavailable : GeminiReply :=
  Resolved {| reply_status := 503; reply_statusText := "Service Unavailable";
              reply_body := "overloaded"; reply_text := None |}.

(** The service answers 304. *)
Definition not_modified : GeminiReply :=
  Resolved {| reply_status := 304; reply_statusText := "Not Modified";
              reply_body := EmptyString; reply_text := None |}.

(** A world whose collection holds the given document, if any, under the
    identifier [sim1]. *)
Definition example_world (d : option Doc.SimDoc) (rs : list GeminiReply)
  : World :=
  {| docs := match d with
             | Some d => {[ "sim1" := d ]}
             | None => ∅
             end;
     replies := rs; calls := []; clock := 10; page := Page.initial |}.

(** Texts of the model used in the examples. *)
Definition small_analysis_text : string := dq "{'overallScore': 70}".

Definition partial_analysis_text : string :=
  dq "{'overallScore': 70, 'keyStrengths': [], 'growthAreas': [], 'actionableFeedback': 'Listen more.', 'heatmapData': {'Decisiveness': 5}}".

Definition team_text : string := "We will notify regulators immediately.".

(** ** Scenario batches *)

(** The request's [teamSize] is a number above zero. *)
Definition positive_number (v : option json) : bool :=
  match v with
  | Some (JNumber q) => negb (Qle_bool q 0)
  | _ => false
  end.

(** The request's [domain] is a string other than the empty one. *)
Definition nonempty_string (v : option json) : bool :=
  match v with
  | Some (JString s) => negb (String.eqb s EmptyString)
  | _ => false
  end.

Definition nonempty_field (k : string) (v : json) : bool :=
  match prop k v with
  | Some (JString s) => negb (String.eqb s EmptyString)
  | _ => false
  end.

(** Ten items, each with a non-empty title, description and key
    decision. *)
Definition valid_batch (v : json) : bool :=
  match v with
  | JArray items =>
      (length items =? 10)%nat
      && forallb (fun it => nonempty_field "title" it
                            && nonempty_field "description" it
                            && nonempty_field "keyDecision" it) items
  | _ => false
  end.

Definition one_scenario_text : string :=
  dq "[{'title': '', 'description': 'd', 'keyDecision': 'k'}]".

(** ** The host line as the design document words its cleaning

    A leading host label is dropped, then the quote characters around the
    line, and the white space at both ends; quotes inside the line stay. *)
Definition strip_quote_start (l : list ascii) : list ascii :=
  match l with
  | c :: r => if Ascii.eqb c Js.dquote then r else l
  | [] => []
  end.

Definition strip_quote_end (l : list ascii) : list ascii :=
  rev (strip_quote_start (rev l)).

Definition cleaned_as_specified (raw : string) : string :=
  Js.str (Js.trim_chars
            (strip_quote_end
               (strip_quote_start
                  (Js.trim_chars (Js.strip_host_label (Js.chars raw)))))).

(** The second list is the first without its double quotes: every double
    quote is left out and every other character kept, in order. *)
Inductive without_quotes : list ascii -> list ascii -> Prop :=
| without_quotes_nil : without_quotes [] []
| without_quotes_drop (l l1 : list ascii) :
    without_quotes l l1 -> without_quotes (Js.dquote :: l) l1
| without_quotes_keep (c : ascii) (l l1 : list ascii) :
    c <> Js.dquote -> without_quotes l l1 ->
    without_quotes (c :: l) (c :: l1).

Definition quoting_line : string := dq "Say 'yes' now".

Definition labelled_line : string := dq "hOsT: 'And the press?' ".

Definition wrapped_opening_text : string :=
  dq "Here you go: {'openingPrompt': 'Your team has an hour. What now?'} Good luck".

(** A model text with a space before its object and a word after it. *)
Definition padded_opening_text : string :=
  dq " {'openingPrompt': 'Hi'} thanks".

Definition example_body : MakeInterview.Body :=
  {| MakeInterview.teamSize := Some (JNumber (inject_Z 4));
     MakeInterview.domain := Some (JString "Healthcare");
     MakeInterview.scenario :=
       Some (InterviewPage.scenario_json example_scenario) |}.

(** ** Turns of the interview *)

Definition team_entry (text : string) (now : N) : TranscriptEntry :=
  {| role := team; content := JString text; timestamp := now |}.

Definition host_entry (line : string) (now : N) : TranscriptEntry :=
  {| role := host; content := JString line; timestamp := now |}.

(** The host line the next call to the model gives the free-text route:
    none when the call fails, answers an error status, has no text, or has
    a text that is empty once cleaned. *)
Definition host_line (rs : list GeminiReply) : option string :=
  match rs with
  | Resolved r :: _ =>
      if reply_ok r && negb (falsy_str (reply_text r)) then
        let line :=
          NextPrompt.cleanedPrompt (default EmptyString (reply_text r)) in
        if String.eqb line EmptyString then None else Some line
      else None
  | _ => None
  end.

(** The host line the page obtains on its next submission: the route also
    refuses a request without scenario. *)
Definition next_line (p : Page.State) (rs : list GeminiReply)
  : option string :=
  match Page.scenario p with
  | Some _ => host_line rs
  | None => None
  end.

(** The world after one call to the service. *)
Definition after_call (req : GeminiRequest) (w : World) : World :=
  {| docs := docs w; replies := tail (replies w); calls := req :: calls w;
     clock := clock w; page := page w |}.

Definition pending_doc (t : list TranscriptEntry) : Doc.SimDoc :=
  {| Doc.teamSize := Some 4%Z; Doc.domain := "Healthcare";
     Doc.scenario := example_scenario; Doc.status := "pending";
     Doc.createdAt := 0; Doc.transcript := t; Doc.analysis := None |}.

(** A world in the middle of an interview: the page shows the opening host
    line of document [sim1] and the team has typed [text]. *)
Definition interview_world (text : string) (rs : list GeminiReply) : World :=
  {| docs := {[ "sim1" := pending_doc short_transcript ]};
     replies := rs; calls := []; clock := 10;
     page := {| Page.scenario := Some example_scenario;
                Page.teamSize := Some 4%Z; Page.domain := "Healthcare";
                Page.loading := false; Page.error := None;
                Page.userResponse := text;
                Page.simulationDocId := Some "sim1";
                Page.transcript := short_transcript;
                Page.initHasRun := true; Page.pushed := None |} |}.

Definition roles_of (w : World) (id : string) : option (list Role) :=
  (fun d => map role (Doc.transcript d)) <$> docs w !! id.

(** ** Growth of the transcripts *)

(** Every document of the first collection is in the second with its
    transcript extended at the end. *)
Definition grows (m m1 : gmap string Doc.SimDoc) : Prop :=
  forall (id : string) (d : Doc.SimDoc),
    m !! id = Some d ->
    exists d1 : Doc.SimDoc,
      m1 !! id = Some d1 /\ Doc.transcript d `prefix_of` Doc.transcript d1.

(** The transcript saved for the page's document is a prefix of the one the
    page holds. *)
Definition in_sync (p : Page.State) (m : gmap string Doc.SimDoc) : Prop :=
  forall (id : string) (d : Doc.SimDoc),
    Page.simulationDocId p = Some id -> m !! id = Some d ->
    Doc.transcript d `prefix_of` Page.transcript p.

Definition advances (w w1 : World) : Prop :=
  in_sync (page w1) (docs w1) /\ grows (docs w) (docs w1).

(** A world where the interview page has just been mounted. *)
Definition mounted (m : gmap string Doc.SimDoc) (rs : list GeminiReply)
    (now : N) : World :=
  {| docs := m; replies := rs; calls := []; clock := now;
     page := Page.initial |}.

Definition example_query : Exn + InterviewPage.Query :=
  inr {| InterviewPage.q_scenario := example_scenario;
         InterviewPage.q_teamSize := Some 4%Z;
         InterviewPage.q_domain := "Healthcare" |}.

Definition opening_text : string :=
  dq "{'openingPrompt': 'Your team has an hour. What now?'}".

(** ** Writes to the collection *)

(** The four writes the handlers make: an existing document gets a new
    transcript, or the status [completed], or, when it holds no analysis yet
    and at least two entries, an analysis with the status [analyzed]; and a
    document is created under an unused identifier, pending, with an empty
    transcript and no analysis. *)
Inductive write : relation (gmap string Doc.SimDoc) :=
| write_transcript m id d t :
    m !! id = Some d -> write m (<[id := Doc.set_transcript t d]> m)
| write_completed m id d :
    m !! id = Some d -> write m (<[id := Doc.set_status "completed" d]> m)
| write_analysis m id d a :
    m !! id = Some d -> truthy_opt (Doc.analysis d) = false ->
    (2 <= length (Doc.transcript d))%nat ->
    write m (<[id := Doc.set_analysis a "analyzed" d]> m)
| write_created m id d :
    m !! id = None -> Doc.status d = "pending" -> Doc.transcript d = [] ->
    Doc.analysis d = None -> write m (<[id := d]> m).

Definition writes : relation (gmap string Doc.SimDoc) := rtc write.

(** The fields written when a document is created and never after. *)
Definition same_setup (d d1 : Doc.SimDoc) : Prop :=
  Doc.teamSize d1 = Doc.teamSize d /\ Doc.domain d1 = Doc.domain d
  /\ Doc.scenario d1 = Doc.scenario d /\ Doc.createdAt d1 = Doc.createdAt d.

Definition keeps (d d1 : Doc.SimDoc) : Prop :=
  same_setup d d1
  /\ (truthy_opt (Doc.analysis d) = true -> Doc.analysis d1 = Doc.analysis d).

(** The document at [id], if any, has an analysis when marked analyzed. *)
Definition status_ok_at (id : string) (m : gmap string Doc.SimDoc) : Prop :=
  forall d, m !! id = Some d ->
    Doc.status d = "analyzed" -> is_Some (Doc.analysis d).

(** The requests made to the model between two worlds: none, or one that
    took the first pending reply. *)
Definition one_call_at_most (w w1 : World) : Prop :=
  (calls w1 = calls w /\ replies w1 = replies w)
  \/ (exists req, calls w1 = req :: calls w)
     /\ replies w1 = tail (replies w).

(** ** Requests for an opening prompt *)

Definition complete_scenario (sc : Scenario) : Prop :=
  title sc <> EmptyString /\ description sc <> EmptyString
  /\ keyDecision sc <> EmptyString.

(** A body the opening-prompt route lets through: its team size and its
    domain are truthy, and its scenario is an object whose title,
    description and key decision are truthy.  Nothing is asked of the types
    of these values. *)
Definition acceptable_body (b : MakeInterview.Body) : Prop :=
  (exists v, MakeInterview.teamSize b = Some v /\ truthy v = true)
  /\ (exists v, MakeInterview.domain b = Some v /\ truthy v = true)
  /\ (exists ms t d k,
        MakeInterview.scenario b = Some (JObject ms)
        /\ member "title" ms = Some t /\ truthy t = true
        /\ member "description" ms = Some d /\ truthy d = true
        /\ member "keyDecision" ms = Some k /\ truthy k = true).

(** The queries whose request for an opening prompt the route lets
    through. *)
Definition acceptable_query (q : InterviewPage.Query) : Prop :=
  (exists z, InterviewPage.q_teamSize q = Some z /\ z <> 0%Z)
  /\ InterviewPage.q_domain q <> EmptyString
  /\ complete_scenario (InterviewPage.q_scenario q).

(** The opening prompt the next call to the model gives the route: none
    when the call fails, answers an error status, has no text or a blank
    one, or a text whose slice does not parse to an object with a truthy
    [openingPrompt]. *)
Definition opening_prompt (parse : Parser) (rs : list GeminiReply)
  : option json :=
  match rs with
  | Resolved r :: _ =>
      if reply_ok r then
        match reply_text r with
        | Some text =>
            if String.eqb (Js.trim text) EmptyString then None
            else
              match parse (MakeInterview.jsonText text) with
              | Some parsed =>
                  match prop "openingPrompt" parsed with
                  | Some v => if truthy v then Some v else None
                  | None => None
                  end
              | None => None
              end
        | None => None
        end
      else None
  | _ => None
  end.

(** The body the page sends for its opening prompt. *)
Definition start_body (q : InterviewPage.Query) : MakeInterview.Body :=
  {| MakeInterview.teamSize :=
       Some (InterviewPage.number_json (InterviewPage.q_teamSize q));
     MakeInterview.domain := Some (JString (InterviewPage.q_domain q));
     MakeInterview.scenario :=
       Some (InterviewPage.scenario_json (InterviewPage.q_scenario q)) |}.

(** The opening prompt the page obtains for a query. *)
Definition start_prompt (parse : Parser) (q : InterviewPage.Query)
    (rs : list GeminiReply) : option json :=
  if MakeInterview.invalid (start_body q) then None
  else opening_prompt parse rs.

(** The document the page creates for a query. *)
Definition created_doc (q : InterviewPage.Query) (now : N)
    (t : list TranscriptEntry) : Doc.SimDoc :=
  {| Doc.teamSize := InterviewPage.q_teamSize q;
     Doc.domain := InterviewPage.q_domain q;
     Doc.scenario := InterviewPage.q_scenario q;
     Doc.status := "pending"; Doc.createdAt := now;
     Doc.transcript := t; Doc.analysis := None |}.

Definition example_request : InterviewPage.Query :=
  {| InterviewPage.q_scenario := example_scenario;
     InterviewPage.q_teamSize := Some 4%Z;
     InterviewPage.q_domain := "Healthcare" |}.

Definition opening_line : json := JString "Your team has an hour. What now?".

(** A request for the next host line, with the given transcript. *)
Definition next_request (t : option (list NextPrompt.Entry))
  : NextPrompt.NextPromptRequest :=
  {| NextPrompt.teamSize := Some 4%Z; NextPrompt.domain := "Healthcare";
     NextPrompt.scenario := Some example_scenario;
     NextPrompt.transcript := t |}.

Definition opening_entry : NextPrompt.Entry :=
  {| NextPrompt.role := host; NextPrompt.content := opening_line |}.

(** ** Parts of a text *)

(** [x] occurs in [s]. *)
Definition occurs (x s : string) : Prop :=
  exists a b : string, s = (a ++ x ++ b)%string.

(** What stands before and after one part of a joined text. *)
Definition lead (sep : string) (parts : list string) : string :=
  match parts with
  | [] => EmptyString
  | _ => (Template.join sep parts ++ sep)%string
  end.

Definition trail (sep : string) (parts : list string) : string :=
  match parts with
  | [] => EmptyString
  | _ => (sep ++ Template.join sep parts)%string
  end.

(** [s] holds the part [x], with every part of [before] ahead of it and
    every part of [after] behind it. *)
Definition carries (s : string) (before : list string) (x : string)
    (after : list string) : Prop :=
  exists pre post : string,
    s = (pre ++ x ++ post)%string
    /\ (forall y, y ∈ before -> occurs y pre)
    /\ (forall y, y ∈ after -> occurs y post).

(** ** The dashboard's view *)

(** The role the dashboard reads for a stored role. *)
Definition frontend_role (r : Role) : string :=
  match r with
  | team => "user"
  | host => "host"
  end.

(** The number of a time stamp in decimal, which stands for its rendering
    in the examples. *)
Definition example_date (t : N) : string := pretty t.

(* ===================================================================== *)
(** * Properties of the analysis route *)
(* ===================================================================== *)

Lemma falsy_str_some (id : string) :
  id <> EmptyString -> falsy_str (Some id) = false.
Proof. intros H. simpl. apply String.eqb_neq. exact H. Qed.

Lemma falsy_str_false (s : option string) :
  falsy_str s = false -> exists t, s = Some t /\ t <> EmptyString.
Proof.
  destruct s as [t|]; simpl; [|discriminate].
  intros H. exists t. split; [reflexivity|]. now apply String.eqb_neq.
Qed.

Section AnalyzeProperties.
Variable parse : Parser.

Lemma analyze_not_found (id : string) (w : World) :
  id <> EmptyString -> docs w !! id = None ->
  AnalyzeInterview.POST parse (Some id) w
  = (Returned (json_error 404 "Simulation not found"), w).
Proof.
  intros Hid Hn.
  unfold AnalyzeInterview.POST, try_catch, AnalyzeInterview.POST_try.
  rewrite (falsy_str_some _ Hid). simpl.
  unfold bind, getDoc. rewrite Hn. reflexivity.
Qed.

Lemma analyze_short (id : string) (w : World) (d : Doc.SimDoc) :
  id <> EmptyString -> docs w !! id = Some d ->
  (length (Doc.transcript d) < 2)%nat ->
  AnalyzeInterview.POST parse (Some id) w
  = (Returned (json_error 400 "Transcript is too short to analyze"), w).
Proof.
  intros Hid Hd Hl.
  unfold AnalyzeInterview.POST, try_catch, AnalyzeInterview.POST_try.
  rewrite (falsy_str_some _ Hid). simpl.
  unfold bind, getDoc. rewrite Hd.
  destruct (Nat.ltb_spec (length (Doc.transcript d)) 2); [reflexivity | lia].
Qed.

Lemma analyze_stored (id : string) (w : World) (d : Doc.SimDoc) (a : json) :
  id <> EmptyString -> docs w !! id = Some d ->
  (2 <= length (Doc.transcript d))%nat ->
  Doc.analysis d = Some a -> truthy a = true ->
  AnalyzeInterview.POST parse (Some id) w = (Returned (json_ok a), w).
Proof.
  intros Hid Hd Hl Ha Ht.
  unfold AnalyzeInterview.POST, try_catch, AnalyzeInterview.POST_try.
  rewrite (falsy_str_some _ Hid). simpl.
  unfold bind, getDoc. rewrite Hd.
  destruct (Nat.ltb_spec (length (Doc.transcript d)) 2); [lia|].
  rewrite Ha. simpl. rewrite Ht. reflexivity.
Qed.

(** The generation path: the parsed text is saved as it is and returned. *)
Lemma analyze_generated (id text : string) (w : World) (d : Doc.SimDoc)
    (r : HttpReply) (rs : list GeminiReply) (a : json) :
  id <> EmptyString -> docs w !! id = Some d ->
  (2 <= length (Doc.transcript d))%nat ->
  truthy_opt (Doc.analysis d) = false ->
  replies w = Resolved r :: rs -> reply_ok r = true ->
  reply_text r = Some text -> text <> EmptyString ->
  parse text = Some a ->
  AnalyzeInterview.POST parse (Some id) w
  = (Returned (json_ok a),
     {| docs := <[id := Doc.set_analysis a "analyzed" d]> (docs w);
        replies := rs; calls := AnalyzeInterview.request :: calls w;
        clock := clock w; page := page w |}).
Proof.
  intros Hid Hd Hl Ha Hr Hok Ht Hne Hp.
  unfold AnalyzeInterview.POST, try_catch, AnalyzeInterview.POST_try.
  rewrite (falsy_str_some _ Hid). simpl.
  unfold bind at 1. unfold getDoc. rewrite Hd.
  destruct (Nat.ltb_spec (length (Doc.transcript d)) 2); [lia|].
  rewrite Ha.
  unfold AnalyzeInterview.generate, bind, fetch. rewrite Hr. simpl.
  rewrite Hok, Ht. simpl.
  apply String.eqb_neq in Hne. rewrite Hne, Hp.
  unfold updateDoc. simpl. rewrite Hd. reflexivity.
Qed.

(** What a response with status 200 tells about the world before and
    after the call. *)
Lemma analyze_success (docId : option string) (w w1 : World) (r : Response) :
  AnalyzeInterview.POST parse docId w = (Returned r, w1) ->
  res_status r = 200%nat ->
  exists id d,
    docId = Some id /\ id <> EmptyString /\
    docs w !! id = Some d /\ (2 <= length (Doc.transcript d))%nat /\
    ((Doc.analysis d = Some (res_body r) /\ truthy (res_body r) = true
      /\ w1 = w)
     \/ (truthy_opt (Doc.analysis d) = false /\
         docs w1
         = <[id := Doc.set_analysis (res_body r) "analyzed" d]> (docs w) /\
         calls w1 = AnalyzeInterview.request :: calls w)).
Proof.
  unfold AnalyzeInterview.POST, try_catch, AnalyzeInterview.POST_try.
  destruct (falsy_str docId) eqn:Hf.
  { simpl. intros [= <- <-]. discriminate. }
  destruct (falsy_str_false _ Hf) as (id & -> & Hid). simpl.
  unfold bind at 1. unfold getDoc.
  destruct (docs w !! id) as [d|] eqn:Hd.
  2:{ simpl. intros [= <- <-]. discriminate. }
  destruct (Nat.ltb_spec (length (Doc.transcript d)) 2) as [Hl|Hl].
  { simpl. intros [= <- <-]. discriminate. }
  destruct (truthy_opt (Doc.analysis d)) eqn:Ht.
  { simpl. intros [= <- <-] _. exists id, d. repeat split; try assumption.
    left. destruct (Doc.analysis d) as [a|]; simpl in *; [auto | discriminate]. }
  unfold AnalyzeInterview.generate, bind, fetch.
  destruct (replies w) as [|[e|rp] rs]; simpl.
  1,2: intros [= <- <-]; discriminate.
  destruct (reply_ok rp); simpl.
  2:{ intros [= <- <-]. discriminate. }
  destruct (falsy_str (reply_text rp)); simpl.
  { intros [= <- <-]. discriminate. }
  destruct (parse _) as [a|]; simpl.
  2:{ intros [= <- <-]. discriminate. }
  unfold updateDoc. simpl. rewrite Hd. simpl.
  intros [= <- <-] _. exists id, d. repeat split; try assumption.
  right. simpl. auto.
Qed.

(** C5. The analysis route answers 404 "Simulation not found" when the
    collection has no document under the given identifier, and 400
    "Transcript is too short to analyze" when the document's transcript has
    fewer than two entries; in both cases the world is left as it was, so
    nothing is written to the store and the model is not called. *)
Theorem analyze_not_found_or_insufficient (id : string) (w : World) :
  id <> EmptyString ->
  (docs w !! id = None ->
   AnalyzeInterview.POST parse (Some id) w
   = (Returned (json_error 404 "Simulation not found"), w))
  /\ (forall d : Doc.SimDoc,
        docs w !! id = Some d ->
        (length (Doc.transcript d) < 2)%nat ->
        AnalyzeInterview.POST parse (Some id) w
        = (Returned (json_error 400 "Transcript is too short to analyze"), w)).
Proof.
  intros Hid. split.
  - intros Hn. now apply analyze_not_found.
  - intros d Hd Hl. now apply analyze_short with d.
Qed.

(** C9. The test on the transcript's length comes before the look at the
    stored analysis: for a document that already has an analysis but fewer
    than two transcript entries, the route answers the 400 error, not the
    stored analysis. *)
Theorem analyze_length_check_before_stored
    (id : string) (w : World) (d : Doc.SimDoc) (stored : json) :
  id <> EmptyString ->
  docs w !! id = Some d ->
  Doc.analysis d = Some stored ->
  (length (Doc.transcript d) < 2)%nat ->
  AnalyzeInterview.POST parse (Some id) w
  = (Returned (json_error 400 "Transcript is too short to analyze"), w)
  /\ fst (AnalyzeInterview.POST parse (Some id) w) <> Returned (json_ok stored).
Proof.
  intros Hid Hd _ Hl.
  rewrite (analyze_short id w d Hid Hd Hl). split; [reflexivity|].
  simpl. intros [=].
Qed.



End AnalyzeProperties.

(** ** Instances on the reference parser *)

Lemma example_lookup (d : Doc.SimDoc) (rs : list GeminiReply) :
  docs (example_world (Some d) rs) !! "sim1" = Some d.
Proof. apply lookup_singleton_eq. Qed.

Lemma sim1_nonempty : "sim1" <> EmptyString.
Proof. discriminate. Qed.

Lemma analyze_not_found_or_insufficient_witness :
  AnalyzeInterview.POST Ecma.parse (Some "sim1") (example_world None [])
  = (Returned (json_error 404 "Simulation not found"), example_world None [])
  /\ AnalyzeInterview.POST Ecma.parse (Some "sim1")
       (example_world (Some (example_doc short_transcript None)) [])
     = (Returned (json_error 400 "Transcript is too short to analyze"),
        example_world (Some (example_doc short_transcript None)) []).
Proof.
  split.
  - apply (proj1 (analyze_not_found_or_insufficient
                    Ecma.parse "sim1" _ sim1_nonempty)).
    reflexivity.
  - apply (proj2 (analyze_not_found_or_insufficient
                    Ecma.parse "sim1" _ sim1_nonempty)
             (example_doc short_transcript None)).
    + apply example_lookup.
    + simpl. lia.
Defined.

Lemma analyze_length_check_before_stored_witness :
  AnalyzeInterview.POST Ecma.parse (Some "sim1")
    (example_world (Some (example_doc short_transcript (Some (JObject []))))
                   [])
  = (Returned (json_error 400 "Transcript is too short to analyze"),
     example_world (Some (example_doc short_transcript (Some (JObject []))))
                   []).
Proof.
  apply (analyze_length_check_before_stored Ecma.parse "sim1" _
           (example_doc short_transcript (Some (JObject []))) (JObject [])
           sim1_nonempty).
  - apply example_lookup.
  - reflexivity.
  - simpl. lia.
Defined.





(* ===================================================================== *)
(** * Properties of the scenario route *)
(* ===================================================================== *)

Lemma Qle_bool_false_neq (q : Q) :
  Qle_bool q 0 = false -> Qeq_bool q 0 = false.
Proof.
  intros H. destruct (Qeq_bool q 0) eqn:E; [|reflexivity].
  apply Qeq_bool_iff in E.
  assert (Hle : Qle_bool q 0 = true)
    by (apply Qle_bool_iff; rewrite E; apply Qle_refl).
  congruence.
Qed.

(** The three tests on [teamSize] let through the positive numbers only. *)
Lemma teamSize_check (ts : option json) :
  negb (truthy_opt ts) || Gen.not_number ts || Gen.number_le0 ts
  = negb (positive_number ts).
Proof.
  destruct ts as [[| b | q | s | l | l]|]; simpl; try reflexivity.
  - destruct b; reflexivity.
  - destruct (Qle_bool q 0) eqn:E; simpl.
    + now rewrite orb_true_r.
    + now rewrite (Qle_bool_false_neq q E).
  - destruct (String.eqb s EmptyString); reflexivity.
Qed.

Lemma domain_check (dom : option json) :
  nonempty_string dom = false ->
  negb (truthy_opt dom) || Gen.not_string dom || Gen.blank dom = true.
Proof.
  intros H.
  destruct dom as [[| b | q | s | l | l]|]; simpl in *;
    try reflexivity; try discriminate.
  - destruct b; reflexivity.
  - now rewrite orb_true_r.
  - apply negb_false_iff in H. now rewrite H.
Qed.

Section GenProperties.
Variable parse : Parser.

(** C6. Whenever [teamSize] is not a positive number, or [domain] is
    missing, not a string, or the empty string, the scenario route answers
    400 and leaves the world as it was: no request reaches the model. *)
Theorem gen_rejects_invalid_input (teamSize domain : option json) (w : World) :
  positive_number teamSize = false \/ nonempty_string domain = false ->
  exists msg : string,
    Gen.POST parse teamSize domain w = (Returned (json_error 400 msg), w)
    /\ calls (snd (Gen.POST parse teamSize domain w)) = calls w.
Proof.
  intros H. unfold Gen.POST, try_catch, Gen.POST_try.
  rewrite teamSize_check.
  destruct (positive_number teamSize) eqn:Hts; simpl.
  2:{ eexists. split; reflexivity. }
  destruct H as [H|H]; [discriminate|].
  rewrite (domain_check _ H). eexists. split; reflexivity.
Qed.

(** C1, as the route has it.  For a positive [teamSize] and a non-empty
    [domain] the route either returns, with status 200, the very value the
    model's text parses to, whatever its length and members, after one
    request that carries the schema, or answers an error response (a status
    outside 200-299 and an [error] message).  The collection is not
    touched.  The schema asks for an array of ten to ten items that require
    [title], [description] and [keyDecision]. *)
Theorem gen_returns_parsed_or_error (teamSize domain : option json) (w : World) :
  positive_number teamSize = true -> nonempty_string domain = true ->
  (exists (r : Response) (w1 : World),
      Gen.POST parse teamSize domain w = (Returned r, w1)
      /\ docs w1 = docs w
      /\ ((exists (reply : HttpReply) (rs : list GeminiReply)
                  (text : string) (v : json),
              replies w = Resolved reply :: rs /\ reply_ok reply = true
              /\ reply_text reply = Some text /\ parse text = Some v
              /\ r = json_ok v /\ calls w1 = Gen.request :: calls w)
          \/ (res_ok r = false
              /\ exists msg : string,
                   prop "error" (res_body r) = Some (JString msg))))
  /\ req_schema Gen.request
     = Some (SArray Gen.scenarioSchema (Some 10%nat) (Some 10%nat))
  /\ schema_required Gen.scenarioSchema
     = ["title"; "description"; "keyDecision"].
Proof.
  intros Hts Hdom. split; [|split; reflexivity].
  unfold Gen.POST, try_catch, Gen.POST_try.
  rewrite teamSize_check, Hts. simpl.
  destruct (negb (truthy_opt domain) || Gen.not_string domain
            || Gen.blank domain).
  { do 2 eexists. split; [reflexivity|]. split; [reflexivity|].
    right. split; [reflexivity|]. eexists. reflexivity. }
  unfold bind, fetch.
  destruct (replies w) as [|[e|reply] rs] eqn:Hr; simpl.
  - do 2 eexists. split; [reflexivity|]. split; [reflexivity|].
    right. split; [reflexivity|]. eexists. reflexivity.
  - destruct (is_SyntaxError e);
      (do 2 eexists; split; [reflexivity|]; split; [reflexivity|];
       right; split; [reflexivity|]; eexists; reflexivity).
  - destruct (reply_ok reply) eqn:Hok; simpl.
    2:{ unfold NextResponse_json. simpl.
        destruct (status_accepted (reply_status reply)); simpl.
        - do 2 eexists. split; [reflexivity|]. split; [reflexivity|].
          right. split; [exact Hok|]. eexists. reflexivity.
        - do 2 eexists. split; [reflexivity|]. split; [reflexivity|].
          right. split; [reflexivity|]. eexists. reflexivity. }
    destruct (falsy_str (reply_text reply)) eqn:Hf; simpl.
    { do 2 eexists. split; [reflexivity|]. split; [reflexivity|].
      right. split; [reflexivity|]. eexists. reflexivity. }
    destruct (falsy_str_false _ Hf) as (text & Ht & _). rewrite Ht. simpl.
    destruct (parse text) as [v|] eqn:Hp; simpl.
    + do 2 eexists. split; [reflexivity|]. split; [reflexivity|].
      left. exists reply, rs, text, v. repeat split; assumption.
    + do 2 eexists. split; [reflexivity|]. split; [reflexivity|].
      right. split; [reflexivity|]. eexists. reflexivity.
Qed.

End GenProperties.

Lemma gen_rejects_invalid_input_witness :
  let w := example_world None [answers one_scenario_text] in
  (exists msg : string,
      Gen.POST Ecma.parse (Some (JNumber 0)) (Some (JString "Healthcare")) w
      = (Returned (json_error 400 msg), w)
      /\ calls (snd (Gen.POST Ecma.parse (Some (JNumber 0))
                       (Some (JString "Healthcare")) w)) = calls w)
  /\ (exists msg : string,
         Gen.POST Ecma.parse (Some (JNumber 4)) None w
         = (Returned (json_error 400 msg), w)
         /\ calls (snd (Gen.POST Ecma.parse (Some (JNumber 4)) None w))
            = calls w).
Proof.
  intros w. split.
  - apply (gen_rejects_invalid_input Ecma.parse (Some (JNumber 0))
             (Some (JString "Healthcare")) w).
    left. reflexivity.
  - apply (gen_rejects_invalid_input Ecma.parse (Some (JNumber 4)) None w).
    right. reflexivity.
Defined.

(** C1, as stated, fails: for a valid request the route returns with status
    200 a batch of one item whose title is empty. *)
Lemma gen_returns_short_batch :
  let w := example_world None [answers one_scenario_text] in
  positive_number (Some (JNumber 4)) = true
  /\ nonempty_string (Some (JString "Healthcare")) = true
  /\ exists (body : json) (w1 : World),
       Gen.POST Ecma.parse (Some (JNumber 4)) (Some (JString "Healthcare")) w
       = (Returned (json_ok body), w1)
       /\ body = JArray [JObject [("title", JString EmptyString);
                                  ("description", JString "d");
                                  ("keyDecision", JString "k")]]
       /\ valid_batch body = false.
Proof.
  intros w. split; [reflexivity|]. split; [reflexivity|].
  do 2 eexists. split; [vm_compute; reflexivity|].
  split; reflexivity.
Qed.

Lemma gen_returns_parsed_or_error_witness :
  let w := example_world None [answers one_scenario_text] in
  exists (r : Response) (w1 : World),
    Gen.POST Ecma.parse (Some (JNumber 4)) (Some (JString "Healthcare")) w
    = (Returned r, w1)
    /\ docs w1 = docs w.
Proof.
  intros w.
  destruct (gen_returns_parsed_or_error Ecma.parse (Some (JNumber 4))
              (Some (JString "Healthcare")) w eq_refl eq_refl)
    as [(r & w1 & H & Hd & _) _].
  exists r, w1. split; assumption.
Defined.

(* ===================================================================== *)
(** * Properties of the host line's cleaning *)
(* ===================================================================== *)

Lemma chars_str (l : list ascii) : Js.chars (Js.str l) = l.
Proof. apply list_ascii_of_string_of_list_ascii. Qed.

Lemma trim_start_split (l : list ascii) :
  exists pre, l = pre ++ Js.trim_start l /\ forallb Js.is_space pre = true.
Proof.
  induction l as [|c l IH]; simpl.
  - exists []. split; reflexivity.
  - destruct (Js.is_space c) eqn:E.
    + destruct IH as (pre & Hl & Hpre). exists (c :: pre). simpl.
      rewrite E, Hpre. split; [congruence | reflexivity].
    + exists []. split; reflexivity.
Qed.

Lemma trim_start_head (l : list ascii) (c : ascii) (r : list ascii) :
  Js.trim_start l = c :: r -> Js.is_space c = false.
Proof.
  induction l as [|d l IH]; simpl; [discriminate|].
  destruct (Js.is_space d) eqn:E; [exact IH|].
  intros [= -> _]. exact E.
Qed.

Lemma forallb_rev {A} (f : A -> bool) (l : list A) :
  forallb f (rev l) = forallb f l.
Proof.
  induction l as [|a l IH]; simpl; [reflexivity|].
  rewrite forallb_app, IH. simpl. rewrite andb_true_r. apply andb_comm.
Qed.

Lemma trim_end_split (l : list ascii) :
  exists post, l = Js.trim_end l ++ post /\ forallb Js.is_space post = true.
Proof.
  unfold Js.trim_end.
  destruct (trim_start_split (rev l)) as (pre & Hl & Hpre).
  exists (rev pre). split.
  - rewrite <- rev_app_distr, <- Hl. symmetry. apply rev_involutive.
  - now rewrite forallb_rev.
Qed.

Lemma trim_end_last (l init : list ascii) (c : ascii) :
  Js.trim_end l = init ++ [c] -> Js.is_space c = false.
Proof.
  unfold Js.trim_end. intros H.
  apply (f_equal (@rev ascii)) in H.
  rewrite rev_involutive, rev_app_distr in H. simpl in H.
  exact (trim_start_head _ _ _ H).
Qed.

Lemma trim_chars_split (l : list ascii) :
  exists pre post,
    l = pre ++ Js.trim_chars l ++ post
    /\ forallb Js.is_space pre = true /\ forallb Js.is_space post = true.
Proof.
  unfold Js.trim_chars.
  destruct (trim_start_split l) as (pre & Hl & Hpre).
  destruct (trim_end_split (Js.trim_start l)) as (post & Hl' & Hpost).
  exists pre, post. split; [|split; assumption].
  rewrite <- Hl'. exact Hl.
Qed.

Lemma trim_chars_head (l : list ascii) (c : ascii) (r : list ascii) :
  Js.trim_chars l = c :: r -> Js.is_space c = false.
Proof.
  unfold Js.trim_chars. intros H.
  destruct (trim_end_split (Js.trim_start l)) as (post & Hl & _).
  rewrite H in Hl. simpl in Hl. exact (trim_start_head _ _ _ Hl).
Qed.

Lemma trim_chars_last (l init : list ascii) (c : ascii) :
  Js.trim_chars l = init ++ [c] -> Js.is_space c = false.
Proof. unfold Js.trim_chars. apply trim_end_last. Qed.

Lemma strip_host_label_split (l : list ascii) :
  exists label,
    l = label ++ Js.strip_host_label l
    /\ (label = [] \/ map Js.to_lower label = Js.chars "host:").
Proof.
  unfold Js.strip_host_label.
  destruct l as [|h [|o [|s [|t [|c r]]]]];
    try (exists []; split; [reflexivity | now left]).
  destruct (_ && _) eqn:E.
  - exists [h; o; s; t; c]. split; [reflexivity|]. right.
    repeat (apply andb_true_iff in E; destruct E as [E ?]).
    repeat match goal with
           | H : Ascii.eqb _ _ = true |- _ => apply Ascii.eqb_eq in H
           end.
    simpl. subst c.
    repeat match goal with H : _ = _ |- _ => rewrite H; clear H end.
    reflexivity.
  - exists []. split; [reflexivity | now left].
Qed.

Lemma to_lower_colon (c : ascii) : Js.to_lower c = ":"%char -> c = ":"%char.
Proof.
  destruct c as [[] [] [] [] [] [] [] []]; vm_compute; intros H;
    first [reflexivity | discriminate H].
Qed.

Lemma strip_host_label_removes (label rest : list ascii) :
  map Js.to_lower label = Js.chars "host:" ->
  Js.strip_host_label (label ++ rest) = rest.
Proof.
  destruct label as [|h [|o [|s [|t [|c [|x label]]]]]]; try discriminate.
  simpl. intros [= Hh Ho Hs Ht Hc].
  apply to_lower_colon in Hc. subst c.
  unfold Js.strip_host_label. now rewrite Hh, Ho, Hs, Ht.
Qed.

Lemma remove_dquotes_spec (l : list ascii) :
  without_quotes l (Js.remove_dquotes l).
Proof.
  unfold Js.remove_dquotes. induction l as [|c l IH]; [constructor|].
  destruct (decide (c = Js.dquote)) as [->|Hne].
  - rewrite filter_cons_False by (intros H; now apply H).
    now constructor.
  - rewrite filter_cons_True by exact Hne. now constructor.
Qed.

(** C7, as the route has it.  The cleaned line is the model's text without
    its first five characters when these spell the host label in any letter
    case, then without any double quote wherever it stands, then without the
    white space at both ends: it holds no double quote, neither starts nor
    ends with white space, and is what remains of the unquoted text between
    two runs of white space. *)
Theorem cleanedPrompt_shape (raw : string) :
  let body := Js.strip_host_label (Js.chars raw) in
  let out := Js.chars (NextPrompt.cleanedPrompt raw) in
  (exists label,
      Js.chars raw = label ++ body
      /\ (label = [] \/ map Js.to_lower label = Js.chars "host:"))
  /\ (forall label rest,
         Js.chars raw = label ++ rest ->
         map Js.to_lower label = Js.chars "host:" -> body = rest)
  /\ (exists unquoted pre post,
         without_quotes body unquoted
         /\ unquoted = pre ++ out ++ post
         /\ forallb Js.is_space pre = true /\ forallb Js.is_space post = true)
  /\ (Js.dquote ∉ out)
  /\ (forall c r, out = c :: r -> Js.is_space c = false)
  /\ (forall init c, out = init ++ [c] -> Js.is_space c = false).
Proof.
  intros body out. unfold out, NextPrompt.cleanedPrompt. rewrite chars_str.
  fold body. split; [apply strip_host_label_split|].
  split.
  { intros label rest Hraw Hlabel. unfold body. rewrite Hraw.
    now apply strip_host_label_removes. }
  split.
  { destruct (trim_chars_split (Js.remove_dquotes body))
      as (pre & post & Hs & Hpre & Hpost).
    exists (Js.remove_dquotes body), pre, post.
    split; [apply remove_dquotes_spec|]. now split. }
  split; [|split; [apply trim_chars_head | apply trim_chars_last]].
  intros Hin.
  destruct (trim_chars_split (Js.remove_dquotes body))
    as (pre & post & Hs & _).
  assert (Hq : Js.dquote ∈ Js.remove_dquotes body).
  { rewrite Hs. rewrite !elem_of_app. auto. }
  unfold Js.remove_dquotes in Hq. apply list_elem_of_filter in Hq.
  destruct Hq as [Hne _]. now apply Hne.
Qed.

Lemma cleanedPrompt_shape_witness :
  Js.strip_host_label (Js.chars labelled_line)
  = Js.chars (dq " 'And the press?' ")
  /\ (Js.dquote ∉ Js.chars (NextPrompt.cleanedPrompt labelled_line))
  /\ NextPrompt.cleanedPrompt labelled_line = "And the press?".
Proof.
  destruct (cleanedPrompt_shape labelled_line) as (_ & Hrest & _ & Hq & _).
  split; [|split; [exact Hq | vm_compute; reflexivity]].
  apply (Hrest (Js.chars "hOsT:")); vm_compute; reflexivity.
Defined.

(** C7, as stated, fails: a line with a quoted word has no label, no quote
    around it and no white space at its ends, so the cleaning as worded
    leaves it alone; the route takes the quotes off the word. *)
Lemma cleanedPrompt_alters_inner_quotes :
  cleaned_as_specified quoting_line = quoting_line
  /\ NextPrompt.cleanedPrompt quoting_line = "Say yes now"
  /\ NextPrompt.cleanedPrompt quoting_line <> cleaned_as_specified quoting_line.
Proof.
  split; [vm_compute; reflexivity|].
  split; [vm_compute; reflexivity|].
  vm_compute. intros [=].
Qed.

(* ===================================================================== *)
(** * Properties of the opening-prompt route *)
(* ===================================================================== *)

Lemma str_nonempty (l : list ascii) :
  l <> [] -> String.eqb (Js.str l) EmptyString = false.
Proof. destruct l; [congruence | reflexivity]. Qed.

Lemma index_of_nonempty (c : ascii) (l : list ascii) (i : nat) :
  Js.index_of c l = Some i -> l <> [].
Proof. destruct l; discriminate. Qed.

Lemma jsonText_sliced (text : string) (i j : nat) :
  let trimmed := Js.trim_chars (Js.chars text) in
  Js.starts_with_char "{" trimmed = false ->
  Js.index_of "{" trimmed = Some i ->
  Js.last_index_of "}" trimmed = Some j ->
  (i < j)%nat ->
  MakeInterview.jsonText text = Js.str (Js.slice i (j + 1) trimmed).
Proof.
  intros trimmed Hs Hi Hj Hlt. unfold MakeInterview.jsonText.
  fold trimmed. rewrite Hs, Hi, Hj. simpl.
  destruct (Nat.ltb_spec i j); [reflexivity | lia].
Qed.

Section MakeInterviewProperties.
Variable parse : Parser.

Lemma respond_cases (text : string) :
  let res := MakeInterview.respond parse text in
  (forall parsed v,
      parse (MakeInterview.jsonText text) = Some parsed ->
      prop "openingPrompt" parsed = Some v -> truthy v = true ->
      res = json_ok (JObject [("openingPrompt", v)]))
  /\ (res_status res <> 200%nat ->
      (res = json_error 500 "Failed to parse AI response as JSON."
       /\ parse (MakeInterview.jsonText text) = None)
      \/ (res = json_error 500 "AI response missing openingPrompt"
          /\ exists parsed,
               parse (MakeInterview.jsonText text) = Some parsed
               /\ truthy_opt (prop "openingPrompt" parsed) = false)).
Proof.
  unfold MakeInterview.respond. simpl.
  destruct (parse (MakeInterview.jsonText text)) as [parsed|] eqn:Hp.
  - split.
    + intros p v [= <-] Hv Ht. rewrite Hv. simpl. now rewrite Ht.
    + destruct (truthy_opt (prop "openingPrompt" parsed)) eqn:Ht; simpl.
      * intros H. now elim H.
      * intros _. right. split; [reflexivity|]. now exists parsed.
  - split; [discriminate|]. intros _. now left.
Qed.

Lemma makeinterview_responds (b : MakeInterview.Body) (w : World)
    (r : HttpReply) (rs : list GeminiReply) (text : string) :
  MakeInterview.invalid b = false ->
  replies w = Resolved r :: rs -> reply_ok r = true ->
  reply_text r = Some text ->
  Js.trim_chars (Js.chars text) <> [] ->
  MakeInterview.POST parse b w
  = (Returned (MakeInterview.respond parse text),
     {| docs := docs w; replies := rs;
        calls := MakeInterview.request :: calls w;
        clock := clock w; page := page w |}).
Proof.
  intros Hv Hr Hok Ht Hne.
  unfold MakeInterview.POST, try_catch, MakeInterview.POST_try.
  rewrite Hv. unfold bind, fetch. rewrite Hr. simpl. rewrite Hok, Ht. simpl.
  assert (Hte : String.eqb text EmptyString = false).
  { destruct text; [now elim Hne | reflexivity]. }
  rewrite Hte. unfold MakeInterview.empty_str, Js.trim.
  rewrite (str_nonempty _ Hne). reflexivity.
Qed.


End MakeInterviewProperties.



(* ===================================================================== *)
(** * Properties of a turn of the interview page *)
(* ===================================================================== *)

(** The free-text route on a request with a transcript and a scenario: one
    call to the service, and the response carries the host line, if any. *)
Lemma next_prompt_line (body : NextPrompt.NextPromptRequest) (w : World)
    (t : list NextPrompt.Entry) (sc : Scenario) :
  NextPrompt.transcript body = Some t -> t <> [] ->
  NextPrompt.scenario body = Some sc ->
  exists res : Response,
    NextPrompt.POST body w = (Returned res, after_call NextPrompt.request w)
    /\ match host_line (replies w) with
       | Some line => res = json_ok (JObject [("nextPrompt", JString line)])
       | None =>
           res_ok res = false
           \/ res = json_ok (JObject [("nextPrompt", JString EmptyString)])
       end.
Proof.
  intros Ht Hne Hsc.
  unfold NextPrompt.POST, try_catch, NextPrompt.POST_try.
  rewrite Ht, Hsc. destruct t as [|e t]; [now elim Hne|]. simpl.
  unfold bind, NextPrompt.generateContent, bind, fetch, after_call, host_line.
  destruct (replies w) as [|[e'|r] rs]; simpl.
  1,2: eexists; split; [reflexivity | now left].
  destruct (reply_ok r); simpl.
  2:{ eexists; split; [reflexivity | now left]. }
  destruct (falsy_str (reply_text r)); simpl.
  { eexists; split; [reflexivity | now left]. }
  eexists. split; [reflexivity|].
  destruct (String.eqb _ _) eqn:E; [|reflexivity].
  right. apply String.eqb_eq in E. now rewrite E.
Qed.

Lemma next_prompt_no_scenario (body : NextPrompt.NextPromptRequest)
    (w : World) (t : list NextPrompt.Entry) :
  NextPrompt.transcript body = Some t -> t <> [] ->
  NextPrompt.scenario body = None ->
  NextPrompt.POST body w
  = (Returned (json_error 400 "No scenario provided"), w).
Proof.
  intros Ht Hne Hsc.
  unfold NextPrompt.POST, try_catch, NextPrompt.POST_try.
  rewrite Ht, Hsc. destruct t as [|e t]; [now elim Hne|]. reflexivity.
Qed.

Lemma host_line_nonempty (rs : list GeminiReply) (line : string) :
  host_line rs = Some line -> String.eqb line EmptyString = false.
Proof.
  unfold host_line. destruct rs as [|[e|r] rs]; try discriminate.
  destruct (_ && _); [|discriminate].
  cbv zeta.
  destruct (String.eqb (NextPrompt.cleanedPrompt _) _) eqn:E;
    [discriminate|].
  intros [= <-]. exact E.
Qed.

(** The routes called by the page are reasoned about through their own
    lemmas and stay folded when a handler is run. *)
#[local] Arguments MakeInterview.POST : simpl never.
#[local] Arguments NextPrompt.POST : simpl never.
#[local] Arguments Js.trim : simpl never.

(** Unfolding of the combinators and state setters of a handler. *)
Ltac run_handler :=
  unfold finally, try_catch, bind, InterviewPage.setLoading,
    InterviewPage.setError, InterviewPage.setTranscript,
    InterviewPage.setUserResponse, InterviewPage.setScenario,
    InterviewPage.setTeamSize, InterviewPage.setDomain,
    InterviewPage.setSimulationDocId, InterviewPage.setInitHasRun,
    InterviewPage.router_push, modify, Timestamp_now, updateDoc, addDoc,
    get_world, with_page, with_docs, throw, ret;
  simpl.

Lemma submit_ready (w : World) (id : string) :
  String.eqb (Js.trim (Page.userResponse (page w))) EmptyString = false ->
  Page.simulationDocId (page w) = Some id -> id <> EmptyString ->
  String.eqb (Js.trim (Page.userResponse (page w))) EmptyString
  || falsy_str (Page.simulationDocId (page w)) = false.
Proof.
  intros -> -> H. simpl. now apply String.eqb_neq.
Qed.

Lemma snoc_nonempty {A B} (f : A -> B) (l : list A) (a : A) :
  map f (l ++ [a]) <> [].
Proof. now destruct l. Qed.

(** A submission whose host line fails: the team's entry is saved and shown,
    the text area is cleared, nothing else is written. *)
Lemma submit_failure (w : World) (id : string) (d : Doc.SimDoc) :
  String.eqb (Js.trim (Page.userResponse (page w))) EmptyString = false ->
  Page.simulationDocId (page w) = Some id -> id <> EmptyString ->
  docs w !! id = Some d ->
  next_line (page w) (replies w) = None ->
  let newTranscript :=
    Page.transcript (page w)
    ++ [team_entry (Page.userResponse (page w)) (clock w)] in
  exists (w1 : World),
    InterviewPage.handleSubmitResponse w = (Returned tt, w1)
    /\ docs w1 = <[id := Doc.set_transcript newTranscript d]> (docs w)
    /\ Page.transcript (page w1) = newTranscript
    /\ Page.userResponse (page w1) = EmptyString
    /\ Page.simulationDocId (page w1) = Some id
    /\ Page.scenario (page w1) = Page.scenario (page w)
    /\ clock w1 = N.succ (clock w).
Proof.
  intros Hu Hid Hne Hd Hline newT.
  unfold InterviewPage.handleSubmitResponse.
  unfold bind at 1. unfold get_world.
  rewrite (submit_ready w id Hu Hid Hne), Hid. simpl.
  run_handler. rewrite Hd. simpl.
  unfold next_line in Hline.
  destruct (Page.scenario (page w)) as [sc|] eqn:Hsc.
  - match goal with
    | |- context [NextPrompt.POST ?b ?w'] =>
        destruct (next_prompt_line b w' (map InterviewPage.strip newT) sc)
          as (res & -> & Hres)
    end; [reflexivity | apply snoc_nonempty | reflexivity |].
    simpl in Hres. rewrite Hline in Hres. simpl.
    destruct Hres as [Hres | ->].
    + rewrite Hres. simpl. eexists. split; [reflexivity|]. simpl.
      repeat split; auto.
    + simpl. eexists. split; [reflexivity|]. simpl. repeat split; auto.
  - rewrite (next_prompt_no_scenario _ _ (map InterviewPage.strip newT));
      [| reflexivity | apply snoc_nonempty | reflexivity].
    simpl. eexists. split; [reflexivity|]. simpl. repeat split; auto.
Qed.

(** A submission whose host line arrives: the team's entry and the host's
    entry are both saved and shown. *)
Lemma submit_success (w : World) (id line : string) (d : Doc.SimDoc) :
  String.eqb (Js.trim (Page.userResponse (page w))) EmptyString = false ->
  Page.simulationDocId (page w) = Some id -> id <> EmptyString ->
  docs w !! id = Some d ->
  next_line (page w) (replies w) = Some line ->
  let finalTranscript :=
    (Page.transcript (page w)
     ++ [team_entry (Page.userResponse (page w)) (clock w)])
    ++ [host_entry line (N.succ (clock w))] in
  exists (w1 : World),
    InterviewPage.handleSubmitResponse w = (Returned tt, w1)
    /\ docs w1 = <[id := Doc.set_transcript finalTranscript d]> (docs w)
    /\ Page.transcript (page w1) = finalTranscript.
Proof.
  intros Hu Hid Hne Hd Hline finalT.
  unfold InterviewPage.handleSubmitResponse.
  unfold bind at 1. unfold get_world.
  rewrite (submit_ready w id Hu Hid Hne), Hid. simpl.
  run_handler. rewrite Hd. simpl.
  unfold next_line in Hline.
  destruct (Page.scenario (page w)) as [sc|] eqn:Hsc; [|discriminate].
  match goal with
  | |- context [NextPrompt.POST ?b ?w'] =>
      destruct (next_prompt_line b w'
                  (map InterviewPage.strip
                     (Page.transcript (page w)
                      ++ [team_entry (Page.userResponse (page w)) (clock w)]))
                  sc)
        as (res & -> & Hres)
  end; [reflexivity | apply snoc_nonempty | reflexivity |].
  simpl in Hres. rewrite Hline in Hres. subst res. simpl.
  rewrite (host_line_nonempty _ _ Hline). simpl.
  rewrite lookup_insert_eq. simpl.
  eexists. split; [reflexivity|]. simpl. split; [|reflexivity].
  now rewrite insert_insert_eq.
Qed.

Lemma submit_without_text (w : World) :
  Page.userResponse (page w) = EmptyString ->
  InterviewPage.handleSubmitResponse w = (Returned tt, w).
Proof.
  intros H. unfold InterviewPage.handleSubmitResponse.
  unfold bind at 1. unfold get_world. rewrite H. reflexivity.
Qed.




(* ===================================================================== *)
(** * The transcript only grows *)
(* ===================================================================== *)

Lemma grows_refl (m : gmap string Doc.SimDoc) : grows m m.
Proof. intros id d H. now exists d. Qed.

Lemma grows_trans (m1 m2 m3 : gmap string Doc.SimDoc) :
  grows m1 m2 -> grows m2 m3 -> grows m1 m3.
Proof.
  intros H12 H23 id d H.
  destruct (H12 id d H) as (d2 & H2 & P2).
  destruct (H23 id d2 H2) as (d3 & H3 & P3).
  exists d3. split; [exact H3 | now transitivity (Doc.transcript d2)].
Qed.

Lemma grows_insert (m : gmap string Doc.SimDoc) (id : string)
    (d d1 : Doc.SimDoc) :
  m !! id = Some d ->
  Doc.transcript d `prefix_of` Doc.transcript d1 ->
  grows m (<[id := d1]> m).
Proof.
  intros Hd Hp id' d' H. destruct (decide (id = id')) as [<-|Hne].
  - exists d1. rewrite lookup_insert_eq. split; [reflexivity | congruence].
  - exists d'. rewrite lookup_insert_ne by exact Hne. now split.
Qed.

Lemma grows_insert_new (m : gmap string Doc.SimDoc) (id : string)
    (d1 : Doc.SimDoc) :
  m !! id = None -> grows m (<[id := d1]> m).
Proof.
  intros Hn id' d' H. destruct (decide (id = id')) as [<-|Hne].
  - congruence.
  - exists d'. rewrite lookup_insert_ne by exact Hne. now split.
Qed.

Lemma in_sync_page (p p' : Page.State) (m : gmap string Doc.SimDoc) :
  in_sync p m ->
  Page.simulationDocId p' = Page.simulationDocId p ->
  Page.transcript p `prefix_of` Page.transcript p' ->
  in_sync p' m.
Proof.
  intros H Hid Hp id d Hi Hd. rewrite Hid in Hi.
  transitivity (Page.transcript p); [now apply (H id d) | exact Hp].
Qed.

Lemma in_sync_insert_own (p' : Page.State) (m : gmap string Doc.SimDoc)
    (id : string) (x : Doc.SimDoc) :
  Page.simulationDocId p' = Some id ->
  Doc.transcript x `prefix_of` Page.transcript p' ->
  in_sync p' (<[id := x]> m).
Proof.
  intros Hid Hp id' d Hi Hd. rewrite Hid in Hi. injection Hi as <-.
  rewrite lookup_insert_eq in Hd. now injection Hd as <-.
Qed.

Lemma in_sync_insert_same (p' : Page.State) (m : gmap string Doc.SimDoc)
    (id : string) (d x : Doc.SimDoc) :
  in_sync p' m -> m !! id = Some d ->
  Doc.transcript x = Doc.transcript d ->
  in_sync p' (<[id := x]> m).
Proof.
  intros H Hd Hx id' d' Hi Hd'. destruct (decide (id = id')) as [<-|Hne].
  - rewrite lookup_insert_eq in Hd'. injection Hd' as <-. rewrite Hx.
    now apply (H id d).
  - rewrite lookup_insert_ne in Hd' by exact Hne. now apply (H id' d').
Qed.

Lemma next_prompt_frame (body : NextPrompt.NextPromptRequest) (w : World) :
  exists (res : Response) (rs : list GeminiReply) (cs : list GeminiRequest),
    NextPrompt.POST body w
    = (Returned res,
       {| docs := docs w; replies := rs; calls := cs; clock := clock w;
          page := page w |}).
Proof.
  unfold NextPrompt.POST, try_catch, NextPrompt.POST_try.
  destruct w as [ds rs cs ck pg]; simpl.
  destruct (match NextPrompt.transcript body with Some t => _ | None => _ end).
  { do 3 eexists. reflexivity. }
  destruct (negb _).
  { do 3 eexists. reflexivity. }
  unfold bind, NextPrompt.generateContent, bind, fetch; simpl.
  destruct rs as [|[e|r] rs]; simpl; try (do 3 eexists; reflexivity).
  destruct (reply_ok r); simpl; try (do 3 eexists; reflexivity).
  destruct (falsy_str (reply_text r)); simpl; do 3 eexists; reflexivity.
Qed.

Lemma makeinterview_frame (parse : Parser) (b : MakeInterview.Body) (w : World) :
  exists (res : Response) (rs : list GeminiReply) (cs : list GeminiRequest),
    MakeInterview.POST parse b w
    = (Returned res,
       {| docs := docs w; replies := rs; calls := cs; clock := clock w;
          page := page w |}).
Proof.
  unfold MakeInterview.POST, try_catch, MakeInterview.POST_try.
  destruct w as [ds rs cs ck pg]; simpl.
  destruct (MakeInterview.invalid b).
  { do 3 eexists. reflexivity. }
  unfold bind, fetch; simpl.
  destruct rs as [|[e|r] rs]; simpl; try (do 3 eexists; reflexivity).
  - destruct (is_SyntaxError e); do 3 eexists; reflexivity.
  - destruct (reply_ok r); simpl.
    + destruct (_ || _); simpl; do 3 eexists; reflexivity.
    + unfold NextResponse_json. simpl.
      destruct (status_accepted (reply_status r)); simpl;
        do 3 eexists; reflexivity.
Qed.

Lemma submit_advances (w : World) :
  in_sync (page w) (docs w) ->
  advances w (exec InterviewPage.handleSubmitResponse w).
Proof.
  intros Hs. unfold exec, InterviewPage.handleSubmitResponse.
  unfold bind at 1. unfold get_world.
  destruct (_ || _) eqn:Hguard.
  { simpl. split; [exact Hs | apply grows_refl]. }
  apply orb_false_iff in Hguard. destruct Hguard as [_ Hf].
  destruct (falsy_str_false _ Hf) as (id & Hid & Hne). rewrite Hid. simpl.
  run_handler.
  destruct (docs w !! id) as [d|] eqn:Hd; simpl.
  2:{ split; [|apply grows_refl].
      apply (in_sync_page (page w)); [exact Hs | reflexivity |].
      simpl. now apply prefix_app_r. }
  assert (Hpre : Doc.transcript d `prefix_of` Page.transcript (page w))
    by now apply (Hs id d).
  match goal with
  | |- context [NextPrompt.POST ?b ?w'] =>
      destruct (next_prompt_frame b w') as (res & rs & cs & ->)
  end.
  simpl.
  assert (Hfail : forall (msg : string) T,
    T = Page.transcript (page w) ++
        [{| role := team; content := JString (Page.userResponse (page w)); timestamp := clock w |}] ->
    advances w
      {| docs := <[id := Doc.set_transcript T d]> (docs w);
         replies := rs; calls := cs; clock := N.succ (clock w);
         page := {| Page.scenario := Page.scenario (page w);
                    Page.teamSize := Page.teamSize (page w);
                    Page.domain := Page.domain (page w);
                    Page.loading := false; Page.error := Some msg;
                    Page.userResponse := EmptyString;
                    Page.simulationDocId := Page.simulationDocId (page w);
                    Page.transcript := T;
                    Page.initHasRun := Page.initHasRun (page w);
                    Page.pushed := Page.pushed (page w) |} |}).
  { intros msg T ->. split; simpl.
    - apply in_sync_insert_own; [exact Hid | reflexivity].
    - apply (grows_insert _ _ d); [exact Hd|]. simpl. now apply prefix_app_r. }
  destruct (negb (res_ok res)); simpl; [now apply Hfail|].
  destruct (prop "nextPrompt" (res_body res)) as [[| | |line| |]|]; simpl;
    try now apply Hfail.
  destruct (String.eqb line EmptyString); simpl; [now apply Hfail|].
  rewrite lookup_insert_eq. simpl. rewrite insert_insert_eq.
  split; simpl.
  - apply in_sync_insert_own; [exact Hid | reflexivity].
  - apply (grows_insert _ _ d); [exact Hd|]. simpl.
    apply prefix_app_r. now apply prefix_app_r.
Qed.

Lemma type_advances (v : string) (w : World) :
  in_sync (page w) (docs w) ->
  advances w (exec (InterviewPage.onChange v) w).
Proof.
  intros Hs. split; [|apply grows_refl].
  apply (in_sync_page (page w)); [exact Hs | reflexivity | reflexivity].
Qed.

Lemma finish_advances (w : World) :
  in_sync (page w) (docs w) ->
  advances w (exec InterviewPage.handleFinishSimulation w).
Proof.
  intros Hs. unfold exec, InterviewPage.handleFinishSimulation.
  unfold bind at 1. unfold get_world.
  destruct (falsy_str _) eqn:Hf.
  { simpl. split; [exact Hs | apply grows_refl]. }
  destruct (falsy_str_false _ Hf) as (id & Hid & Hne). rewrite Hid. simpl.
  run_handler.
  destruct (docs w !! id) as [d|] eqn:Hd; simpl.
  - split; simpl.
    + apply (in_sync_insert_same _ _ _ d); [|exact Hd | reflexivity].
      apply (in_sync_page (page w)); [exact Hs | reflexivity | reflexivity].
    + apply (grows_insert _ _ d); [exact Hd | reflexivity].
  - split; [|apply grows_refl].
    apply (in_sync_page (page w)); [exact Hs | reflexivity | reflexivity].
Qed.

Lemma analyze_advances (parse : Parser) (docId : option string) (w : World) :
  in_sync (page w) (docs w) ->
  advances w (exec (AnalyzeInterview.POST parse docId) w).
Proof.
  intros Hs. unfold exec.
  unfold AnalyzeInterview.POST, try_catch, AnalyzeInterview.POST_try.
  destruct (falsy_str docId) eqn:Hf.
  { simpl. split; [exact Hs | apply grows_refl]. }
  unfold bind at 1. unfold getDoc.
  destruct (docs w !! default EmptyString docId) as [d|] eqn:Hd.
  2:{ simpl. split; [exact Hs | apply grows_refl]. }
  destruct (length (Doc.transcript d) <? 2)%nat.
  { simpl. split; [exact Hs | apply grows_refl]. }
  destruct (truthy_opt (Doc.analysis d)).
  { simpl. split; [exact Hs | apply grows_refl]. }
  assert (Hframe : forall rs cs,
    advances w {| docs := docs w; replies := rs; calls := cs;
                  clock := clock w; page := page w |}).
  { intros rs cs. split; [exact Hs | apply grows_refl]. }
  unfold AnalyzeInterview.generate, bind, fetch.
  destruct (replies w) as [|[e|rp] rs]; simpl; try apply Hframe.
  destruct (reply_ok rp); simpl; try apply Hframe.
  destruct (falsy_str (reply_text rp)); simpl; try apply Hframe.
  destruct (parse _) as [a|]; simpl; try apply Hframe.
  unfold updateDoc. simpl. rewrite Hd. simpl.
  split; simpl.
  - apply (in_sync_insert_same _ _ _ d); [exact Hs | exact Hd | reflexivity].
  - apply (grows_insert _ _ d); [exact Hd | reflexivity].
Qed.

(** Running a handler by value: each state is computed before the next
    step reads it. *)
Ltac eval_handler :=
  cbv beta iota zeta delta
    [finally try_catch bind ret throw modify get_world updateDoc addDoc
     Timestamp_now with_page with_docs exec snd fst
     InterviewPage.setLoading InterviewPage.setError
     InterviewPage.setTranscript InterviewPage.setUserResponse
     InterviewPage.setScenario InterviewPage.setTeamSize
     InterviewPage.setDomain InterviewPage.setSimulationDocId
     InterviewPage.setInitHasRun InterviewPage.router_push
     docs replies calls clock page
     Page.scenario Page.teamSize Page.domain Page.loading Page.error
     Page.userResponse Page.simulationDocId Page.transcript Page.initHasRun
     Page.pushed].

Lemma start_advances (parse : Parser) (query : Exn + InterviewPage.Query)
    (w : World) :
  in_sync (page w) (docs w) ->
  advances w (exec (InterviewPage.initializeInterview parse query) w).
Proof.
  destruct w as [ds rs cs ck [sc ts dm ld er ur sid tr ihr pu]].
  intros Hs. unfold advances; simpl in Hs |- *.
  unfold InterviewPage.initializeInterview.
  destruct ihr.
  { eval_handler. split; [exact Hs | apply grows_refl]. }
  destruct query as [e|q].
  { eval_handler. split; [|apply grows_refl].
    apply (in_sync_page _ _ _ Hs); reflexivity. }
  destruct (String.eqb (InterviewPage.q_domain q) EmptyString).
  { eval_handler. split; [|apply grows_refl].
    apply (in_sync_page _ _ _ Hs); reflexivity. }
  eval_handler.
  assert (Hfresh : ds !! fresh (dom ds) = None).
  { apply not_elem_of_dom. apply is_fresh. }
  generalize dependent (fresh (dom ds)). intros id Hfresh.
  match goal with
  | |- context [MakeInterview.POST ?p ?b ?w'] =>
      destruct (makeinterview_frame p b w') as (res & rs' & cs' & ->)
  end.
  eval_handler.
  assert (Hnew : forall d, grows ds (<[id := d]> ds))
    by (intros d; now apply grows_insert_new).
  assert (Hown : forall (p : Page.State) d,
             Page.simulationDocId p = Some id ->
             Doc.transcript d `prefix_of` Page.transcript p ->
             in_sync p (<[id := d]> ds))
    by (intros p d; apply in_sync_insert_own).
  destruct (negb (res_ok res)).
  { eval_handler. split; [apply Hown; [reflexivity | apply prefix_nil] | apply Hnew]. }
  destruct (prop "openingPrompt" (res_body res)) as [op|].
  2:{ eval_handler. split; [apply Hown; [reflexivity | apply prefix_nil] | apply Hnew]. }
  eval_handler. rewrite lookup_insert_eq. eval_handler.
  rewrite insert_insert_eq.
  split; [apply Hown; reflexivity | apply Hnew].
Qed.

Lemma op_advances (parse : Parser) (o : Op) (w : World) :
  in_sync (page w) (docs w) -> advances w (run_op parse o w).
Proof.
  destruct o; simpl.
  - apply start_advances.
  - apply type_advances.
  - apply submit_advances.
  - apply finish_advances.
  - apply analyze_advances.
Qed.

Lemma run_advances (parse : Parser) (ops : list Op) (w : World) :
  in_sync (page w) (docs w) -> advances w (run parse ops w).
Proof.
  revert w. induction ops as [|o ops IH]; intros w Hs; simpl.
  - split; [exact Hs | apply grows_refl].
  - destruct (op_advances parse o w Hs) as [Hs1 Hg1].
    destruct (IH _ Hs1) as [Hs2 Hg2].
    split; [exact Hs2 | exact (grows_trans _ _ _ Hg1 Hg2)].
Qed.

(** C4. From a freshly mounted page, along any sequence of page loads,
    typing, submissions, finishes and analyses, whether they succeed or
    not, every saved transcript is append-only: a document present at one
    point of the run is still present at any later point, its transcript is
    at least as long, and every entry it had is still there, unchanged, at
    the same position. *)
Theorem transcript_append_only
    (parse : Parser) (m : gmap string Doc.SimDoc) (rs : list GeminiReply)
    (now : N) (ops1 ops2 : list Op) (id : string) (d : Doc.SimDoc) :
  let w1 := run parse ops1 (mounted m rs now) in
  let w2 := run parse ops2 w1 in
  docs w1 !! id = Some d ->
  exists d2 : Doc.SimDoc,
    docs w2 !! id = Some d2
    /\ (length (Doc.transcript d) <= length (Doc.transcript d2))%nat
    /\ forall (i : nat) (e : TranscriptEntry),
         Doc.transcript d !! i = Some e -> Doc.transcript d2 !! i = Some e.
Proof.
  intros w1 w2 Hd.
  assert (H0 : in_sync (page (mounted m rs now)) (docs (mounted m rs now)))
    by (intros ? ? [=]).
  destruct (run_advances parse ops1 _ H0) as [Hs1 _].
  destruct (run_advances parse ops2 _ Hs1) as [_ Hg].
  destruct (Hg id d Hd) as (d2 & Hd2 & Hp).
  exists d2. split; [exact Hd2|]. split.
  - now apply prefix_length.
  - intros i e He. now apply (prefix_lookup_Some (Doc.transcript d)).
Qed.

Lemma transcript_append_only_witness :
  let w1 := run Ecma.parse [OpStart example_query]
                (mounted ∅ [answers opening_text; unavailable;
                            answers "Host: And the press?";
                            answers small_analysis_text] 10) in
  let w2 := run Ecma.parse
                [OpType team_text; OpSubmit; OpType team_text; OpSubmit;
                 OpFinish; OpAnalyze (Some "0")] w1 in
  roles_of w1 "0" = Some [host]
  /\ roles_of w2 "0" = Some [host; team; team; host]
  /\ exists d2 : Doc.SimDoc,
       docs w2 !! "0" = Some d2
       /\ (1 <= length (Doc.transcript d2))%nat
       /\ forall (i : nat) (e : TranscriptEntry),
            [host_entry "Your team has an hour. What now?" 11] !! i = Some e ->
            Doc.transcript d2 !! i = Some e.
Proof.
  intros w1 w2.
  split; [vm_compute; reflexivity|].
  split; [vm_compute; reflexivity|].
  apply (transcript_append_only Ecma.parse ∅ _ 10 [OpStart example_query] _
           "0"
           {| Doc.teamSize := Some 4%Z; Doc.domain := "Healthcare";
              Doc.scenario := example_scenario; Doc.status := "pending";
              Doc.createdAt := 10;
              Doc.transcript :=
                [host_entry "Your team has an hour. What now?" 11];
              Doc.analysis := None |}).
  vm_compute. reflexivity.
Defined.

(* ===================================================================== *)
(** * Writes to the collection *)
(* ===================================================================== *)

Ltac eval_page := eval_handler; cbn [default from_option id orb andb negb].

Lemma submit_writes (w : World) :
  writes (docs w) (docs (exec InterviewPage.handleSubmitResponse w)).
Proof.
  destruct w as [ds rs cs ck [sc ts dm ld er ur sid tr ihr pu]].
  unfold exec, InterviewPage.handleSubmitResponse.
  unfold bind at 1. unfold get_world. simpl.
  destruct (_ || _) eqn:Hguard; [apply rtc_refl|].
  apply orb_false_iff in Hguard. destruct Hguard as [_ Hf].
  destruct (falsy_str_false _ Hf) as (id & -> & Hne). simpl.
  eval_handler.
  destruct (ds !! id) as [d|] eqn:Hd; [|apply rtc_refl].
  match goal with
  | |- context [NextPrompt.POST ?b ?w'] =>
      destruct (next_prompt_frame b w') as (res & rs' & cs' & ->)
  end.
  eval_handler.
  assert (H1 : forall t, writes ds (<[id := Doc.set_transcript t d]> ds)).
  { intros t. apply rtc_once. now constructor. }
  destruct (negb (res_ok res)); [apply H1|].
  destruct (prop "nextPrompt" (res_body res)) as [[| | |line| |]|];
    try apply H1.
  destruct (String.eqb line EmptyString); [apply H1|].
  rewrite lookup_insert_eq. eval_handler.
  eapply rtc_l; [apply (write_transcript _ id d); exact Hd|].
  apply rtc_once. apply write_transcript. apply lookup_insert_eq.
Qed.

Lemma finish_writes (w : World) :
  writes (docs w) (docs (exec InterviewPage.handleFinishSimulation w)).
Proof.
  destruct w as [ds rs cs ck [sc ts dm ld er ur sid tr ihr pu]].
  unfold exec, InterviewPage.handleFinishSimulation.
  unfold bind at 1. unfold get_world. simpl.
  destruct (falsy_str sid) eqn:Hf; [apply rtc_refl|].
  destruct (falsy_str_false _ Hf) as (id & -> & Hne). simpl.
  eval_handler.
  destruct (ds !! id) as [d|] eqn:Hd; eval_handler; [|apply rtc_refl].
  apply rtc_once. now constructor.
Qed.

Lemma analyze_writes (parse : Parser) (docId : option string) (w : World) :
  writes (docs w) (docs (exec (AnalyzeInterview.POST parse docId) w)).
Proof.
  unfold exec.
  unfold AnalyzeInterview.POST, try_catch, AnalyzeInterview.POST_try.
  destruct (falsy_str docId) eqn:Hf; [apply rtc_refl|].
  unfold bind at 1. unfold getDoc.
  destruct (docs w !! default EmptyString docId) as [d|] eqn:Hd;
    [|apply rtc_refl].
  destruct (Nat.ltb_spec (length (Doc.transcript d)) 2); [apply rtc_refl|].
  destruct (truthy_opt (Doc.analysis d)) eqn:Ht; [apply rtc_refl|].
  unfold AnalyzeInterview.generate, bind, fetch.
  destruct (replies w) as [|[e|rp] rs]; simpl; try apply rtc_refl.
  destruct (reply_ok rp); simpl; try apply rtc_refl.
  destruct (falsy_str (reply_text rp)); simpl; try apply rtc_refl.
  destruct (parse _) as [a|]; simpl; try apply rtc_refl.
  unfold updateDoc. simpl. rewrite Hd. simpl.
  apply rtc_once. now constructor.
Qed.

Lemma start_writes (parse : Parser) (query : Exn + InterviewPage.Query)
    (w : World) :
  writes (docs w)
         (docs (exec (InterviewPage.initializeInterview parse query) w)).
Proof.
  destruct w as [ds rs cs ck [sc ts dm ld er ur sid tr ihr pu]].
  unfold InterviewPage.initializeInterview.
  destruct ihr; [eval_handler; apply rtc_refl|].
  destruct query as [e|q]; [eval_handler; apply rtc_refl|].
  destruct (String.eqb (InterviewPage.q_domain q) EmptyString);
    [eval_handler; apply rtc_refl|].
  eval_handler.
  assert (Hfresh : ds !! fresh (dom ds) = None).
  { apply not_elem_of_dom. apply is_fresh. }
  generalize dependent (fresh (dom ds)). intros id Hfresh.
  match goal with
  | |- context [MakeInterview.POST ?p ?b ?w'] =>
      destruct (makeinterview_frame p b w') as (res & rs' & cs' & ->)
  end.
  eval_handler.
  assert (H1 : forall d, Doc.status d = "pending" -> Doc.transcript d = [] ->
                         Doc.analysis d = None ->
                         writes ds (<[id := d]> ds)).
  { intros d H2 H3 H4. apply rtc_once. now constructor. }
  destruct (negb (res_ok res)); [now apply H1|].
  destruct (prop "openingPrompt" (res_body res)) as [op|]; [|now apply H1].
  eval_handler. rewrite lookup_insert_eq. eval_handler.
  match goal with
  | |- writes _ (<[_ := Doc.set_transcript _ ?d]> _) =>
      apply (rtc_l _ _ (<[id := d]> ds));
        [apply write_created; [exact Hfresh | reflexivity..]|]
  end.
  apply rtc_once. apply write_transcript. apply lookup_insert_eq.
Qed.

Lemma op_writes (parse : Parser) (o : Op) (w : World) :
  writes (docs w) (docs (run_op parse o w)).
Proof.
  destruct o; simpl.
  - apply start_writes.
  - apply rtc_refl.
  - apply submit_writes.
  - apply finish_writes.
  - apply analyze_writes.
Qed.

(** X1.  Whatever the page's handlers and the analysis route are run with,
    in any order, the collection changes only by the four writes of
    [write]: a transcript replaced in an existing document, an existing
    document marked completed, an analysis stored with the status analyzed
    in a document that had none and holds at least two entries, and a
    pending document with an empty transcript created under an unused
    identifier.  Nothing is deleted. *)
Theorem store_changes_are_writes (parse : Parser) (ops : list Op)
    (w : World) :
  writes (docs w) (docs (run parse ops w)).
Proof.
  revert w. induction ops as [|o ops IH]; intros w; simpl.
  - apply rtc_refl.
  - etransitivity; [apply op_writes | apply IH].
Qed.

Lemma keeps_refl (d : Doc.SimDoc) : keeps d d.
Proof. repeat split. Qed.

Lemma keeps_trans (d1 d2 d3 : Doc.SimDoc) :
  keeps d1 d2 -> keeps d2 d3 -> keeps d1 d3.
Proof.
  intros [(A1 & A2 & A3 & A4) A5] [(B1 & B2 & B3 & B4) B5].
  split; [repeat split; congruence|].
  intros Ht. rewrite B5; [now apply A5|]. rewrite A5; assumption.
Qed.

Lemma write_keeps (m m1 : gmap string Doc.SimDoc) (id : string)
    (d : Doc.SimDoc) :
  write m m1 -> m !! id = Some d ->
  exists d1, m1 !! id = Some d1 /\ keeps d d1.
Proof.
  intros [m0 id0 d0 t H0 | m0 id0 d0 H0 | m0 id0 d0 a H0 Hf Hl
          | m0 id0 d0 H0 H1 H2 H3] Hd;
    destruct (decide (id0 = id)) as [->|Hne];
    try (rewrite lookup_insert_ne by exact Hne; exists d; split;
         [exact Hd | apply keeps_refl]).
  - rewrite H0 in Hd. injection Hd as ->.
    eexists. rewrite lookup_insert_eq. split; [reflexivity|]. repeat split.
  - rewrite H0 in Hd. injection Hd as ->.
    eexists. rewrite lookup_insert_eq. split; [reflexivity|]. repeat split.
  - rewrite H0 in Hd. injection Hd as ->.
    eexists. rewrite lookup_insert_eq. split; [reflexivity|].
    split; [repeat split|]. intros Ht. congruence.
  - congruence.
Qed.

Lemma writes_keeps (m m1 : gmap string Doc.SimDoc) (id : string)
    (d : Doc.SimDoc) :
  writes m m1 -> m !! id = Some d ->
  exists d1, m1 !! id = Some d1 /\ keeps d d1.
Proof.
  intros H. revert d. induction H as [m|m m1 m2 H1 _ IH]; intros d Hd.
  - exists d. split; [exact Hd | apply keeps_refl].
  - destruct (write_keeps _ _ _ _ H1 Hd) as (d1 & Hd1 & K1).
    destruct (IH d1 Hd1) as (d2 & Hd2 & K2).
    exists d2. split; [exact Hd2 | exact (keeps_trans _ _ _ K1 K2)].
Qed.

Lemma run_keeps (parse : Parser) (ops : list Op) (w : World) (id : string)
    (d : Doc.SimDoc) :
  docs w !! id = Some d ->
  exists d1, docs (run parse ops w) !! id = Some d1 /\ keeps d d1.
Proof.
  revert w d. induction ops as [|o ops IH]; intros w d Hd; simpl.
  - exists d. split; [exact Hd | apply keeps_refl].
  - destruct (writes_keeps _ _ id d (op_writes parse o w) Hd)
      as (d1 & Hd1 & K1).
    destruct (IH _ d1 Hd1) as (d2 & Hd2 & K2).
    exists d2. split; [exact Hd2 | exact (keeps_trans _ _ _ K1 K2)].
Qed.

(** X2.  A stored document is never lost and never reconfigured: after any
    sequence of page operations and analysis requests it is still there
    under its identifier, with the team size, domain, scenario and creation
    time it had; and an analysis it held, if truthy, is the one it still
    holds. *)
Theorem documents_are_kept (parse : Parser) (ops : list Op) (w : World)
    (id : string) (d : Doc.SimDoc) :
  docs w !! id = Some d ->
  exists d1 : Doc.SimDoc,
    docs (run parse ops w) !! id = Some d1
    /\ Doc.teamSize d1 = Doc.teamSize d
    /\ Doc.domain d1 = Doc.domain d
    /\ Doc.scenario d1 = Doc.scenario d
    /\ Doc.createdAt d1 = Doc.createdAt d
    /\ (truthy_opt (Doc.analysis d) = true ->
        Doc.analysis d1 = Doc.analysis d).
Proof.
  intros Hd. destruct (run_keeps parse ops w id d Hd)
    as (d1 & Hd1 & (H1 & H2 & H3 & H4) & H5).
  exists d1. repeat split; assumption.
Qed.

Lemma documents_are_kept_witness :
  let w := interview_world team_text
             [answers "Host: And the press?"; answers small_analysis_text] in
  let d := pending_doc short_transcript in
  exists d1 : Doc.SimDoc,
    docs (run Ecma.parse [OpSubmit; OpFinish; OpAnalyze (Some "sim1")] w)
      !! "sim1" = Some d1
    /\ Doc.teamSize d1 = Doc.teamSize d
    /\ Doc.domain d1 = Doc.domain d
    /\ Doc.scenario d1 = Doc.scenario d
    /\ Doc.createdAt d1 = Doc.createdAt d
    /\ (truthy_opt (Doc.analysis d) = true ->
        Doc.analysis d1 = Doc.analysis d).
Proof.
  intros w d.
  apply (documents_are_kept Ecma.parse _ w "sim1" d).
  apply lookup_singleton_eq.
Defined.

Lemma write_status_ok_at (id : string) (m m1 : gmap string Doc.SimDoc) :
  write m m1 -> status_ok_at id m -> status_ok_at id m1.
Proof.
  intros [m0 id0 d0 t H0 | m0 id0 d0 H0 | m0 id0 d0 a H0 Hf Hl
          | m0 id0 d0 H0 H1 H2 H3] Hok d Hd Hs;
    destruct (decide (id0 = id)) as [->|Hne];
    try (rewrite lookup_insert_ne in Hd by exact Hne; now apply (Hok d)).
  - rewrite lookup_insert_eq in Hd. injection Hd as <-. simpl in *.
    now apply (Hok d0).
  - rewrite lookup_insert_eq in Hd. injection Hd as <-. simpl in Hs.
    discriminate.
  - rewrite lookup_insert_eq in Hd. injection Hd as <-. simpl. eauto.
  - rewrite lookup_insert_eq in Hd. injection Hd as <-. congruence.
Qed.

Lemma writes_status_ok_at (id : string) (m m1 : gmap string Doc.SimDoc) :
  writes m m1 -> status_ok_at id m -> status_ok_at id m1.
Proof.
  induction 1 as [|m m1 m2 H1 _ IH]; [auto|].
  intros Hok. apply IH. exact (write_status_ok_at id _ _ H1 Hok).
Qed.

(** X3.  The status analyzed is only ever written together with an
    analysis: if the document at an identifier, when there is one, has an
    analysis whenever it is marked analyzed, the same holds of the document
    at that identifier after any sequence of page operations and analysis
    requests, be it the old one or one created on the way. *)
Theorem analyzed_documents_have_analysis (parse : Parser) (ops : list Op)
    (w : World) (id : string) (d1 : Doc.SimDoc) :
  (forall d, docs w !! id = Some d ->
             Doc.status d = "analyzed" -> is_Some (Doc.analysis d)) ->
  docs (run parse ops w) !! id = Some d1 ->
  Doc.status d1 = "analyzed" -> is_Some (Doc.analysis d1).
Proof.
  revert w. induction ops as [|o ops IH]; intros w H0 Hd1; simpl in Hd1.
  - now apply H0.
  - apply (IH (run_op parse o w)); [|exact Hd1].
    exact (writes_status_ok_at id _ _ (op_writes parse o w) H0).
Qed.

Lemma analyzed_documents_have_analysis_witness :
  is_Some (Doc.analysis
             (Doc.set_analysis (JObject [("overallScore", JNumber 70)])
                "analyzed" (example_doc example_transcript None))).
Proof.
  apply (analyzed_documents_have_analysis Ecma.parse
           [OpAnalyze (Some "sim1")]
           (example_world (Some (example_doc example_transcript None))
                          [answers small_analysis_text])
           "sim1").
  - intros d Hd Hs. simpl in Hd. rewrite lookup_singleton_eq in Hd.
    injection Hd as <-. discriminate Hs.
  - vm_compute. reflexivity.
  - reflexivity.
Defined.

(* ===================================================================== *)
(** * Requests to the model *)
(* ===================================================================== *)

Lemma gen_call (parse : Parser) (teamSize domain : option json) (w : World) :
  exists res, Gen.POST parse teamSize domain w = (Returned res, w)
           \/ Gen.POST parse teamSize domain w
              = (Returned res, after_call Gen.request w).
Proof.
  unfold Gen.POST, try_catch, Gen.POST_try.
  destruct (_ || _); [eexists; left; reflexivity|].
  destruct (_ || _); [eexists; left; reflexivity|].
  unfold bind, fetch, after_call.
  destruct (replies w) as [|[e|r] rs]; simpl.
  + eexists; right; reflexivity.
  + destruct (is_SyntaxError e); eexists; right; reflexivity.
  + destruct (reply_ok r); simpl.
    2:{ unfold NextResponse_json. simpl.
        destruct (status_accepted (reply_status r)); simpl;
          eexists; right; reflexivity. }
    destruct (falsy_str _); simpl; [eexists; right; reflexivity|].
    destruct (parse _); simpl; eexists; right; reflexivity.
Qed.

Lemma makeinterview_call (parse : Parser) (b : MakeInterview.Body)
    (w : World) :
  exists res, MakeInterview.POST parse b w = (Returned res, w)
           \/ MakeInterview.POST parse b w
              = (Returned res, after_call MakeInterview.request w).
Proof.
  unfold MakeInterview.POST, try_catch, MakeInterview.POST_try.
  destruct (MakeInterview.invalid b); [eexists; left; reflexivity|].
  unfold bind, fetch, after_call.
  destruct (replies w) as [|[e|r] rs]; simpl.
  + eexists; right; reflexivity.
  + destruct (is_SyntaxError e); eexists; right; reflexivity.
  + destruct (reply_ok r); simpl.
    2:{ unfold NextResponse_json. simpl.
        destruct (status_accepted (reply_status r)); simpl;
          eexists; right; reflexivity. }
    destruct (_ || _); simpl; eexists; right; reflexivity.
Qed.

Lemma next_prompt_call (body : NextPrompt.NextPromptRequest) (w : World) :
  exists res, NextPrompt.POST body w = (Returned res, w)
           \/ NextPrompt.POST body w
              = (Returned res, after_call NextPrompt.request w).
Proof.
  unfold NextPrompt.POST, try_catch, NextPrompt.POST_try.
  destruct (match NextPrompt.transcript body with Some _ => _ | None => _ end);
    [eexists; left; reflexivity|].
  destruct (negb _); [eexists; left; reflexivity|].
  unfold bind, NextPrompt.generateContent, bind, fetch, after_call.
  destruct (replies w) as [|[e|r] rs]; simpl; try (eexists; right; reflexivity).
  destruct (reply_ok r); simpl; [|eexists; right; reflexivity].
  destruct (falsy_str _); simpl; eexists; right; reflexivity.
Qed.

(** X4.  The three generation routes always answer, whatever the model
    does, and touch neither the collection nor the page: each leaves the
    world as it was, or as it is after one request to the model. *)
Theorem generation_routes_leave_store_alone (parse : Parser)
    (teamSize domain : option json) (b : MakeInterview.Body)
    (body : NextPrompt.NextPromptRequest) (w : World) :
  (exists res, Gen.POST parse teamSize domain w = (Returned res, w)
            \/ Gen.POST parse teamSize domain w
               = (Returned res, after_call Gen.request w))
  /\ (exists res, MakeInterview.POST parse b w = (Returned res, w)
               \/ MakeInterview.POST parse b w
                  = (Returned res, after_call MakeInterview.request w))
  /\ (exists res, NextPrompt.POST body w = (Returned res, w)
               \/ NextPrompt.POST body w
                  = (Returned res, after_call NextPrompt.request w)).
Proof.
  split; [apply gen_call|].
  split; [apply makeinterview_call | apply next_prompt_call].
Qed.

Ltac one_call := unfold one_call_at_most; simpl; eauto.

Lemma submit_one_call (w : World) :
  one_call_at_most w (exec InterviewPage.handleSubmitResponse w).
Proof.
  destruct w as [ds rs cs ck [sc ts dm ld er ur sid tr ihr pu]].
  unfold exec, InterviewPage.handleSubmitResponse.
  unfold bind at 1. unfold get_world. simpl.
  destruct (_ || _) eqn:Hguard; [one_call|].
  apply orb_false_iff in Hguard. destruct Hguard as [_ Hf].
  destruct (falsy_str_false _ Hf) as (id & -> & Hne). simpl.
  eval_handler.
  destruct (ds !! id) as [d|] eqn:Hd; [|one_call].
  match goal with
  | |- context [NextPrompt.POST ?b ?w'] =>
      destruct (next_prompt_call b w') as (res & [-> | ->])
  end; unfold after_call; eval_handler.
  all: destruct (negb (res_ok res)); [one_call|].
  all: destruct (prop "nextPrompt" (res_body res)) as [[| | |line| |]|];
    try (one_call; fail).
  all: destruct (String.eqb line EmptyString); [one_call|].
  all: rewrite lookup_insert_eq; eval_handler; one_call.
Qed.

Lemma finish_one_call (w : World) :
  one_call_at_most w (exec InterviewPage.handleFinishSimulation w).
Proof.
  destruct w as [ds rs cs ck [sc ts dm ld er ur sid tr ihr pu]].
  unfold exec, InterviewPage.handleFinishSimulation.
  unfold bind at 1. unfold get_world. simpl.
  destruct (falsy_str sid) eqn:Hf; [one_call|].
  destruct (falsy_str_false _ Hf) as (id & -> & Hne). simpl.
  eval_handler.
  destruct (ds !! id) as [d|] eqn:Hd; eval_handler; one_call.
Qed.

Lemma analyze_one_call (parse : Parser) (docId : option string) (w : World) :
  one_call_at_most w (exec (AnalyzeInterview.POST parse docId) w).
Proof.
  unfold exec.
  unfold AnalyzeInterview.POST, try_catch, AnalyzeInterview.POST_try.
  destruct (falsy_str docId) eqn:Hf; [one_call|].
  unfold bind at 1. unfold getDoc.
  destruct (docs w !! default EmptyString docId) as [d|] eqn:Hd;
    [|one_call].
  destruct (Nat.ltb_spec (length (Doc.transcript d)) 2); [one_call|].
  destruct (truthy_opt (Doc.analysis d)) eqn:Ht; [one_call|].
  unfold AnalyzeInterview.generate, bind, fetch.
  destruct (replies w) as [|[e|rp] rs] eqn:Hr; simpl;
    try (unfold one_call_at_most; simpl; rewrite Hr; eauto; fail).
  destruct (reply_ok rp); simpl;
    try (unfold one_call_at_most; simpl; rewrite Hr; eauto; fail).
  destruct (falsy_str (reply_text rp)); simpl;
    try (unfold one_call_at_most; simpl; rewrite Hr; eauto; fail).
  destruct (parse _) as [a|]; simpl;
    try (unfold one_call_at_most; simpl; rewrite Hr; eauto; fail).
  unfold updateDoc. simpl. rewrite Hd.
  unfold one_call_at_most. simpl. rewrite Hr. eauto.
Qed.

Lemma start_one_call (parse : Parser) (query : Exn + InterviewPage.Query)
    (w : World) :
  one_call_at_most w
    (exec (InterviewPage.initializeInterview parse query) w).
Proof.
  destruct w as [ds rs cs ck [sc ts dm ld er ur sid tr ihr pu]].
  unfold InterviewPage.initializeInterview.
  destruct ihr; [eval_handler; one_call|].
  destruct query as [e|q]; [eval_handler; one_call|].
  destruct (String.eqb (InterviewPage.q_domain q) EmptyString);
    [eval_handler; one_call|].
  eval_handler.
  generalize (fresh (dom ds)). intros id.
  match goal with
  | |- context [MakeInterview.POST ?p ?b ?w'] =>
      destruct (makeinterview_call p b w') as (res & [-> | ->])
  end; unfold after_call; eval_handler.
  all: destruct (negb (res_ok res)); [one_call|].
  all: destruct (prop "openingPrompt" (res_body res)) as [op|];
    [|one_call].
  all: eval_handler; rewrite lookup_insert_eq; eval_handler; one_call.
Qed.

Lemma op_one_call (parse : Parser) (o : Op) (w : World) :
  one_call_at_most w (run_op parse o w).
Proof.
  destruct o; simpl.
  - apply start_one_call.
  - now left.
  - apply submit_one_call.
  - apply finish_one_call.
  - apply analyze_one_call.
Qed.

(** X5.  A page operation or an analysis request costs at most one request
    to the model: after any sequence of them the log of requests has grown
    by no more entries than there were operations, and exactly as many
    replies of the model have been taken, from the front, as requests were
    made. *)
Theorem one_model_call_per_operation (parse : Parser) (ops : list Op)
    (w : World) :
  exists made : list GeminiRequest,
    calls (run parse ops w) = made ++ calls w
    /\ replies (run parse ops w) = drop (length made) (replies w)
    /\ (length made <= length ops)%nat.
Proof.
  revert w. induction ops as [|o ops IH]; intros w; simpl.
  - exists []. split; [reflexivity|]. split; [reflexivity | simpl; lia].
  - destruct (IH (run_op parse o w)) as (made & Hc & Hr & Hl).
    destruct (op_one_call parse o w) as [[H1 H2] | [(req & H1) H2]].
    + exists made. rewrite Hc, Hr, H1, H2.
      split; [reflexivity|]. split; [reflexivity | lia].
    + exists (made ++ [req]). rewrite Hc, Hr, H1, H2, <- app_assoc.
      split; [reflexivity|]. split.
      * rewrite length_app. simpl. rewrite Nat.add_comm. simpl.
        destruct (replies w); simpl; [now rewrite !drop_nil | reflexivity].
      * rewrite length_app. simpl. lia.
Qed.

(* ===================================================================== *)
(** * Validation and answers of the routes *)
(* ===================================================================== *)

(** X6.  The free-text route refuses a request without transcript, with an
    empty transcript or without scenario: it answers 400 and makes no
    request to the model. *)
Theorem next_prompt_rejects_incomplete_request
    (body : NextPrompt.NextPromptRequest) (w : World) :
  NextPrompt.transcript body = None \/ NextPrompt.transcript body = Some []
  \/ NextPrompt.scenario body = None ->
  exists msg : string,
    NextPrompt.POST body w = (Returned (json_error 400 msg), w).
Proof.
  intros H. unfold NextPrompt.POST, try_catch, NextPrompt.POST_try.
  destruct (NextPrompt.transcript body) as [[|e t]|] eqn:Ht;
    try (eexists; reflexivity).
  destruct H as [H|[H|H]]; try discriminate.
  rewrite H. eexists. reflexivity.
Qed.

Lemma next_prompt_rejects_incomplete_request_witness :
  let w := example_world None [answers "Host: And the press?"] in
  exists msg : string,
    NextPrompt.POST (next_request (Some [])) w
    = (Returned (json_error 400 msg), w).
Proof.
  intros w.
  apply (next_prompt_rejects_incomplete_request (next_request (Some [])) w).
  right. left. reflexivity.
Defined.



Lemma invalid_false_iff (b : MakeInterview.Body) :
  MakeInterview.invalid b = false <-> acceptable_body b.
Proof.
  unfold MakeInterview.invalid, acceptable_body, MakeInterview.field.
  destruct b as [ts dm sc]; simpl.
  rewrite !orb_false_iff, !negb_false_iff. split.
  - intros (((((H1 & H2) & H3) & H4) & H5) & H6).
    destruct ts as [v1|]; [|discriminate].
    destruct dm as [v2|]; [|discriminate].
    destruct sc as [[| | | | |ms]|]; try discriminate. simpl in H4, H5, H6.
    destruct (member "title" ms) as [t|] eqn:Et; [|discriminate].
    destruct (member "description" ms) as [d|] eqn:Ed; [|discriminate].
    destruct (member "keyDecision" ms) as [k|] eqn:Ek; [|discriminate].
    split; [now exists v1|]. split; [now exists v2|].
    exists ms, t, d, k. repeat split; assumption.
  - intros ((v1 & -> & H1) & (v2 & -> & H2)
            & (ms & t & d & k & -> & Ht & Ht' & Hd & Hd' & Hk & Hk')).
    simpl. rewrite Ht, Hd, Hk. simpl. repeat split; assumption.
Qed.

Lemma start_body_acceptable (q : InterviewPage.Query) :
  MakeInterview.invalid (start_body q) = false <-> acceptable_query q.
Proof.
  unfold MakeInterview.invalid, acceptable_query, complete_scenario,
    start_body, MakeInterview.field.
  destruct q as [[t d k] ts dm]; simpl.
  rewrite !orb_false_iff, !negb_false_iff, !negb_true_iff. split.
  - intros (((((H1 & H2) & _) & H4) & H5) & H6).
    repeat split; try (now apply String.eqb_neq).
    destruct ts as [z|]; [|discriminate]. exists z. split; [reflexivity|].
    intros ->. discriminate.
  - intros ((z & -> & Hz) & Hdm & Ht & Hd & Hk).
    repeat split; try (now apply String.eqb_neq).
    simpl. destruct (Qeq_bool (inject_Z z) 0) eqn:E; [|reflexivity].
    apply Qeq_bool_iff in E. unfold Qeq in E. simpl in E. lia.
Qed.

Lemma makeinterview_invalid (parse : Parser) (b : MakeInterview.Body)
    (w : World) :
  MakeInterview.invalid b = true ->
  MakeInterview.POST parse b w
  = (Returned (json_error 400
       "Invalid teamSize, domain, or scenario data provided"), w).
Proof.
  intros H. unfold MakeInterview.POST, try_catch, MakeInterview.POST_try.
  now rewrite H.
Qed.



Lemma relayed_status (r : HttpReply) :
  reply_ok r = false ->
  status_accepted (reply_status r)
  = ((300 <=? reply_status r)%nat && (reply_status r <=? 599)%nat
     && negb (reply_status r =? 304)%nat).
Proof.
  unfold reply_ok, status_accepted, null_body_status.
  generalize (reply_status r). intros st H.
  destruct (Nat.leb_spec 200 st), (Nat.leb_spec st 299),
    (Nat.leb_spec 300 st), (Nat.leb_spec st 599),
    (Nat.eqb_spec st 204), (Nat.eqb_spec st 205), (Nat.eqb_spec st 304);
    simpl in *; try reflexivity; try discriminate; lia.
Qed.



Section AnalyzeAnswers.
Variable parse : Parser.

Lemma analyze_ok_is_200 (docId : option string) (w w1 : World)
    (res : Response) :
  AnalyzeInterview.POST parse docId w = (Returned res, w1) ->
  res_ok res = true -> res_status res = 200%nat.
Proof.
  unfold AnalyzeInterview.POST, try_catch, AnalyzeInterview.POST_try.
  destruct (falsy_str docId) eqn:Hf.
  { intros [= <- <-]. discriminate. }
  unfold bind at 1. unfold getDoc.
  destruct (docs w !! default EmptyString docId) as [d|] eqn:Hd.
  2:{ intros [= <- <-]. discriminate. }
  destruct (Nat.ltb_spec (length (Doc.transcript d)) 2).
  { intros [= <- <-]. discriminate. }
  destruct (truthy_opt (Doc.analysis d)) eqn:Ht.
  { intros [= <- <-]. reflexivity. }
  unfold AnalyzeInterview.generate, bind, fetch.
  destruct (replies w) as [|[e|rp] rs]; simpl.
  1,2: intros [= <- <-]; discriminate.
  destruct (reply_ok rp); simpl.
  2:{ intros [= <- <-]. discriminate. }
  destruct (falsy_str (reply_text rp)); simpl.
  { intros [= <- <-]. discriminate. }
  destruct (parse _) as [a|]; simpl.
  2:{ intros [= <- <-]. discriminate. }
  unfold updateDoc. simpl. rewrite Hd. simpl.
  intros [= <- <-]. reflexivity.
Qed.

(** X10.  The analysis route always answers, with 200, 400, 404 or 500; it
    changes the collection only when it answers 200; it leaves the page
    alone; and it either leaves the world as it was or has made exactly
    one request to the model. *)
Theorem analyze_writes_only_on_success (docId : option string) (w : World) :
  exists (res : Response) (w1 : World),
    AnalyzeInterview.POST parse docId w = (Returned res, w1)
    /\ (res_status res <> 200%nat -> docs w1 = docs w)
    /\ (w1 = w \/ calls w1 = AnalyzeInterview.request :: calls w)
    /\ page w1 = page w
    /\ (res_status res = 200%nat \/ res_status res = 400%nat
        \/ res_status res = 404%nat \/ res_status res = 500%nat).
Proof.
  unfold AnalyzeInterview.POST, try_catch, AnalyzeInterview.POST_try.
  destruct (falsy_str docId) eqn:Hf.
  { do 2 eexists. split; [reflexivity|]. simpl. repeat split; auto. }
  unfold bind at 1. unfold getDoc.
  destruct (docs w !! default EmptyString docId) as [d|] eqn:Hd.
  2:{ do 2 eexists. split; [reflexivity|]. simpl. repeat split; auto. }
  destruct (Nat.ltb_spec (length (Doc.transcript d)) 2).
  { do 2 eexists. split; [reflexivity|]. simpl. repeat split; auto. }
  destruct (truthy_opt (Doc.analysis d)) eqn:Ht.
  { do 2 eexists. split; [reflexivity|]. simpl. repeat split; auto. }
  unfold AnalyzeInterview.generate, bind, fetch.
  destruct (replies w) as [|[e|rp] rs]; simpl.
  1,2: do 2 eexists; (split; [reflexivity|]); simpl; repeat split; auto 10.
  destruct (reply_ok rp); simpl.
  2:{ do 2 eexists. split; [reflexivity|]. simpl. repeat split; auto 10. }
  destruct (falsy_str (reply_text rp)); simpl.
  { do 2 eexists. split; [reflexivity|]. simpl. repeat split; auto 10. }
  destruct (parse _) as [a|]; simpl.
  2:{ do 2 eexists. split; [reflexivity|]. simpl. repeat split; auto 10. }
  unfold updateDoc. simpl. rewrite Hd. simpl.
  do 2 eexists. split; [reflexivity|]. simpl. repeat split; auto.
  intros E. now elim E.
Qed.

End AnalyzeAnswers.

(* ===================================================================== *)
(** * The interview page: start, turns and finish *)
(* ===================================================================== *)

Lemma trim_empty_text (text : string) :
  String.eqb (Js.trim text) EmptyString = false ->
  String.eqb text EmptyString = false.
Proof. destruct text; [discriminate | reflexivity]. Qed.

Lemma makeinterview_outcome (parse : Parser) (b : MakeInterview.Body)
    (w : World) :
  MakeInterview.invalid b = false ->
  exists res : Response,
    MakeInterview.POST parse b w
    = (Returned res, after_call MakeInterview.request w)
    /\ match opening_prompt parse (replies w) with
       | Some v => res = json_ok (JObject [("openingPrompt", v)])
       | None => res_ok res = false
       end.
Proof.
  intros Hv. unfold MakeInterview.POST, try_catch, MakeInterview.POST_try.
  rewrite Hv. unfold bind, fetch, after_call, opening_prompt.
  destruct (replies w) as [|[e|r] rs]; simpl.
  - eexists. split; reflexivity.
  - destruct (is_SyntaxError e); eexists; split; reflexivity.
  - destruct (reply_ok r) eqn:Hok; simpl.
    2:{ unfold NextResponse_json. simpl.
        destruct (status_accepted (reply_status r)); simpl.
        - eexists. split; [reflexivity | exact Hok].
        - eexists. split; reflexivity. }
    destruct (reply_text r) as [text|]; simpl.
    2:{ eexists. split; reflexivity. }
    unfold MakeInterview.empty_str.
    destruct (String.eqb (Js.trim text) EmptyString) eqn:Ht.
    { rewrite orb_true_r. eexists. split; reflexivity. }
    rewrite (trim_empty_text _ Ht). simpl.
    unfold MakeInterview.respond.
    destruct (parse _) as [parsed|]; [|eexists; split; reflexivity].
    destruct (prop "openingPrompt" parsed) as [v|]; simpl;
      [|eexists; split; reflexivity].
    destruct (truthy v); simpl; eexists; split; reflexivity.
Qed.

(** Identifiers given to new documents are not empty. *)
Lemma pretty_N_go_nonempty (x : N) (s : string) :
  s <> EmptyString -> pretty_N_go x s <> EmptyString.
Proof.
  revert s. induction (N.lt_wf_0 x) as [x _ IH]; intros s Hs.
  assert (x = 0 \/ 0 < x)%N as [->|Hx] by lia.
  - now rewrite pretty_N_go_0.
  - rewrite pretty_N_go_step by exact Hx. apply IH.
    + now apply N.div_lt.
    + discriminate.
Qed.

Lemma pretty_nat_nonempty (n : nat) : pretty n <> EmptyString.
Proof.
  unfold pretty, pretty_nat, pretty, pretty_N.
  destruct (decide _); [discriminate|].
  rewrite pretty_N_go_step by lia.
  apply pretty_N_go_nonempty. discriminate.
Qed.

Lemma fresh_list_pretty (xs : list string) :
  exists n : nat, fresh xs = pretty n.
Proof.
  assert (H : forall (n : nat)
                (a : Acc (fun n1 n2 : nat =>
                            (n2 < n1)%nat /\ pretty (n1 - 1)%nat ∈ xs) n),
             exists m : nat,
               Fix_F (fun _ => string) (search_infinite_go pretty xs) a
               = pretty m).
  { fix FIX 2. intros n [acc]. simpl. unfold search_infinite_go at 1.
    destruct (decide _); [apply FIX | now exists n]. }
  apply H.
Qed.

Lemma fresh_id_nonempty (X : gset string) : fresh X <> EmptyString.
Proof.
  unfold fresh, set_fresh. simpl.
  destruct (fresh_list_pretty (elements X)) as (n & ->).
  apply pretty_nat_nonempty.
Qed.

Lemma start_body_domain (q : InterviewPage.Query) :
  MakeInterview.invalid (start_body q) = false ->
  String.eqb (InterviewPage.q_domain q) EmptyString = false.
Proof.
  intros H. apply start_body_acceptable in H. destruct H as (_ & Hd & _).
  now apply String.eqb_neq.
Qed.

Section PageProperties.
Variable parse : Parser.

Lemma start_success (q : InterviewPage.Query) (w : World) (v : json) :
  Page.initHasRun (page w) = false ->
  start_prompt parse q (replies w) = Some v ->
  let id := fresh (dom (docs w)) in
  let opening :=
    {| role := host; content := v; timestamp := N.succ (clock w) |} in
  let w1 := exec (InterviewPage.initializeInterview parse (inr q)) w in
  docs w !! id = None
  /\ docs w1 = <[id := created_doc q (clock w) [opening]]> (docs w)
  /\ Page.simulationDocId (page w1) = Some id
  /\ Page.transcript (page w1) = [opening]
  /\ Page.scenario (page w1) = Some (InterviewPage.q_scenario q)
  /\ Page.error (page w1) = None
  /\ Page.loading (page w1) = false
  /\ Page.userResponse (page w1) = Page.userResponse (page w)
  /\ replies w1 = tail (replies w)
  /\ calls w1 = MakeInterview.request :: calls w
  /\ clock w1 = N.succ (N.succ (clock w)).
Proof.
  destruct w as [ds rs cs ck [sc ts dm ld er ur sid tr ihr pu]].
  simpl. intros -> Hp.
  unfold start_prompt in Hp.
  destruct (MakeInterview.invalid (start_body q)) eqn:Hv; [discriminate|].
  split; [apply not_elem_of_dom, is_fresh|].
  pose proof (start_body_domain q Hv) as Hdm.
  unfold InterviewPage.initializeInterview.
  destruct (String.eqb (InterviewPage.q_domain q) EmptyString);
    [discriminate|].
  eval_handler.
  generalize (fresh (dom ds)). intros id.
  match goal with
  | |- context [MakeInterview.POST ?p ?b ?w'] =>
      destruct (makeinterview_outcome p b w' Hv) as (res & -> & Hres)
  end.
  simpl in Hres. rewrite Hp in Hres. subst res.
  unfold after_call. eval_handler. simpl.
  rewrite lookup_insert_eq. eval_handler. rewrite insert_insert_eq.
  repeat split.
Qed.

(** X11.  Starting an interview on a freshly mounted page, when the
    opening-prompt route delivers a prompt: a document is created under an
    unused identifier with the query's team size, domain and scenario, the
    status pending and the clock's time; its transcript, and the page's,
    is the one host entry holding the prompt; the page holds the new
    identifier and the scenario, shows no error and is no longer loading;
    one request was made to the model. *)
Theorem start_creates_record (q : InterviewPage.Query) (w : World)
    (v : json) :
  Page.initHasRun (page w) = false ->
  start_prompt parse q (replies w) = Some v ->
  let id := fresh (dom (docs w)) in
  let opening :=
    {| role := host; content := v; timestamp := N.succ (clock w) |} in
  let w1 := exec (InterviewPage.initializeInterview parse (inr q)) w in
  docs w !! id = None
  /\ docs w1 = <[id := created_doc q (clock w) [opening]]> (docs w)
  /\ Page.simulationDocId (page w1) = Some id
  /\ Page.transcript (page w1) = [opening]
  /\ Page.scenario (page w1) = Some (InterviewPage.q_scenario q)
  /\ Page.error (page w1) = None
  /\ Page.loading (page w1) = false
  /\ Page.userResponse (page w1) = Page.userResponse (page w)
  /\ replies w1 = tail (replies w)
  /\ calls w1 = MakeInterview.request :: calls w
  /\ clock w1 = N.succ (N.succ (clock w)).
Proof. apply start_success. Qed.

(** X12.  When the opening-prompt route delivers no prompt for a query
    with a domain (the request is refused, the model fails, or its text has
    no usable prompt), the document has been created all the same and stays
    in the collection, pending, with an empty transcript; the page holds
    its identifier, shows an error, keeps the transcript it had and is no
    longer loading.  A query with an empty domain is refused before
    anything is created or requested, with an error shown. *)
Theorem start_failure_leaves_empty_record (q : InterviewPage.Query)
    (w : World) :
  Page.initHasRun (page w) = false ->
  start_prompt parse q (replies w) = None ->
  let id := fresh (dom (docs w)) in
  let w1 := exec (InterviewPage.initializeInterview parse (inr q)) w in
  (InterviewPage.q_domain q <> EmptyString ->
   docs w !! id = None
   /\ docs w1 = <[id := created_doc q (clock w) []]> (docs w)
   /\ Page.simulationDocId (page w1) = Some id
   /\ Page.transcript (page w1) = Page.transcript (page w)
   /\ is_Some (Page.error (page w1))
   /\ Page.loading (page w1) = false)
  /\ (InterviewPage.q_domain q = EmptyString ->
      docs w1 = docs w /\ calls w1 = calls w /\ replies w1 = replies w
      /\ Page.simulationDocId (page w1) = Page.simulationDocId (page w)
      /\ Page.error (page w1)
         = Some "Missing simulation data. Please go back."
      /\ Page.loading (page w1) = false).
Proof.
  destruct w as [ds rs cs ck [sc ts dm ld er ur sid tr ihr pu]].
  simpl. intros -> Hp. split.
  - intros Hdm. apply String.eqb_neq in Hdm.
    split; [apply not_elem_of_dom, is_fresh|].
    unfold InterviewPage.initializeInterview.
    destruct (String.eqb (InterviewPage.q_domain q) EmptyString);
      [discriminate|].
    eval_handler.
    generalize (fresh (dom ds)). intros id.
    unfold start_prompt in Hp.
    destruct (MakeInterview.invalid (start_body q)) eqn:Hv.
    + fold (start_body q).
      rewrite (makeinterview_invalid parse (start_body q) _ Hv).
      eval_handler. simpl. repeat split. eauto.
    + match goal with
      | |- context [MakeInterview.POST ?p ?b ?w'] =>
          destruct (makeinterview_outcome p b w' Hv) as (res & -> & Hres)
      end.
      simpl in Hres. rewrite Hp in Hres.
      unfold after_call. eval_handler. rewrite Hres. simpl.
      repeat split. eauto.
  - intros Hdm. unfold InterviewPage.initializeInterview.
    rewrite Hdm. eval_handler. simpl. repeat split.
Qed.

(** X13.  The page starts an interview once: after the first run of the
    initialisation, whatever its outcome, the guard is set and a second run
    does nothing, so no second document is created and no second request
    made. *)
Theorem start_runs_once (q1 q2 : Exn + InterviewPage.Query) (w : World) :
  let w1 := exec (InterviewPage.initializeInterview parse q1) w in
  Page.initHasRun (page w1) = true
  /\ InterviewPage.initializeInterview parse q2 w1 = (Returned tt, w1).
Proof.
  intros w1.
  assert (H : Page.initHasRun (page w1) = true).
  { unfold w1. clear w1.
    destruct w as [ds rs cs ck [sc ts dm ld er ur sid tr ihr pu]].
    unfold InterviewPage.initializeInterview.
    destruct ihr; [reflexivity|].
    destruct q1 as [e|q]; [reflexivity|].
    destruct (String.eqb (InterviewPage.q_domain q) EmptyString);
      [reflexivity|].
    eval_handler.
    match goal with
    | |- context [MakeInterview.POST ?p ?b ?w'] =>
        destruct (makeinterview_frame p b w') as (res & rs' & cs' & ->)
    end.
    eval_handler.
    destruct (negb (res_ok res)); [reflexivity|].
    destruct (prop "openingPrompt" (res_body res)); [|reflexivity].
    eval_handler. rewrite lookup_insert_eq. reflexivity. }
  split; [exact H|].
  unfold InterviewPage.initializeInterview, bind at 1, get_world.
  now rewrite H.
Qed.

End PageProperties.

Lemma start_creates_record_witness :
  let w := mounted ∅ [answers opening_text] 10 in
  let w1 := exec (InterviewPage.initializeInterview Ecma.parse
                    (inr example_request)) w in
  let opening :=
    {| role := host; content := opening_line; timestamp := 11 |} in
  docs w1
  = <[fresh (dom (docs w)) := created_doc example_request 10 [opening]]>
      (docs w)
  /\ Page.transcript (page w1) = [opening].
Proof.
  intros w w1 opening.
  destruct (start_creates_record Ecma.parse example_request w opening_line
              eq_refl ltac:(vm_compute; reflexivity))
    as (_ & H1 & _ & H2 & _).
  split; [exact H1 | exact H2].
Defined.

Lemma start_failure_leaves_empty_record_witness :
  let w := mounted ∅ [unavailable] 10 in
  let w1 := exec (InterviewPage.initializeInterview Ecma.parse
                    (inr example_request)) w in
  docs w1
  = <[fresh (dom (docs w)) := created_doc example_request 10 []]> (docs w)
  /\ is_Some (Page.error (page w1)).
Proof.
  intros w w1.
  destruct (proj1 (start_failure_leaves_empty_record Ecma.parse
                     example_request w eq_refl eq_refl)
              ltac:(discriminate))
    as (_ & H1 & _ & _ & H2 & _).
  split; [exact H1 | exact H2].
Defined.

Lemma finish_success (w : World) (id : string) (d : Doc.SimDoc) :
  Page.simulationDocId (page w) = Some id -> id <> EmptyString ->
  docs w !! id = Some d ->
  let w1 := exec InterviewPage.handleFinishSimulation w in
  docs w1 = <[id := Doc.set_status "completed" d]> (docs w)
  /\ Page.pushed (page w1) = Some ("/analysis/" ++ id)%string
  /\ Page.error (page w1) = None
  /\ Page.transcript (page w1) = Page.transcript (page w)
  /\ Page.simulationDocId (page w1) = Some id
  /\ calls w1 = calls w /\ replies w1 = replies w.
Proof.
  destruct w as [ds rs cs ck [sc ts dm ld er ur sid tr ihr pu]].
  simpl. intros -> Hne Hd.
  unfold InterviewPage.handleFinishSimulation. eval_page.
  rewrite (falsy_str_some _ Hne). eval_page. rewrite Hd. eval_page.
  repeat split.
Qed.

(** X14.  Finishing a simulation whose document exists marks the document
    completed, leaving its other fields as they were, and sends the browser
    to the analysis page of that identifier; no request is made to the
    model and the page's transcript stays. *)
Theorem finish_marks_completed (w : World) (id : string) (d : Doc.SimDoc) :
  Page.simulationDocId (page w) = Some id -> id <> EmptyString ->
  docs w !! id = Some d ->
  let w1 := exec InterviewPage.handleFinishSimulation w in
  docs w1 = <[id := Doc.set_status "completed" d]> (docs w)
  /\ Page.pushed (page w1) = Some ("/analysis/" ++ id)%string
  /\ Page.error (page w1) = None
  /\ Page.transcript (page w1) = Page.transcript (page w)
  /\ Page.simulationDocId (page w1) = Some id
  /\ calls w1 = calls w /\ replies w1 = replies w.
Proof. apply finish_success. Qed.

Lemma finish_marks_completed_witness :
  let w := interview_world EmptyString [] in
  let w1 := exec InterviewPage.handleFinishSimulation w in
  docs w1
  = <["sim1" := Doc.set_status "completed" (pending_doc short_transcript)]>
      (docs w)
  /\ Page.pushed (page w1) = Some "/analysis/sim1".
Proof.
  intros w w1.
  destruct (finish_marks_completed w "sim1" (pending_doc short_transcript)
              eq_refl sim1_nonempty ltac:(apply lookup_singleton_eq))
    as (H1 & H2 & _).
  split; [exact H1 | exact H2].
Defined.

(** X15.  Finishing without a document: when the page holds no identifier
    the handler does nothing at all; when it holds the identifier of a
    document that is not in the collection, nothing is written, the browser
    stays on the page, and the page shows an error and is no longer
    loading. *)
Theorem finish_without_record (w : World) :
  (falsy_str (Page.simulationDocId (page w)) = true ->
   InterviewPage.handleFinishSimulation w = (Returned tt, w))
  /\ (forall id : string,
        Page.simulationDocId (page w) = Some id -> id <> EmptyString ->
        docs w !! id = None ->
        let w1 := exec InterviewPage.handleFinishSimulation w in
        docs w1 = docs w /\ Page.pushed (page w1) = Page.pushed (page w)
        /\ is_Some (Page.error (page w1))
        /\ Page.loading (page w1) = false).
Proof.
  split.
  - intros H. unfold InterviewPage.handleFinishSimulation.
    unfold bind at 1. unfold get_world. now rewrite H.
  - destruct w as [ds rs cs ck [sc ts dm ld er ur sid tr ihr pu]].
    simpl. intros id -> Hne Hd.
    unfold InterviewPage.handleFinishSimulation. eval_page.
    rewrite (falsy_str_some _ Hne). eval_page. rewrite Hd. eval_page.
    repeat split. eauto.
Qed.

Lemma finish_without_record_witness :
  let w0 := mounted ∅ [] 10 in
  let w := with_docs (fun _ => ∅) (interview_world EmptyString []) in
  let w1 := exec InterviewPage.handleFinishSimulation w in
  InterviewPage.handleFinishSimulation w0 = (Returned tt, w0)
  /\ docs w1 = docs w /\ Page.pushed (page w1) = None
  /\ is_Some (Page.error (page w1)).
Proof.
  intros w0 w w1.
  split; [exact (proj1 (finish_without_record w0) eq_refl)|].
  destruct (proj2 (finish_without_record w) "sim1" eq_refl sim1_nonempty
              ltac:(apply lookup_empty))
    as (H1 & H2 & H3 & _).
  split; [exact H1|]. split; [exact H2 | exact H3].
Defined.

(** X16.  A submission is ignored when the response is empty or only white
    space, and when the page holds no document identifier: nothing is
    written, no request is made and the page is left as it was, the typed
    text included. *)
Theorem submit_ignores_blank_response (w : World) :
  String.eqb (Js.trim (Page.userResponse (page w))) EmptyString = true
  \/ falsy_str (Page.simulationDocId (page w)) = true ->
  InterviewPage.handleSubmitResponse w = (Returned tt, w).
Proof.
  intros H. unfold InterviewPage.handleSubmitResponse.
  unfold bind at 1. unfold get_world.
  destruct H as [-> | ->]; [reflexivity | now rewrite orb_true_r].
Qed.

Lemma submit_ignores_blank_response_witness :
  let w := interview_world "   " [answers "Host: And the press?"] in
  InterviewPage.handleSubmitResponse w = (Returned tt, w).
Proof.
  intros w. apply (submit_ignores_blank_response w). left. reflexivity.
Defined.

(** X17.  A submission for a document that is not in the collection writes
    nothing and makes no request to the model; the page shows the team's
    entry at the end of its transcript all the same, keeps the typed text,
    shows an error and is no longer loading. *)
Theorem submit_without_record_keeps_text (w : World) (id : string) :
  String.eqb (Js.trim (Page.userResponse (page w))) EmptyString = false ->
  Page.simulationDocId (page w) = Some id -> id <> EmptyString ->
  docs w !! id = None ->
  let w1 := exec InterviewPage.handleSubmitResponse w in
  docs w1 = docs w /\ calls w1 = calls w /\ replies w1 = replies w
  /\ Page.userResponse (page w1) = Page.userResponse (page w)
  /\ Page.transcript (page w1)
     = Page.transcript (page w)
       ++ [team_entry (Page.userResponse (page w)) (clock w)]
  /\ is_Some (Page.error (page w1))
  /\ Page.loading (page w1) = false.
Proof.
  destruct w as [ds rs cs ck [sc ts dm ld er ur sid tr ihr pu]].
  simpl. intros Hu -> Hne Hd.
  unfold InterviewPage.handleSubmitResponse. eval_page.
  rewrite Hu, (falsy_str_some _ Hne). eval_page. rewrite Hd. eval_page.
  repeat split. eauto.
Qed.

Lemma submit_without_record_keeps_text_witness :
  let w := with_docs (fun _ => ∅)
             (interview_world team_text [answers "Host: And the press?"]) in
  let w1 := exec InterviewPage.handleSubmitResponse w in
  docs w1 = docs w /\ calls w1 = calls w
  /\ Page.userResponse (page w1) = team_text
  /\ Page.transcript (page w1)
     = short_transcript ++ [team_entry team_text 10].
Proof.
  intros w w1.
  destruct (submit_without_record_keeps_text w "sim1" eq_refl eq_refl
              sim1_nonempty ltac:(apply lookup_empty))
    as (H1 & H2 & _ & H3 & H4 & _).
  split; [exact H1|]. split; [exact H2|]. split; [exact H3 | exact H4].
Defined.

Lemma submit_turn (w : World) (id line : string) (d : Doc.SimDoc) :
  String.eqb (Js.trim (Page.userResponse (page w))) EmptyString = false ->
  Page.simulationDocId (page w) = Some id -> id <> EmptyString ->
  docs w !! id = Some d ->
  next_line (page w) (replies w) = Some line ->
  let finalTranscript :=
    Page.transcript (page w)
    ++ [team_entry (Page.userResponse (page w)) (clock w);
        host_entry line (N.succ (clock w))] in
  let w1 := exec InterviewPage.handleSubmitResponse w in
  docs w1 = <[id := Doc.set_transcript finalTranscript d]> (docs w)
  /\ Page.transcript (page w1) = finalTranscript
  /\ Page.userResponse (page w1) = EmptyString
  /\ Page.error (page w1) = None
  /\ Page.loading (page w1) = false
  /\ Page.simulationDocId (page w1) = Some id
  /\ replies w1 = tail (replies w)
  /\ calls w1 = NextPrompt.request :: calls w
  /\ clock w1 = N.succ (N.succ (clock w)).
Proof.
  destruct w as [ds rs cs ck [sc ts dm ld er ur sid tr ihr pu]].
  simpl. intros Hu -> Hne Hd Hline.
  unfold next_line in Hline. simpl in Hline.
  destruct sc as [sc|]; [|discriminate].
  unfold InterviewPage.handleSubmitResponse. eval_page.
  rewrite Hu, (falsy_str_some _ Hne). eval_page. rewrite Hd. eval_page.
  match goal with
  | |- context [NextPrompt.POST ?b ?w'] =>
      destruct (next_prompt_line b w'
                  (map InterviewPage.strip (tr ++ [team_entry ur ck])) sc)
        as (res & -> & Hres)
  end; [reflexivity | apply snoc_nonempty | reflexivity |].
  simpl in Hres. rewrite Hline in Hres. subst res.
  unfold after_call. eval_page. simpl.
  rewrite (host_line_nonempty _ _ Hline).
  rewrite lookup_insert_eq. eval_page. rewrite insert_insert_eq.
  rewrite <- !app_assoc. repeat split.
Qed.





(* ===================================================================== *)
(** * The selection page and the analysis page *)
(* ===================================================================== *)

Lemma positive_inject_Z (z : Z) :
  (1 <= z)%Z -> positive_number (Some (JNumber (inject_Z z))) = true.
Proof.
  intros H. simpl. apply negb_true_iff.
  destruct (Qle_bool (inject_Z z) 0) eqn:E; [|reflexivity].
  apply Qle_bool_iff in E. unfold Qle in E. simpl in E. lia.
Qed.

Lemma field_passes_domain_check (field : string) :
  String.eqb (Js.trim field) EmptyString = false ->
  negb (truthy_opt (Some (JString field)))
  || Gen.not_string (Some (JString field))
  || Gen.blank (Some (JString field)) = false.
Proof.
  intros H. simpl. rewrite H, (trim_empty_text _ H). reflexivity.
Qed.

Section PagesOfTheRoutes.
Variable parse : Parser.

(** X20.  The selection page asks for no scenarios when the team size is
    below one or the field is empty or white space: no request reaches the
    route or the model, an error is shown, the previous scenarios and
    selection are cleared, and the loading flag is not touched. *)
Theorem selection_rejects_before_request (s : SelectionPage.State)
    (w : World) :
  (SelectionPage.teamSize s < 1)%Z
  \/ String.eqb (Js.trim (SelectionPage.field s)) EmptyString = true ->
  exists s1 : SelectionPage.State,
    SelectionPage.handleGenerate parse s w = (s1, w)
    /\ is_Some (SelectionPage.error s1)
    /\ SelectionPage.scenarios s1 = None
    /\ SelectionPage.selectedIndex s1 = None
    /\ SelectionPage.loading s1 = SelectionPage.loading s.
Proof.
  intros H. unfold SelectionPage.handleGenerate.
  destruct (Z.ltb_spec (SelectionPage.teamSize s) 1) as [Hlt|Hge].
  { eexists. split; [reflexivity|]. simpl. repeat split. eauto. }
  destruct H as [H|H]; [lia|]. rewrite H.
  eexists. split; [reflexivity|]. simpl. repeat split. eauto.
Qed.

(** X21.  A request the selection page does send always passes the
    validation of the scenario route, so exactly one request reaches the
    model; the page ends not loading, and it shows scenarios only when the
    model answered an accepted status with a text that parses to an array,
    which it then shows as parsed, and an error otherwise. *)
Theorem selection_request_passes_route_validation
    (s : SelectionPage.State) (w : World) :
  (1 <= SelectionPage.teamSize s)%Z ->
  String.eqb (Js.trim (SelectionPage.field s)) EmptyString = false ->
  exists s1 : SelectionPage.State,
    SelectionPage.handleGenerate parse s w = (s1, after_call Gen.request w)
    /\ SelectionPage.loading s1 = false
    /\ match SelectionPage.scenarios s1 with
       | Some items =>
           SelectionPage.error s1 = None
           /\ exists (r : HttpReply) (rs : list GeminiReply) (text : string),
                replies w = Resolved r :: rs /\ reply_ok r = true
                /\ reply_text r = Some text
                /\ parse text = Some (JArray items)
       | None => is_Some (SelectionPage.error s1)
       end.
Proof.
  intros Hts Hf. unfold SelectionPage.handleGenerate.
  destruct (Z.ltb_spec (SelectionPage.teamSize s) 1) as [Hlt|_]; [lia|].
  rewrite Hf.
  unfold Gen.POST, try_catch, Gen.POST_try.
  rewrite teamSize_check, (positive_inject_Z _ Hts).
  rewrite (field_passes_domain_check _ Hf). simpl.
  unfold bind, fetch, after_call.
  destruct (replies w) as [|[e|r] rs]; simpl.
  - eexists. split; [reflexivity|]. simpl. repeat split. eauto.
  - destruct (is_SyntaxError e); simpl;
      (eexists; split; [reflexivity|]; simpl; repeat split; eauto).
  - destruct (reply_ok r) eqn:Hok; simpl.
    2:{ unfold NextResponse_json. simpl.
        destruct (status_accepted (reply_status r)); simpl.
        - change (res_ok _) with (reply_ok r). rewrite Hok. simpl.
          eexists. split; [reflexivity|]. simpl. repeat split. eauto.
        - eexists. split; [reflexivity|]. simpl. repeat split. eauto. }
    destruct (falsy_str (reply_text r)) eqn:Hft; simpl.
    { eexists. split; [reflexivity|]. simpl. repeat split. eauto. }
    destruct (falsy_str_false _ Hft) as (text & Htext & _).
    rewrite Htext. simpl.
    destruct (parse text) as [v|] eqn:Hp; simpl.
    2:{ eexists. split; [reflexivity|]. simpl. repeat split. eauto. }
    destruct v; simpl;
      (eexists; split; [reflexivity|]; simpl; repeat split; eauto).
    exists r, rs, text. repeat split; assumption.
Qed.

(** X22.  An analysis the analysis page comes to show is the one stored:
    when the page had none and shows one after fetching, the page has a
    document identifier, the document under it holds exactly that
    analysis, and the page shows no error and is no longer loading. *)
Theorem analysis_page_shows_stored_analysis
    (s s1 : AnalysisPage.State) (w w1 : World) (a : json) :
  AnalysisPage.fetchAnalysis parse s w = (s1, w1) ->
  AnalysisPage.analysis s = None ->
  AnalysisPage.analysis s1 = Some a ->
  exists (id : string) (d : Doc.SimDoc),
    AnalysisPage.docId s = Some id /\ docs w1 !! id = Some d
    /\ Doc.analysis d = Some a
    /\ AnalysisPage.error s1 = None /\ AnalysisPage.loading s1 = false.
Proof.
  unfold AnalysisPage.fetchAnalysis.
  destruct (falsy_str (AnalysisPage.docId s)) eqn:Hf.
  { intros [= <- <-] H1 H2. congruence. }
  destruct (AnalyzeInterview.POST parse (AnalysisPage.docId s) w)
    as [[res|e] w'] eqn:HP.
  2:{ intros [= <- <-] H1 H2. simpl in H2. congruence. }
  destruct (res_ok res) eqn:Hok; simpl.
  2:{ intros [= <- <-] H1 H2. simpl in H2. congruence. }
  intros [= <- <-] _ Ha. simpl in Ha. simpl.
  assert (Hb : res_body res = a) by (destruct (res_body res); congruence).
  pose proof (analyze_ok_is_200 parse _ _ _ _ HP Hok) as H200.
  destruct (analyze_success parse _ _ _ _ HP H200)
    as (id & d & Hid & Hne & Hd & Hl & [(Hs & _ & ->) | (_ & Hdocs & _)]).
  - exists id, d. rewrite Hb in Hs. repeat split; assumption.
  - exists id. eexists. rewrite Hdocs, lookup_insert_eq.
    split; [exact Hid|]. split; [reflexivity|]. simpl. rewrite Hb.
    repeat split.
Qed.

End PagesOfTheRoutes.

Lemma selection_rejects_before_request_witness :
  let s := {| SelectionPage.teamSize := 4; SelectionPage.field := "  ";
              SelectionPage.loading := false; SelectionPage.error := None;
              SelectionPage.scenarios := Some [JNull];
              SelectionPage.selectedIndex := Some 0%nat |} in
  let w := example_world None [answers one_scenario_text] in
  exists s1 : SelectionPage.State,
    SelectionPage.handleGenerate Ecma.parse s w = (s1, w)
    /\ is_Some (SelectionPage.error s1)
    /\ SelectionPage.scenarios s1 = None
    /\ SelectionPage.selectedIndex s1 = None
    /\ SelectionPage.loading s1 = SelectionPage.loading s.
Proof.
  intros s w.
  apply (selection_rejects_before_request Ecma.parse s w).
  right. reflexivity.
Defined.

Lemma selection_request_passes_route_validation_witness :
  let s := {| SelectionPage.teamSize := 4;
              SelectionPage.field := "Healthcare";
              SelectionPage.loading := false; SelectionPage.error := None;
              SelectionPage.scenarios := None;
              SelectionPage.selectedIndex := None |} in
  let w := example_world None [answers one_scenario_text] in
  snd (SelectionPage.handleGenerate Ecma.parse s w)
  = after_call Gen.request w.
Proof.
  intros s w.
  destruct (selection_request_passes_route_validation Ecma.parse s w
              ltac:(simpl; lia) eq_refl) as (s1 & H & _).
  rewrite H. reflexivity.
Defined.

Lemma analysis_page_shows_stored_analysis_witness :
  let s := {| AnalysisPage.docId := Some "sim1";
              AnalysisPage.analysis := None;
              AnalysisPage.loading := true; AnalysisPage.error := None |} in
  let w := example_world (Some (example_doc example_transcript None))
                         [answers small_analysis_text] in
  let a := JObject [("overallScore", JNumber 70)] in
  exists (id : string) (d : Doc.SimDoc),
    AnalysisPage.docId s = Some id
    /\ docs (snd (AnalysisPage.fetchAnalysis Ecma.parse s w)) !! id = Some d
    /\ Doc.analysis d = Some a.
Proof.
  intros s w a.
  destruct (analysis_page_shows_stored_analysis Ecma.parse s
              (fst (AnalysisPage.fetchAnalysis Ecma.parse s w)) w
              (snd (AnalysisPage.fetchAnalysis Ecma.parse s w)) a
              ltac:(vm_compute; reflexivity) eq_refl
              ltac:(vm_compute; reflexivity))
    as (id & d & H1 & H2 & H3 & _).
  exists id, d. split; [exact H1|]. split; [exact H2 | exact H3].
Defined.

(* ===================================================================== *)
(** * The prompts that carry a transcript *)
(* ===================================================================== *)

Lemma string_app_assoc (a b c : string) :
  ((a ++ b) ++ c = a ++ b ++ c)%string.
Proof.
  induction a as [|ch a IH]; [reflexivity|].
  change (String ch ((a ++ b) ++ c) = String ch (a ++ b ++ c))%string.
  now rewrite IH.
Qed.

Lemma string_app_nil_r (a : string) : (a ++ EmptyString)%string = a.
Proof.
  induction a as [|ch a IH]; [reflexivity|].
  change (String ch (a ++ EmptyString)%string = String ch a).
  now rewrite IH.
Qed.

Lemma occurs_app_l (x s t : string) : occurs x s -> occurs x (s ++ t)%string.
Proof.
  intros (a & b & ->). exists a, (b ++ t)%string.
  now rewrite !string_app_assoc.
Qed.

Lemma occurs_app_r (x s t : string) : occurs x s -> occurs x (t ++ s)%string.
Proof.
  intros (a & b & ->). exists (t ++ a)%string, b.
  now rewrite !string_app_assoc.
Qed.

Lemma join_cons (sep x : string) (l : list string) :
  Template.join sep (x :: l) = (x ++ trail sep l)%string.
Proof. destruct l; simpl; [now rewrite string_app_nil_r | reflexivity]. Qed.

Lemma sep_lead (sep : string) (l : list string) :
  (sep ++ lead sep l)%string = (trail sep l ++ sep)%string.
Proof.
  destruct l as [|y l]; unfold lead, trail.
  - now rewrite string_app_nil_r.
  - now rewrite string_app_assoc.
Qed.

Lemma join_split (sep x : string) (l1 l2 : list string) :
  Template.join sep (l1 ++ x :: l2)
  = (lead sep l1 ++ x ++ trail sep l2)%string.
Proof.
  induction l1 as [|y l1 IH].
  - apply join_cons.
  - change ((y :: l1) ++ x :: l2) with (y :: (l1 ++ x :: l2)).
    rewrite join_cons.
    replace (trail sep (l1 ++ x :: l2))
      with (sep ++ Template.join sep (l1 ++ x :: l2))%string
      by (now destruct l1).
    rewrite IH. unfold lead at 2. rewrite join_cons.
    rewrite !string_app_assoc. f_equal.
    rewrite <- !string_app_assoc. rewrite sep_lead. reflexivity.
Qed.

Lemma occurs_join (sep x : string) (l : list string) :
  x ∈ l -> occurs x (Template.join sep l).
Proof.
  intros H. apply list_elem_of_split in H. destruct H as (l1 & l2 & ->).
  rewrite join_split. now exists (lead sep l1), (trail sep l2).
Qed.

Lemma occurs_lead (sep x : string) (l : list string) :
  x ∈ l -> occurs x (lead sep l).
Proof.
  intros H. destruct l; [now apply elem_of_nil in H|].
  unfold lead. apply occurs_app_l. now apply occurs_join.
Qed.

Lemma occurs_trail (sep x : string) (l : list string) :
  x ∈ l -> occurs x (trail sep l).
Proof.
  intros H. destruct l; [now apply elem_of_nil in H|].
  unfold trail. apply occurs_app_r. now apply occurs_join.
Qed.

Lemma carries_join (sep x : string) (l1 l2 : list string) :
  carries (Template.join sep (l1 ++ x :: l2)) l1 x l2.
Proof.
  exists (lead sep l1), (trail sep l2). split; [apply join_split|].
  split; intros y Hy; [now apply occurs_lead | now apply occurs_trail].
Qed.

Lemma carries_app_l (a s x : string) (l1 l2 : list string) :
  carries s l1 x l2 -> carries (a ++ s) l1 x l2.
Proof.
  intros (pre & post & -> & H1 & H2). exists (a ++ pre)%string, post.
  split; [now rewrite !string_app_assoc|].
  split; [|assumption]. intros y Hy. now apply occurs_app_r, H1.
Qed.

Lemma carries_app_r (b s x : string) (l1 l2 : list string) :
  carries s l1 x l2 -> carries (s ++ b) l1 x l2.
Proof.
  intros (pre & post & -> & H1 & H2). exists pre, (post ++ b)%string.
  split; [now rewrite !string_app_assoc|].
  split; [assumption|]. intros y Hy. now apply occurs_app_l, H2.
Qed.

Section Prompts.
Variable number_text : Q -> string.
Variable other_text : json -> string.

(** X23.  The user prompts of the free-text route and of the analysis
    route carry the whole transcript, in order: the line of every entry,
    its role in capitals, a colon, a space and its content, stands in the
    prompt, with the lines of the entries before it ahead of it and those
    of the entries after it behind it.  No entry is left out or cut, however
    long the transcript. *)
Theorem prompts_carry_the_whole_transcript :
  (forall (teamSize : option Z) (domain : string) (scenario : Scenario)
          (t1 t2 : list NextPrompt.Entry) (e : NextPrompt.Entry),
      carries
        (NextPromptPrompt.buildUserPrompt number_text other_text
           teamSize domain scenario (t1 ++ e :: t2))
        (map (NextPromptPrompt.line other_text) t1)
        (NextPromptPrompt.line other_text e)
        (map (NextPromptPrompt.line other_text) t2))
  /\ (forall (teamSize : option Z) (domain : string)
             (t1 t2 : list TranscriptEntry) (e : TranscriptEntry),
         carries
           (AnalyzePrompt.buildUserPrompt number_text other_text
              teamSize domain (t1 ++ e :: t2))
           (map (AnalyzePrompt.line other_text) t1)
           (AnalyzePrompt.line other_text e)
           (map (AnalyzePrompt.line other_text) t2)).
Proof.
  split.
  - intros teamSize domain scenario t1 t2 e.
    unfold NextPromptPrompt.buildUserPrompt.
    repeat lazymatch goal with
      | |- carries (NextPromptPrompt.transcriptText _ _ ++ _)%string _ _ _ =>
          fail
      | |- _ => apply carries_app_l
      end.
    apply carries_app_r. unfold NextPromptPrompt.transcriptText.
    rewrite map_app. apply carries_join.
  - intros teamSize domain t1 t2 e.
    unfold AnalyzePrompt.buildUserPrompt.
    repeat lazymatch goal with
      | |- carries (AnalyzePrompt.transcriptText _ _ ++ _)%string _ _ _ =>
          fail
      | |- _ => apply carries_app_l
      end.
    apply carries_app_r. unfold AnalyzePrompt.transcriptText.
    rewrite map_app. apply carries_join.
Qed.

End Prompts.

(* ===================================================================== *)
(** * The view of one simulation *)
(* ===================================================================== *)

Lemma member_app (k : string) (l1 l2 : list (string * json)) :
  member k (l1 ++ l2)
  = match member k l2 with
    | Some v => Some v
    | None => member k l1
    end.
Proof.
  induction l1 as [|[k1 v1] l1 IH]; simpl.
  - now destruct (member k l2).
  - rewrite IH. now destruct (member k l2).
Qed.

Section DetailsProperties.
Variable parse : Parser.
Variable toISOString : N -> string.

Lemma details_members (id : string) (d : Doc.SimDoc) (w : World) :
  id <> EmptyString -> docs w !! id = Some d ->
  exists body : json,
    Details.GET toISOString (Some id) w = json_ok body
    /\ prop "id" body = Some (JString id)
    /\ prop "teamSize" body
       = Some match Doc.teamSize d with
              | Some n => JNumber (inject_Z n)
              | None => JNull
              end
    /\ prop "domain" body = Some (JString (Doc.domain d))
    /\ prop "createdAt" body
       = Some (JString (toISOString (Doc.createdAt d)))
    /\ prop "analysis" body = Doc.analysis d.
Proof.
  intros Hne Hd. unfold Details.GET.
  rewrite (falsy_str_some _ Hne). simpl default. rewrite Hd.
  eexists. split; [reflexivity|].
  unfold Details.simulationResponse, prop.
  rewrite !member_app.
  destruct (Doc.analysis d) as [a|]; simpl; repeat split.
Qed.

Lemma details_found (docId : option string) (w : World) (body : json) :
  Details.GET toISOString docId w = json_ok body ->
  exists id d, docId = Some id /\ id <> EmptyString /\ docs w !! id = Some d.
Proof.
  unfold Details.GET. destruct (falsy_str docId) eqn:Hf; [discriminate|].
  destruct (falsy_str_false _ Hf) as (id & -> & Hne). simpl.
  destruct (docs w !! id) as [d|] eqn:Hd; [|discriminate].
  intros _. now exists id, d.
Qed.

(** X24.  The view the details route gives of a stored simulation: it
    answers 200 with the identifier, the status and the analysis as stored
    and without the scenario; its transcript has one entry for each stored
    entry, in the same order and with the same content, where the role
    team reads user and the time stamp is left out. *)
Theorem details_view (id : string) (d : Doc.SimDoc) (w : World) :
  id <> EmptyString -> docs w !! id = Some d ->
  exists (body : json) (entries : list json),
    Details.GET toISOString (Some id) w = json_ok body
    /\ prop "id" body = Some (JString id)
    /\ prop "status" body = Some (JString (Doc.status d))
    /\ prop "analysis" body = Doc.analysis d
    /\ prop "scenario" body = None
    /\ prop "transcript" body = Some (JArray entries)
    /\ length entries = length (Doc.transcript d)
    /\ (forall (n : nat) (e : TranscriptEntry),
          Doc.transcript d !! n = Some e ->
          exists v : json,
            entries !! n = Some v
            /\ prop "role" v = Some (JString (frontend_role (role e)))
            /\ prop "content" v = Some (content e)
            /\ prop "timestamp" v = None).
Proof.
  intros Hne Hd. unfold Details.GET.
  rewrite (falsy_str_some _ Hne). simpl default. rewrite Hd.
  eexists. exists (Details.frontendTranscript (Doc.transcript d)).
  split; [reflexivity|].
  unfold Details.simulationResponse, prop.
  rewrite !member_app.
  destruct (Doc.analysis d) as [a|]; simpl;
    (repeat split;
     [ unfold Details.frontendTranscript; apply length_map
     | intros n e He; exists (Details.frontendEntry e); split;
       [ unfold Details.frontendTranscript; rewrite list_lookup_fmap, He;
         reflexivity
       | destruct e as [[] c ts]; repeat split ] ]).
Qed.

(** X25.  The answers of the details route: 400 exactly when the
    identifier is missing or empty, 404 exactly when it is given and no
    document is stored under it, and 200 exactly when a document is stored
    under it. *)
Theorem details_answers (docId : option string) (w : World) :
  let res := Details.GET toISOString docId w in
  (res_status res = 400%nat <-> falsy_str docId = true)
  /\ (res_status res = 404%nat
      <-> exists id : string,
            docId = Some id /\ id <> EmptyString /\ docs w !! id = None)
  /\ (res_status res = 200%nat
      <-> exists (id : string) (d : Doc.SimDoc),
            docId = Some id /\ id <> EmptyString /\ docs w !! id = Some d).
Proof.
  unfold Details.GET. destruct (falsy_str docId) eqn:Hf; simpl.
  - split; [split; auto|].
    split; (split; [discriminate|]).
    + intros (id & -> & Hne & _). rewrite (falsy_str_some _ Hne) in Hf.
      discriminate.
    + intros (id & d & -> & Hne & _). rewrite (falsy_str_some _ Hne) in Hf.
      discriminate.
  - destruct (falsy_str_false _ Hf) as (id & -> & Hne). simpl.
    destruct (docs w !! id) as [d|] eqn:Hd; simpl.
    + split; [split; discriminate|].
      split; split; try discriminate.
      * intros (id' & [= <-] & _ & H). congruence.
      * intros _. now exists id, d.
      * reflexivity.
    + split; [split; discriminate|].
      split; split; try discriminate.
      * intros _. now exists id.
      * reflexivity.
      * intros (id' & d & [= <-] & _ & H). congruence.
Qed.

(** X26.  What the analysis route answers with 200 is what the details
    route shows afterwards: the view of the same identifier is found and
    carries the returned analysis under the key analysis. *)
Theorem details_show_returned_analysis
    (docId : option string) (w w1 : World) (r : Response) :
  AnalyzeInterview.POST parse docId w = (Returned r, w1) ->
  res_status r = 200%nat ->
  exists body : json,
    Details.GET toISOString docId w1 = json_ok body
    /\ prop "analysis" body = Some (res_body r).
Proof.
  intros HP H200.
  destruct (analyze_success parse _ _ _ _ HP H200)
    as (id & d & -> & Hne & Hd & _ & [(Ha & _ & ->) | (_ & Hdocs & _)]).
  - destruct (details_members id d w Hne Hd)
      as (body & HG & _ & _ & _ & _ & HA).
    exists body. split; [exact HG | congruence].
  - destruct (details_members id (Doc.set_analysis (res_body r) "analyzed" d)
                w1 Hne) as (body & HG & _ & _ & _ & _ & HA).
    { rewrite Hdocs. apply lookup_insert_eq. }
    exists body. split; [exact HG | exact HA].
Qed.

(** X27.  A simulation the details route has shown stays available: after
    any sequence of page operations and analysis requests the route still
    finds it, with the same identifier, team size, domain and creation
    time, and with the same analysis when it showed a truthy one. *)
Theorem details_stay_available
    (ops : list Op) (docId : option string) (w : World) (body : json) :
  Details.GET toISOString docId w = json_ok body ->
  exists body1 : json,
    Details.GET toISOString docId (run parse ops w) = json_ok body1
    /\ prop "id" body1 = prop "id" body
    /\ prop "teamSize" body1 = prop "teamSize" body
    /\ prop "domain" body1 = prop "domain" body
    /\ prop "createdAt" body1 = prop "createdAt" body
    /\ (truthy_opt (prop "analysis" body) = true ->
        prop "analysis" body1 = prop "analysis" body).
Proof.
  intros HG. destruct (details_found _ _ _ HG) as (id & d & -> & Hne & Hd).
  destruct (details_members id d w Hne Hd)
    as (b & HG' & B1 & B2 & B3 & B4 & B5).
  rewrite HG in HG'. injection HG' as <-.
  destruct (run_keeps parse ops w id d Hd)
    as (d1 & Hd1 & (K1 & K2 & K3 & K4) & K5).
  destruct (details_members id d1 _ Hne Hd1)
    as (body1 & HG1 & C1 & C2 & C3 & C4 & C5).
  exists body1. split; [exact HG1|].
  rewrite B1, B2, B3, B4, B5, C1, C2, C3, C4, C5, K1, K2, K4.
  repeat split. exact K5.
Qed.

End DetailsProperties.

Lemma details_view_witness :
  let w := example_world (Some (example_doc example_transcript None)) [] in
  exists (body : json) (entries : list json),
    Details.GET example_date (Some "sim1") w = json_ok body
    /\ prop "transcript" body = Some (JArray entries)
    /\ entries !! 1%nat
       = Some (JObject [("role", JString "user");
                        ("content", JString team_text)]).
Proof.
  intros w.
  destruct (details_view example_date "sim1"
              (example_doc example_transcript None) w sim1_nonempty
              ltac:(apply lookup_singleton_eq))
    as (body & entries & H1 & _ & _ & _ & _ & H2 & _ & _).
  exists body, entries. split; [exact H1|]. split; [exact H2|].
  pose proof H1 as E. vm_compute in E. injection E as <-.
  vm_compute in H2. injection H2 as <-. reflexivity.
Defined.

Lemma details_show_returned_analysis_witness :
  let w := example_world (Some (example_doc example_transcript None))
                         [answers small_analysis_text] in
  let out := AnalyzeInterview.POST Ecma.parse (Some "sim1") w in
  exists body : json,
    Details.GET example_date (Some "sim1") (snd out) = json_ok body
    /\ prop "analysis" body = Some (JObject [("overallScore", JNumber 70)]).
Proof.
  intros w out.
  apply (details_show_returned_analysis Ecma.parse example_date
           (Some "sim1") w (snd out)
           (json_ok (JObject [("overallScore", JNumber 70)]))).
  - vm_compute. reflexivity.
  - reflexivity.
Defined.

Lemma details_stay_available_witness :
  let w := interview_world team_text
             [answers "Host: And the press?"; answers small_analysis_text] in
  let ops := [OpSubmit; OpFinish; OpAnalyze (Some "sim1")] in
  exists body body1 : json,
    Details.GET example_date (Some "sim1") w = json_ok body
    /\ Details.GET example_date (Some "sim1") (run Ecma.parse ops w)
       = json_ok body1
    /\ prop "createdAt" body1 = prop "createdAt" body.
Proof.
  intros w ops.
  destruct (details_stay_available Ecma.parse example_date ops
              (Some "sim1") w
              (Details.simulationResponse example_date "sim1"
                 (pending_doc short_transcript))
              ltac:(vm_compute; reflexivity))
    as (body1 & H1 & _ & _ & _ & H2 & _).
  eexists. exists body1. split; [|split; [exact H1 | exact H2]].
  vm_compute. reflexivity.
Defined.
